(** * OFDM resource grid: pilot patterns, type grid, mapper and demapper

    A shallow embedding of [sionna/phy/ofdm/pilot_pattern.py] and
    [sionna/phy/ofdm/resource_grid.py].

    Modelling conventions.
    - A TensorFlow / NumPy tensor is a shape together with its row-major
      buffer ([tensor]); every operation of the two libraries that the code
      calls is a function of that name on [tensor].
    - Python integers are [Z]; extents and positions inside a tensor are
      [nat].  The extents of a tensor and the counts of its entries are
      below the 32-bit limit of [tf.int32]; where the code casts a NumPy
      integer that is not such a count to [tf.int32], the cast is modelled
      ([tf_cast_int32_scalar]).
    - Python exceptions are the constructors of [error]; a computation that
      may raise returns a [result].
    - The complex dtype is a carrier with the operations the code applies
      to it ([Dtype]); [complex_dtype] instantiates it with IEEE 754
      numbers in single or double precision ([SpecFloat]), [int_dtype] with
      integers.
    - The float64 scalars of [dc_ind] and of the Kronecker allocator are
      quotients of integers; they are computed on exact rationals, which is
      what float64 arithmetic yields as long as the integers are below
      [2^53] in magnitude.  Statements that depend on the value of such a
      quotient carry that bound.  A division by zero yields NumPy's
      non-finite value, modelled by [None]. *)

From Stdlib Require Import ZArith List Lia Bool Arith PeanoNat QArith Permutation.
From Stdlib Require Import SpecFloat.
From Stdlib Require Strings.String.
Import ListNotations.
Import Strings.String.StringSyntax.
Close Scope Q_scope.
Open Scope nat_scope.
Delimit Scope string_scope with string.

Set Implicit Arguments.

(** ** Exceptions *)

Inductive error : Type :=
| AssertionError (msg : String.string)
| ValueError (msg : String.string)
| IndexError
| InvalidArgumentError (msg : String.string).

Arguments AssertionError msg%_string.
Arguments ValueError msg%_string.
Arguments InvalidArgumentError msg%_string.

Inductive result (T : Type) : Type :=
| Ok (v : T)
| Raise (e : error).
Arguments Ok {T} v.
Arguments Raise {T} e.

Definition bind {T U : Type} (r : result T) (k : T -> result U) : result U :=
  match r with
  | Ok v => k v
  | Raise e => Raise e
  end.

Notation "x <- r ;; k" := (bind r (fun x => k))
  (at level 61, r at next level, right associativity).

(** [assert c, msg] of Python. *)
Definition assert (c : bool) (msg : String.string) : result unit :=
  if c then Ok tt else Raise (AssertionError msg).

Arguments assert c msg%_string.

Definition succeeds {T : Type} (r : result T) : Prop := exists v, r = Ok v.

Definition fails {T : Type} (r : result T) : Prop := exists e, r = Raise e.

Definition is_assertion (e : error) : bool :=
  match e with AssertionError _ => true | _ => false end.

(** ** Tensors *)

Record tensor (T : Type) : Type := Tensor { shape : list nat; data : list T }.

Definition size (s : list nat) : nat := fold_right Nat.mul 1 s.

Definition rank {T} (t : tensor T) : nat := length (shape t).

(** Extent of axis [k]; [dim_last] is [shape[-1]]. *)
Definition dim {T} (t : tensor T) (k : nat) : nat := nth k (shape t) 0.

Definition dim_last {T} (t : tensor T) : nat := last (shape t) 0.

Definition tensor_wf {T} (t : tensor T) : Prop := length (data t) = size (shape t).

(** Row-major offset of a multi-index. *)
Fixpoint ravel (s idx : list nat) : nat :=
  match s, idx with
  | _ :: s', i :: idx' => i * size s' + ravel s' idx'
  | _, _ => 0
  end.

(** All multi-indices of a shape, in row-major order. *)
Fixpoint indices (s : list nat) : list (list nat) :=
  match s with
  | [] => [[]]
  | d :: s' => flat_map (fun i => map (cons i) (indices s')) (seq 0 d)
  end.

Definition in_bounds (idx s : list nat) : Prop := Forall2 lt idx s.

Fixpoint in_boundsb (idx s : list nat) : bool :=
  match idx, s with
  | [], [] => true
  | i :: idx', d :: s' => (i <? d) && in_boundsb idx' s'
  | _, _ => false
  end.

Definition get {T} (d : T) (t : tensor T) (idx : list nat) : T :=
  nth (ravel (shape t) idx) (data t) d.

Definition tabulate {T} (s : list nat) (f : list nat -> T) : tensor T :=
  Tensor s (map f (indices s)).

Definition full {T} (s : list nat) (v : T) : tensor T :=
  Tensor s (repeat v (size s)).

Definition tmap {T U} (f : T -> U) (t : tensor T) : tensor U :=
  Tensor (shape t) (map f (data t)).

(** The entries along the last axis at a leading multi-index. *)
Definition row {T} (d : T) (t : tensor T) (lead : list nat) : list T :=
  map (fun c => get d t (lead ++ [c])) (seq 0 (dim_last t)).

(** The entries below a leading multi-index, in row-major order. *)
Definition block {T} (d : T) (t : tensor T) (lead : list nat) : list T :=
  map (fun tl => get d t (lead ++ tl))
      (indices (skipn (length lead) (shape t))).

Fixpoint list_eqb (l1 l2 : list nat) : bool :=
  match l1, l2 with
  | [], [] => true
  | a :: l1', b :: l2' => (a =? b) && list_eqb l1' l2'
  | _, _ => false
  end.

(** Position of the first occurrence of a multi-index in a list. *)
Fixpoint index_of (idx : list nat) (l : list (list nat)) : option nat :=
  match l with
  | [] => None
  | a :: l' => if list_eqb idx a then Some 0
               else option_map S (index_of idx l')
  end.

(** ** Python sequences *)

(** [range(a, b)]. *)
Definition py_range (a b : Z) : list Z :=
  map (fun k => (a + Z.of_nat k)%Z) (seq 0 (Z.to_nat (b - a))).

(** Position denoted by a slice bound [i] on a sequence of length [n]:
    a negative bound counts from the end, and the result is clamped. *)
Definition py_slice_bound (n : nat) (i : Z) : nat :=
  Z.to_nat (Z.min (Z.of_nat n)
                  (Z.max 0 (if (i <? 0)%Z then i + Z.of_nat n else i))).

(** Position denoted by an index [i]; [IndexError] outside [-n, n). *)
Definition py_index (n : nat) (i : Z) : result nat :=
  if ((- Z.of_nat n <=? i) && (i <? Z.of_nat n))%Z
  then Ok (Z.to_nat (if (i <? 0)%Z then i + Z.of_nat n else i))
  else Raise IndexError.

(** [a[k]] on a one-dimensional array. *)
Definition np_item (a : list Z) (k : Z) : result Z :=
  p <- py_index (length a) k ;; Ok (nth p a 0%Z).

(** [np.delete(a, i)]. *)
Definition np_delete (a : list Z) (i : Z) : result (list Z) :=
  p <- py_index (length a) i ;; Ok (firstn p a ++ skipn (S p) a).

Definition np_sum (a : list Z) : Z := fold_right Z.add 0%Z a.

Fixpoint mapM {T U} (f : T -> result U) (l : list T) : result (list U) :=
  match l with
  | [] => Ok []
  | a :: l' => b <- f a ;; r <- mapM f l' ;; Ok (b :: r)
  end.

(** A list of Python integers used as a shape. *)
Definition to_shape (dims : list Z) : result (list nat) :=
  if forallb (fun d => (0 <=? d)%Z) dims
  then Ok (map Z.to_nat dims)
  else Raise (ValueError "negative dimensions are not allowed").

(** ** TensorFlow and NumPy operations *)

(** [tf.zeros(shape)], [np.zeros(shape)], [v*tf.ones(shape)]. *)
Definition filled {T} (dims : list Z) (v : T) : result (tensor T) :=
  s <- to_shape dims ;; Ok (full s v).

(** [tf.cast(mask, tf.int32)] on a boolean tensor. *)
Definition tf_cast_int32 (t : tensor bool) : tensor Z :=
  tmap (fun b : bool => if b then 1%Z else 0%Z) t.

(** [tf.cast(n, tf.int32)] on an integer scalar: the low 32 bits, read as
    a signed number. *)
Definition tf_cast_int32_scalar (n : Z) : Z :=
  ((n + 2147483648) mod 4294967296 - 2147483648)%Z.

(** [tf.expand_dims(t, -1)] and [tf.squeeze(t, -1)]. *)
Definition tf_expand_dims_last {T} (t : tensor T) : tensor T :=
  Tensor (shape t ++ [1]) (data t).

Definition tf_squeeze_last {T} (t : tensor T) : tensor T :=
  Tensor (removelast (shape t)) (data t).

(** Position of [a] in a permutation. *)
Fixpoint find_pos (a : nat) (perm : list nat) : nat :=
  match perm with
  | [] => 0
  | p :: perm' => if p =? a then 0 else S (find_pos a perm')
  end.

Definition is_perm (perm : list nat) (r : nat) : bool :=
  (length perm =? r) && forallb (fun a => existsb (Nat.eqb a) perm) (seq 0 r).

(** [tf.transpose(t, perm)]: axis [k] of the output is axis [perm[k]] of
    the input. *)
Definition tf_transpose {T} (d : T) (perm : list nat) (t : tensor T)
  : result (tensor T) :=
  if is_perm perm (rank t)
  then Ok (tabulate (map (fun p => dim t p) perm)
             (fun idx => get d t (map (fun a => nth (find_pos a perm) idx 0)
                                      (seq 0 (rank t)))))
  else Raise (InvalidArgumentError "transpose: perm is not a permutation").

(** [tf.gather(t, ind, axis=axis)] with a one-dimensional [ind]. *)
Definition tf_gather {T} (d : T) (t : tensor T) (ind : list Z) (axis : nat)
  : result (tensor T) :=
  if (axis <? rank t)
     && forallb (fun i => (0 <=? i)%Z && (i <? Z.of_nat (dim t axis))%Z) ind
  then Ok (tabulate (firstn axis (shape t) ++ [length ind]
                       ++ skipn (S axis) (shape t))
             (fun idx => get d t (firstn axis idx
                                    ++ [Z.to_nat (nth (nth axis idx 0) ind 0%Z)]
                                    ++ skipn (S axis) idx)))
  else Raise (InvalidArgumentError "gather: index out of range").

(** [tf.gather(t, ind, batch_dims=2, axis=2)]: [ind] has the two leading
    axes of [t] and one axis of positions. *)
Definition tf_gather_batch2 {T} (d : T) (t : tensor T) (ind : tensor nat)
  : result (tensor T) :=
  if (rank ind =? 3) && (3 <=? rank t)
     && list_eqb (firstn 2 (shape ind)) (firstn 2 (shape t))
     && forallb (fun p => p <? dim t 2) (data ind)
  then Ok (tabulate (shape ind ++ skipn 3 (shape t))
             (fun idx => get d t (firstn 2 idx
                                    ++ [get 0 ind (firstn 3 idx)]
                                    ++ skipn 3 idx)))
  else Raise (InvalidArgumentError "gather: shape or index mismatch").

(** [tf.where(t == v)]: the multi-indices holding [v], row-major. *)
Definition tf_where (t : tensor Z) (v : Z) : list (list nat) :=
  filter (fun idx => (get 0%Z t idx =? v)%Z) (indices (shape t)).

(** [tf.broadcast_to(t, s)] for a shape of the rank of [t]. *)
Definition tf_broadcast_to {T} (d : T) (t : tensor T) (s : list nat)
  : result (tensor T) :=
  if (length s =? rank t)
     && forallb (fun p => (fst p =? snd p) || (fst p =? 1))
                (combine (shape t) s)
  then Ok (tabulate s
             (fun idx => get d t (map (fun p => if snd p =? 1 then 0 else fst p)
                                      (combine idx (shape t)))))
  else Raise (InvalidArgumentError "broadcast_to: incompatible shapes").

(** [x[..., :i]] and [x[..., i:]]. *)
Definition slice_last_to {T} (d : T) (t : tensor T) (i : Z) : tensor T :=
  let k := py_slice_bound (dim_last t) i in
  tabulate (removelast (shape t) ++ [k]) (get d t).

Definition slice_last_from {T} (d : T) (t : tensor T) (i : Z) : tensor T :=
  let k := py_slice_bound (dim_last t) i in
  tabulate (removelast (shape t) ++ [dim_last t - k])
    (fun idx => get d t (removelast idx ++ [k + last idx 0])).

(** Entry [c] along the last axis of a concatenation. *)
Fixpoint concat_pick {T} (d : T) (ts : list (tensor T)) (lead : list nat)
  (c : nat) : T :=
  match ts with
  | [] => d
  | t :: ts' => if c <? dim_last t then get d t (lead ++ [c])
                else concat_pick d ts' lead (c - dim_last t)
  end.

(** [tf.concat(ts, -1)]. *)
Definition tf_concat_last {T} (d : T) (ts : list (tensor T))
  : result (tensor T) :=
  match ts with
  | [] => Raise (InvalidArgumentError "concat: no input")
  | t0 :: _ =>
      if (1 <=? rank t0)
         && forallb (fun t => (rank t =? rank t0)
                              && list_eqb (removelast (shape t))
                                          (removelast (shape t0))) ts
      then Ok (tabulate (removelast (shape t0) ++ [list_sum (map dim_last ts)])
                 (fun idx => concat_pick d ts (removelast idx) (last idx 0)))
      else Raise (InvalidArgumentError "concat: shapes do not match")
  end.

(** [tf.reduce_sum(t, axis=(-2,-1))]. *)
Definition tf_reduce_sum_last2 (t : tensor Z) : tensor Z :=
  tabulate (firstn (rank t - 2) (shape t))
    (fun idx => fold_right Z.add 0%Z (block 0%Z t idx)).

(** [tf.reduce_min(t)] and [tf.reduce_max(t)] on [int32]; the reduction of
    no element is the neutral element of the type. *)
Definition tf_reduce_min (t : tensor Z) : Z :=
  match data t with
  | [] => 2147483647%Z
  | x :: l => fold_left Z.min l x
  end.

Definition tf_reduce_max (t : tensor Z) : Z :=
  match data t with
  | [] => (-2147483648)%Z
  | x :: l => fold_left Z.max l x
  end.

(** Stable insertion of a position into positions sorted by [key]. *)
Fixpoint insert_by (key : nat -> Z) (p : nat) (l : list nat) : list nat :=
  match l with
  | [] => [p]
  | q :: l' => if (key p <=? key q)%Z then p :: l
               else q :: insert_by key p l'
  end.

(** [tf.argsort] of a vector, ascending; equal keys keep their order. *)
Definition argsort (v : list Z) : list nat :=
  fold_right (insert_by (fun p => nth p v 0%Z)) [] (seq 0 (length v)).

(** [tf.argsort(t, direction="ASCENDING")] along the last axis. *)
Definition tf_argsort (t : tensor Z) : tensor nat :=
  tabulate (shape t)
    (fun idx => nth (last idx 0) (argsort (row 0%Z t (removelast idx))) 0).

(** The test of the scatter kernels on empty operands
    ([ValidEmptyOutputShape]): with no index and no update every output
    shape is accepted; otherwise output, indices and updates must all hold
    at least one element. *)
Definition valid_empty_output (num_inputs num_indices num_updates : nat)
  : bool :=
  ((num_indices =? 0) && (num_updates =? 0))
  || (negb (num_inputs =? 0) && negb (num_indices =? 0)
      && negb (num_updates =? 0)).

(** [tf.scatter_nd(ind, updates, s)] with full-depth indices: the updates
    sent to one position are summed into a zero tensor. *)
Definition tf_scatter_nd {T} (zero : T) (add : T -> T -> T)
  (ind : list (list nat)) (updates : tensor T) (s : list nat)
  : result (tensor T) :=
  if negb (valid_empty_output (size s) (length ind * length s)
             (size (shape updates)))
  then Raise (InvalidArgumentError
                "Indices and updates specified for empty output shape")
  else if list_eqb (shape updates) [length ind]
          && forallb (fun idx => in_boundsb idx s) ind
  then Ok (tabulate s
             (fun idx => fold_left add
                           (map snd (filter (fun p => list_eqb idx (fst p))
                                            (combine ind (data updates))))
                           zero))
  else Raise (InvalidArgumentError "scatter_nd: shape or index mismatch").

(** [tf.tensor_scatter_nd_update(t, ind, updates)] with indices of depth
    [k]: slice [ind[n]] of [t] is replaced by [updates[n]].  An empty [t]
    is refused unless there is nothing to write. *)
Definition tf_tensor_scatter_nd_update {T} (d : T) (t : tensor T) (k : nat)
  (ind : list (list nat)) (updates : tensor T) : result (tensor T) :=
  if negb (valid_empty_output (size (shape t)) (length ind * k)
             (size (shape updates)))
  then Raise (InvalidArgumentError
                "Indices and updates specified for empty output shape")
  else if list_eqb (shape updates) (length ind :: skipn k (shape t))
          && forallb (fun idx => in_boundsb idx (firstn k (shape t))) ind
  then Ok (tabulate (shape t)
             (fun idx => match index_of (firstn k idx) ind with
                         | Some n => get d updates (n :: skipn k idx)
                         | None => get d t idx
                         end))
  else Raise (InvalidArgumentError "scatter update: shape or index mismatch").

(** [x[..., rows, :] = v] with a list of row indices. *)
Definition np_set_rows {T} (d : T) (t : tensor T) (rows : list Z) (v : T)
  : result (tensor T) :=
  let axis := rank t - 2 in
  rs <- mapM (py_index (dim t axis)) rows ;;
  Ok (tabulate (shape t)
        (fun idx => if existsb (Nat.eqb (nth axis idx 0)) rs then v
                    else get d t idx)).

(** Length of [range(off, n, step)] for [off >= 0] and [step > 0]. *)
Definition stride_len (n off step : nat) : nat :=
  if off <? n then (n - off + step - 1) / step else 0.

(** [x[i, j, :, off::step] = p] on a four-dimensional [x], with [p] of shape
    [1, 1, rows, k]: [k] must be the length of the strided slice, or 1. *)
Definition np_set_strided {T} (d : T) (x : tensor T) (i j off step : nat)
  (p : tensor T) : result (tensor T) :=
  if step =? 0 then Raise (ValueError "slice step cannot be zero")
  else if negb ((i <? dim x 0) && (j <? dim x 1)) then Raise IndexError
  else
    let len := stride_len (dim x 3) off step in
    if (rank x =? 4) && (rank p =? 4) && (dim p 0 =? 1) && (dim p 1 =? 1)
       && ((dim p 2 =? dim x 2) || (dim p 2 =? 1))
       && ((dim p 3 =? len) || (dim p 3 =? 1))
    then Ok (tabulate (shape x)
               (fun idx =>
                  let c := nth 3 idx 0 in
                  if (nth 0 idx 0 =? i) && (nth 1 idx 0 =? j)
                     && (off <=? c) && ((c - off) mod step =? 0)
                  then get d p [0; 0;
                                if dim p 2 =? 1 then 0 else nth 2 idx 0;
                                if dim p 3 =? 1 then 0 else (c - off) / step]
                  else get d x idx))
    else Raise (ValueError "could not broadcast input array").

(** [np.reshape(x, [a, b, -1])]. *)
Definition np_reshape_3 {T} (x : tensor T) (a b : nat) : result (tensor T) :=
  if (a * b =? 0) || negb (size (shape x) mod (a * b) =? 0)
  then Raise (ValueError "cannot reshape array")
  else Ok (Tensor [a; b; size (shape x) / (a * b)] (data x)).

(** [for i in range(n)] threading a state through a body that may raise. *)
Definition for_range {S} (n : Z) (body : nat -> S -> result S) (s : S)
  : result S :=
  fold_left (fun acc i => s' <- acc ;; body i s') (seq 0 (Z.to_nat n)) (Ok s).

(** *** NumPy floating-point scalars

    A [np.float64] produced by the allocator is an exact rational, or [None]
    when a division by zero made it infinite or not a number.  The
    allocator divides integers; while they are below [2^53] in magnitude
    they are float64 numbers and the float64 quotient is a whole number
    exactly when the rational one is. *)
Definition np_float := option Q.

Definition np_true_divide (a : np_float) (b : Z) : np_float :=
  match a with
  | Some x => if (b =? 0)%Z then None else Some (x / inject_Z b)%Q
  | None => None
  end.

(** [x % 1 == 0]. *)
Definition is_integral (x : np_float) : bool :=
  match x with
  | Some q => (Qnum q mod Zpos (Qden q) =? 0)%Z
  | None => false
  end.

(** [int(x)]: truncation towards zero. *)
Definition Qtrunc (q : Q) : Z := Z.quot (Qnum q) (Zpos (Qden q)).

Definition py_int (x : np_float) : Z :=
  match x with
  | Some q => Qtrunc q
  | None => 0%Z
  end.

(** *** Helpers of [sionna.phy.utils] *)

(** Modelled from the spec: [flatten_last_dims] of [sionna.phy.utils], whose
    source is not part of the material; it merges the last [num_dims] axes
    into one ("flatten the (ofdm_symbol, effective_subcarrier) axes into one
    linear resource-element axis"). *)
Definition flatten_last_dims {T} (t : tensor T) (num_dims : nat)
  : result (tensor T) :=
  if (2 <=? num_dims) && (num_dims <=? rank t)
  then Ok (Tensor (firstn (rank t - num_dims) (shape t)
                     ++ [size (skipn (rank t - num_dims) (shape t))])
                  (data t))
  else Raise (InvalidArgumentError "flatten_last_dims: num_dims").

(** Modelled from the spec: [flatten_dims] of [sionna.phy.utils], whose
    source is not part of the material; it merges [num_dims] axes starting
    at [axis] into one ("flatten the receive-antenna axes into one linear
    stream axis"). *)
Definition flatten_dims {T} (t : tensor T) (num_dims axis : nat)
  : result (tensor T) :=
  if (2 <=? num_dims) && (num_dims + axis <=? rank t)
  then Ok (Tensor (firstn axis (shape t)
                     ++ [size (firstn num_dims (skipn axis (shape t)))]
                     ++ skipn (axis + num_dims) (shape t))
                  (data t))
  else Raise (InvalidArgumentError "flatten_dims: num_dims or axis").

(** Modelled from the spec: [split_dim] of [sionna.phy.utils], whose source
    is not part of the material; it reshapes axis [axis] into the axes [s]
    ("reshape the reordered linear axis into explicit (tx, stream) axes"). *)
Definition split_dim {T} (t : tensor T) (s : list Z) (axis : nat)
  : result (tensor T) :=
  s' <- to_shape s ;;
  if (axis <? rank t) && (size s' =? dim t axis)
  then Ok (Tensor (firstn axis (shape t) ++ s' ++ skipn (S axis) (shape t))
                  (data t))
  else Raise (InvalidArgumentError "split_dim: axis or shape").

(** ** The complex dtype and the symbol source *)

(** Operations on complex values that the code uses: the zero of
    [tf.zeros], the sum of [tf.scatter_nd], the product and the
    floating-point scale [1/sqrt(mean(|p|^2))] of the pilot normalisation,
    and the symbols of [QAMSource(2, seed)]: [QAMSource seed c m] is symbol
    [m] of the [c]-th call of a source created with [seed]. *)
Class Dtype (A : Type) : Type := {
  zero : A;
  add : A -> A -> A;
  mul : A -> A -> A;
  rsqrt_mean_energy : list A -> A;
  QAMSource : Z -> nat -> nat -> A
}.

(** [qam_source(s)]: one call, returning a tensor of shape [s]. *)
Definition qam_source {A} `{Dtype A} (seed : Z) (call : nat) (s : list nat)
  : tensor A :=
  tabulate s (fun idx => QAMSource seed call (ravel s idx)).

(** ** pilot_pattern.py: class PilotPattern *)

Record PilotPattern (A : Type) : Type := {
  _mask : tensor Z;
  _pilots : tensor A;
  _normalize : bool
}.

Section PilotPattern.
Context {A : Type} `{Dtype A}.

Definition PilotPattern_num_tx (self : PilotPattern A) : nat :=
  dim (_mask self) 0.

Definition PilotPattern_num_streams_per_tx (self : PilotPattern A) : nat :=
  dim (_mask self) 1.

Definition PilotPattern_num_ofdm_symbols (self : PilotPattern A) : nat :=
  dim (_mask self) 2.

Definition PilotPattern_num_effective_subcarriers (self : PilotPattern A)
  : nat :=
  dim (_mask self) 3.

(** [tf.shape(self._pilots)[-1]]. *)
Definition PilotPattern_num_pilot_symbols (self : PilotPattern A) : Z :=
  Z.of_nat (dim_last (_pilots self)).

(** [tf.shape(self._mask)[-1]*tf.shape(self._mask)[-2]
     - self.num_pilot_symbols]. *)
Definition PilotPattern_num_data_symbols (self : PilotPattern A) : Z :=
  (Z.of_nat (dim_last (_mask self))
   * Z.of_nat (dim (_mask self) (rank (_mask self) - 2))
   - PilotPattern_num_pilot_symbols self)%Z.

Definition PilotPattern_set_normalize (self : PilotPattern A) (value : bool)
  : PilotPattern A :=
  {| _mask := _mask self; _pilots := _pilots self; _normalize := value |}.

Definition PilotPattern_mask (self : PilotPattern A) : tensor Z := _mask self.

(** [norm_pilots] of the [pilots] getter: every vector along the last axis
    is multiplied by its own scale. *)
Definition norm_pilots (self : PilotPattern A) : tensor A :=
  tabulate (shape (_pilots self))
    (fun idx => mul (rsqrt_mean_energy
                       (row zero (_pilots self) (removelast idx)))
                    (get zero (_pilots self) idx)).

(** The [pilots] property: getter. *)
Definition PilotPattern_pilots (self : PilotPattern A) : tensor A :=
  if _normalize self then norm_pilots self else _pilots self.

(** The [pilots] property: setter.  The precision cast changes neither the
    shape nor which entries are zero and is not modelled. *)
Definition PilotPattern_set_pilots (self : PilotPattern A) (v : tensor A)
  : PilotPattern A :=
  {| _mask := _mask self; _pilots := v; _normalize := _normalize self |}.

Definition PilotPattern_check_settings (self : PilotPattern A) : result bool :=
  _ <- assert (rank (_mask self) =? 4) "`mask` must have four dimensions." ;;
  _ <- assert (rank (_pilots self) =? 3)
         "`pilots` must have three dimensions." ;;
  _ <- assert (list_eqb (firstn 2 (shape (_mask self)))
                        (firstn 2 (shape (_pilots self))))
         "The first two dimensions of `mask` and `pilots` must be equal." ;;
  let num_pilots := tf_reduce_sum_last2 (_mask self) in
  _ <- assert (tf_reduce_min num_pilots =? tf_reduce_max num_pilots)%Z
         "The number of nonzero elements in the masks for all transmitters and streams must be identical." ;;
  _ <- assert (PilotPattern_num_pilot_symbols self
               =? tf_reduce_max num_pilots)%Z
         "The shape of the last dimension of `pilots` must equal the number of non-zero entries within the last two dimensions of `mask`." ;;
  Ok true.

(** [PilotPattern.__init__(mask, pilots, normalize)]. *)
Definition PilotPattern_init (mask : tensor bool) (pilots : tensor A)
  (normalize : bool) : result (PilotPattern A) :=
  let self := {| _mask := tf_cast_int32 mask;
                 _pilots := Tensor [] [];
                 _normalize := false |} in
  let self := PilotPattern_set_pilots self pilots in
  let self := PilotPattern_set_normalize self normalize in
  _ <- PilotPattern_check_settings self ;;
  Ok self.

(** ** pilot_pattern.py: class EmptyPilotPattern *)

Definition EmptyPilotPattern_init
  (num_tx num_streams_per_tx num_ofdm_symbols num_effective_subcarriers : Z)
  : result (PilotPattern A) :=
  _ <- assert (0 <? num_tx)%Z "`num_tx` must be positive`." ;;
  _ <- assert (0 <? num_streams_per_tx)%Z
         "`num_streams_per_tx` must be positive`." ;;
  _ <- assert (0 <? num_ofdm_symbols)%Z
         "`num_ofdm_symbols` must be positive`." ;;
  _ <- assert (0 <? num_effective_subcarriers)%Z
         "`num_effective_subcarriers` must be positive`." ;;
  let shape := [num_tx; num_streams_per_tx; num_ofdm_symbols;
                num_effective_subcarriers] in
  mask <- filled shape false ;;
  pilots <- filled (firstn 2 shape ++ [0%Z]) zero ;;
  PilotPattern_init mask pilots false.

End PilotPattern.

(** ** resource_grid.py: class ResourceGrid, attributes and properties *)

Record ResourceGrid (A : Type) : Type := {
  _num_ofdm_symbols : Z;
  _fft_size : Z;
  _subcarrier_spacing : Q;
  _cyclic_prefix_length : Z;
  _num_tx : Z;
  _num_streams_per_tx : Z;
  _num_guard_carriers : list Z;
  _dc_null : bool;
  _pilot_ofdm_symbol_indices : option (list Z);
  _pilot_pattern : PilotPattern A
}.

(** The [pilot_pattern] argument: [None], a string, a [PilotPattern]
    instance, or a value of another type. *)
Inductive pilot_pattern_arg (A : Type) : Type :=
| PatternNone
| PatternStr (s : String.string)
| PatternInstance (p : PilotPattern A)
| PatternOther.
Arguments PatternNone {A}.
Arguments PatternStr {A} s%_string.
Arguments PatternOther {A}.

Section ResourceGrid.
Context {A : Type} `{Dtype A}.

Definition ResourceGrid_num_effective_subcarriers (self : ResourceGrid A) : Z :=
  (_fft_size self - Z.b2z (_dc_null self)
   - np_sum (_num_guard_carriers self))%Z.

(** [int(self._fft_size/2 - (self._fft_size%2==1)/2)]; the float64
    operations are exact for an FFT size below [2^53] in magnitude. *)
Definition ResourceGrid_dc_ind (self : ResourceGrid A) : Z :=
  Qtrunc (inject_Z (_fft_size self) / 2
          - inject_Z (Z.b2z (_fft_size self mod 2 =? 1)%Z) / 2)%Q.

Definition ResourceGrid_num_resource_elements (self : ResourceGrid A) : Z :=
  (_fft_size self * _num_ofdm_symbols self)%Z.

Definition ResourceGrid_num_pilot_symbols (self : ResourceGrid A) : Z :=
  PilotPattern_num_pilot_symbols (_pilot_pattern self).

(** [num_data_symbols]: the difference is taken with the [tf.int32]
    tensor [num_pilot_symbols] and is a [tf.int32] tensor itself, a count
    of entries of the mask when the pattern has the extents of the grid;
    the final cast to [tf.int32] leaves it as it is. *)
Definition ResourceGrid_num_data_symbols (self : ResourceGrid A) : Z :=
  (ResourceGrid_num_effective_subcarriers self * _num_ofdm_symbols self
   - ResourceGrid_num_pilot_symbols self)%Z.

Definition ResourceGrid_effective_subcarrier_ind (self : ResourceGrid A)
  : result (list Z) :=
  let num_gc := _num_guard_carriers self in
  gc0 <- np_item num_gc 0 ;;
  gc1 <- np_item num_gc 1 ;;
  let sc_ind := py_range gc0 (_fft_size self - gc1) in
  if _dc_null self
  then np_delete sc_ind (ResourceGrid_dc_ind self - gc0)
  else Ok sc_ind.

(** ** pilot_pattern.py: class KroneckerPilotPattern *)

Definition divisibility_message : String.string :=
  "`num_effective_subcarriers` must be an integer multiple of `num_tx`*`num_streams_per_tx`."%string.

Definition KroneckerPilotPattern_init (resource_grid : ResourceGrid A)
  (pilot_ofdm_symbol_indices : list Z) (normalize : bool) (seed : Z)
  : result (PilotPattern A) :=
  let num_tx := _num_tx resource_grid in
  let num_streams_per_tx := _num_streams_per_tx resource_grid in
  let num_ofdm_symbols := _num_ofdm_symbols resource_grid in
  let num_effective_subcarriers :=
    ResourceGrid_num_effective_subcarriers resource_grid in
  let num_pilot_symbols := Z.of_nat (length pilot_ofdm_symbol_indices) in
  let num_seq := (num_tx * num_streams_per_tx)%Z in
  let num_pilots :=
    np_true_divide
      (Some (inject_Z (num_pilot_symbols * num_effective_subcarriers)))
      num_seq in
  _ <- assert (is_integral (np_true_divide num_pilots num_pilot_symbols))
         divisibility_message ;;
  let num_pilots_per_symbol :=
    py_int (np_true_divide num_pilots num_pilot_symbols) in
  mask <- filled [num_tx; num_streams_per_tx; num_ofdm_symbols;
                  num_effective_subcarriers] false ;;
  pilots <- filled [num_tx; num_streams_per_tx; num_pilot_symbols;
                    num_effective_subcarriers] zero ;;
  mask <- np_set_rows false mask pilot_ofdm_symbol_indices true ;;
  pilots <-
    for_range num_tx
      (fun i pilots =>
         for_range num_streams_per_tx
           (fun j pilots =>
              let call := i * Z.to_nat num_streams_per_tx + j in
              let p := qam_source seed call
                         [1; 1; Z.to_nat num_pilot_symbols;
                          Z.to_nat num_pilots_per_symbol] in
              np_set_strided zero pilots i j
                (i * Z.to_nat num_streams_per_tx + j) (Z.to_nat num_seq) p)
           pilots)
      pilots ;;
  pilots <- np_reshape_3 pilots (Z.to_nat num_tx)
              (Z.to_nat num_streams_per_tx) ;;
  PilotPattern_init mask pilots normalize.

(** ** resource_grid.py: class ResourceGrid, construction *)

(** The [pilot_pattern] setter. *)
Definition ResourceGrid_set_pilot_pattern (self : ResourceGrid A)
  (value : pilot_pattern_arg A) : result (ResourceGrid A) :=
  let empty :=
    EmptyPilotPattern_init (_num_tx self) (_num_streams_per_tx self)
      (_num_ofdm_symbols self) (ResourceGrid_num_effective_subcarriers self) in
  value <-
    match value with
    | PatternNone => empty
    | PatternInstance p => Ok p
    | PatternStr s =>
        _ <- assert (String.eqb s "kronecker" || String.eqb s "empty")
               "Unknown pilot pattern" ;;
        if String.eqb s "empty" then empty
        else
          match _pilot_ofdm_symbol_indices self with
          | None =>
              Raise (AssertionError "You must provide pilot_ofdm_symbol_indices.")
          | Some indices => KroneckerPilotPattern_init self indices true 0
          end
    | PatternOther => Raise (ValueError "Unsupported pilot_pattern")
    end ;;
  Ok {| _num_ofdm_symbols := _num_ofdm_symbols self;
        _fft_size := _fft_size self;
        _subcarrier_spacing := _subcarrier_spacing self;
        _cyclic_prefix_length := _cyclic_prefix_length self;
        _num_tx := _num_tx self;
        _num_streams_per_tx := _num_streams_per_tx self;
        _num_guard_carriers := _num_guard_carriers self;
        _dc_null := _dc_null self;
        _pilot_ofdm_symbol_indices := _pilot_ofdm_symbol_indices self;
        _pilot_pattern := value |}.

Definition ResourceGrid_check_settings (self : ResourceGrid A) : result bool :=
  _ <- assert (0 <? _num_ofdm_symbols self)%Z
         "`num_ofdm_symbols` must be positive`." ;;
  _ <- assert (0 <? _fft_size self)%Z "`fft_size` must be positive`." ;;
  _ <- assert (0 <=? _cyclic_prefix_length self)%Z
         "`cyclic_prefix_length must be nonnegative." ;;
  _ <- assert (_cyclic_prefix_length self <=? _fft_size self)%Z
         "`cyclic_prefix_length cannot be longer than `fft_size`." ;;
  _ <- assert (0 <? _num_tx self)%Z "`num_tx` must be positive`." ;;
  _ <- assert (0 <? _num_streams_per_tx self)%Z
         "`num_streams_per_tx` must be positive`." ;;
  _ <- assert (length (_num_guard_carriers self) =? 2)
         "`num_guard_carriers` must have two elements." ;;
  _ <- assert (forallb (fun g => (0 <=? g)%Z) (_num_guard_carriers self))
         "`num_guard_carriers` must have nonnegative entries." ;;
  _ <- assert (np_sum (_num_guard_carriers self)
               <=? _fft_size self - Z.b2z (_dc_null self))%Z
         "Total number of guardcarriers cannot be larger than `fft_size`." ;;
  Ok true.

(** The pattern of an object whose [_pilot_pattern] is not bound yet. *)
Definition unbound_pattern : PilotPattern A :=
  {| _mask := Tensor [] []; _pilots := Tensor [] []; _normalize := false |}.

(** [ResourceGrid.__init__]. *)
Definition ResourceGrid_init (num_ofdm_symbols fft_size : Z)
  (subcarrier_spacing : Q) (num_tx num_streams_per_tx : Z)
  (cyclic_prefix_length : Z) (num_guard_carriers : list Z) (dc_null : bool)
  (pilot_pattern : pilot_pattern_arg A)
  (pilot_ofdm_symbol_indices : option (list Z)) : result (ResourceGrid A) :=
  let self := {| _num_ofdm_symbols := num_ofdm_symbols;
                 _fft_size := fft_size;
                 _subcarrier_spacing := subcarrier_spacing;
                 _cyclic_prefix_length := cyclic_prefix_length;
                 _num_tx := num_tx;
                 _num_streams_per_tx := num_streams_per_tx;
                 _num_guard_carriers := num_guard_carriers;
                 _dc_null := dc_null;
                 _pilot_ofdm_symbol_indices := pilot_ofdm_symbol_indices;
                 _pilot_pattern := unbound_pattern |} in
  self <- ResourceGrid_set_pilot_pattern self pilot_pattern ;;
  _ <- ResourceGrid_check_settings self ;;
  Ok self.

Definition ResourceGrid_build_type_grid (self : ResourceGrid A)
  : result (tensor Z) :=
  let shape := [_num_tx self; _num_streams_per_tx self;
                _num_ofdm_symbols self] in
  g0 <- np_item (_num_guard_carriers self) 0 ;;
  g1 <- np_item (_num_guard_carriers self) 1 ;;
  gc_l <- filled (shape ++ [g0]) 2%Z ;;
  gc_r <- filled (shape ++ [g1]) 2%Z ;;
  dc <- filled (shape ++ [Z.b2z (_dc_null self)]) 3%Z ;;
  let mask := PilotPattern_mask (_pilot_pattern self) in
  let split_ind := (ResourceGrid_dc_ind self - g0)%Z in
  tf_concat_last 0%Z [gc_l;
                      slice_last_to 0%Z mask split_ind;
                      dc;
                      slice_last_from 0%Z mask split_ind;
                      gc_r].

(** ** resource_grid.py: class ResourceGridMapper *)

Record ResourceGridMapper : Type := {
  mapper_resource_grid : ResourceGrid A;
  _rg_type : tensor Z;
  _pilot_ind : list (list nat);
  mapper_data_ind : list (list nat)
}.

Definition ResourceGridMapper_init (resource_grid : ResourceGrid A)
  : result ResourceGridMapper :=
  rg_type <- ResourceGrid_build_type_grid resource_grid ;;
  Ok {| mapper_resource_grid := resource_grid;
        _rg_type := rg_type;
        _pilot_ind := tf_where rg_type 1;
        mapper_data_ind := tf_where rg_type 0 |}.

Definition ResourceGridMapper_call (self : ResourceGridMapper)
  (inputs : tensor A) : result (tensor A) :=
  pilots <- flatten_last_dims
              (PilotPattern_pilots (_pilot_pattern (mapper_resource_grid self)))
              3 ;;
  template <- tf_scatter_nd zero add (_pilot_ind self) pilots
                (shape (_rg_type self)) ;;
  let template := tf_expand_dims_last template in
  let batch_size := dim inputs 0 in
  let new_shape := removelast (shape template) ++ [batch_size] in
  template <- tf_broadcast_to zero template new_shape ;;
  flat <- flatten_last_dims inputs 3 ;;
  inputs <- tf_transpose zero (rev (seq 0 (rank flat))) flat ;;
  rg <- tf_tensor_scatter_nd_update zero template 4 (mapper_data_ind self)
          inputs ;;
  tf_transpose zero [4; 0; 1; 2; 3] rg.

(** ** resource_grid.py: class ResourceGridDemapper *)

(** Modelled from the spec: the attributes of [StreamManagement] (of
    [sionna.phy.mimo], not part of the material) that the demapper reads:
    the stream-ordering table and the two extents. *)
Record StreamManagement : Type := {
  stream_ind : list Z;
  num_streams_per_tx : Z;
  num_tx : Z
}.

Record ResourceGridDemapper : Type := {
  _stream_management : StreamManagement;
  demapper_resource_grid : ResourceGrid A;
  demapper_data_ind : tensor nat
}.

Definition ResourceGridDemapper_init (resource_grid : ResourceGrid A)
  (stream_management : StreamManagement) : result ResourceGridDemapper :=
  let mask := PilotPattern_mask (_pilot_pattern resource_grid) in
  let num_data_symbols :=
    PilotPattern_num_data_symbols (_pilot_pattern resource_grid) in
  flat <- flatten_last_dims mask 2 ;;
  let data_ind := tf_argsort flat in
  Ok {| _stream_management := stream_management;
        demapper_resource_grid := resource_grid;
        demapper_data_ind := slice_last_to 0 data_ind num_data_symbols |}.

Definition ResourceGridDemapper_call (self : ResourceGridDemapper)
  (y : tensor A) : result (tensor A) :=
  let y := if rank y =? 5 then tf_expand_dims_last y else y in
  sc_ind <- ResourceGrid_effective_subcarrier_ind
              (demapper_resource_grid self) ;;
  y <- tf_gather zero y sc_ind (rank y - 2) ;;
  y <- tf_transpose zero [1; 2; 3; 4; 5; 0] y ;;
  y <- flatten_dims y 2 0 ;;
  y <- tf_gather zero y (stream_ind (_stream_management self)) 0 ;;
  y <- split_dim y [num_tx (_stream_management self);
                    num_streams_per_tx (_stream_management self)] 0 ;;
  y <- flatten_dims y 2 2 ;;
  y <- tf_gather_batch2 zero y (demapper_data_ind self) ;;
  y <- tf_transpose zero [4; 0; 1; 2; 3] y ;;
  Ok (if dim_last y =? 1 then tf_squeeze_last y else y).

End ResourceGrid.

(** ** Notions used in the statements *)

(** Number of [True] entries of [mask[i, j]]. *)
Definition pair_count (mask : tensor bool) (i j : nat) : Z :=
  Z.of_nat (length (filter (fun b : bool => b) (block false mask [i; j]))).

(** Number of resource elements of type [v] in the grid of one
    transmitter and stream. *)
Definition count_type (rg_type : tensor Z) (i j : nat) (v : Z) : nat :=
  length (filter (Z.eqb v) (block 0%Z rg_type [i; j])).

(** The extents of a resource grid, as tensor extents. *)
Definition grid_tx {A} (self : ResourceGrid A) : nat := Z.to_nat (_num_tx self).

Definition grid_streams {A} (self : ResourceGrid A) : nat :=
  Z.to_nat (_num_streams_per_tx self).

Definition grid_symbols {A} (self : ResourceGrid A) : nat :=
  Z.to_nat (_num_ofdm_symbols self).

Definition grid_fft {A} (self : ResourceGrid A) : nat :=
  Z.to_nat (_fft_size self).

Definition grid_subcarriers {A} `{Dtype A} (self : ResourceGrid A) : nat :=
  Z.to_nat (ResourceGrid_num_effective_subcarriers self).

(** The mask of the grid's pilot pattern is the cast of a boolean tensor
    that has the extents of the grid. *)
Definition mask_fits {A} `{Dtype A} (self : ResourceGrid A) : Prop :=
  exists m : tensor bool,
    _mask (_pilot_pattern self) = tf_cast_int32 m
    /\ tensor_wf m
    /\ shape m = [grid_tx self; grid_streams self; grid_symbols self;
                  grid_subcarriers self].

(** The nulled DC subcarrier, if any, lies between the guard bands. *)
Definition dc_inside {A} `{Dtype A} (self : ResourceGrid A) : Prop :=
  _dc_null self = true ->
  (nth 0 (_num_guard_carriers self) 0 <= ResourceGrid_dc_ind self
   < _fft_size self - nth 1 (_num_guard_carriers self) 0)%Z.

(** The stream-ordering table that leaves the (tx, stream) order as it is. *)
Definition identity_streams (n_tx n_streams : Z) : StreamManagement :=
  {| stream_ind := py_range 0 (n_tx * n_streams);
     num_streams_per_tx := n_streams;
     num_tx := n_tx |}.

(** Mapper followed by demapper, with no transform in between. *)
Definition demap_map {A} `{Dtype A} (rg : ResourceGrid A)
  (sm : StreamManagement) (x : tensor A) : result (tensor A) :=
  mapper <- ResourceGridMapper_init rg ;;
  demapper <- ResourceGridDemapper_init rg sm ;;
  y <- ResourceGridMapper_call mapper x ;;
  ResourceGridDemapper_call demapper y.

(** ** A concrete carrier

    Integers with a symbol source that only emits ones; used to run the
    model on explicit inputs. *)
#[export] Instance int_dtype : Dtype Z := {|
  zero := 0%Z;
  add := Z.add;
  mul := Z.mul;
  rsqrt_mean_energy := fun _ => 1%Z;
  QAMSource := fun _ _ _ => 1%Z
|}.

(** The pattern made by [EmptyPilotPattern(1, 1, 1, 1)]. *)
Definition unit_pattern : PilotPattern Z :=
  {| _mask := Tensor [1; 1; 1; 1] [0%Z];
     _pilots := Tensor [1; 1; 0] [];
     _normalize := false |}.

(** The row that [build_type_grid] makes of one row of the mask, in closed
    form: left guards, [mask[:split_ind]], the DC carrier if it is nulled,
    [mask[split_ind:]], right guards, for [split_ind = dc_ind - left] with
    the slicing of the code. *)
Definition type_row {A} `{Dtype A} (self : ResourceGrid A)
  (mask_row : list Z) : list Z :=
  let left := nth 0 (_num_guard_carriers self) 0%Z in
  let right := nth 1 (_num_guard_carriers self) 0%Z in
  let k := py_slice_bound (length mask_row)
             (ResourceGrid_dc_ind self - left) in
  repeat 2%Z (Z.to_nat left)
  ++ firstn k mask_row
  ++ repeat 3%Z (Z.to_nat (Z.b2z (_dc_null self)))
  ++ skipn k mask_row
  ++ repeat 2%Z (Z.to_nat right).

(** Two masks with four entries for one stream: the two streams of
    [uneven_mask] have one and no pilot, those of [even_mask] one each. *)
Definition uneven_mask : tensor bool :=
  Tensor [1; 2; 1; 2] [true; false; false; false].

Definition even_mask : tensor bool :=
  Tensor [1; 2; 1; 2] [true; false; false; true].

(** ** The Kronecker pattern in closed form *)

(** The mask: the symbols listed in [rows] are pilot symbols for every
    transmitter and stream. *)
Definition kronecker_mask (tx st n neff : nat) (rows : list nat)
  : tensor bool :=
  tabulate [tx; st; n; neff]
    (fun idx => if existsb (Nat.eqb (nth 2 idx 0)) rows then true
                else get false (full [tx; st; n; neff] false) idx).

(** The pilots before the final reshape, after the streams of linear index
    below [done] have been filled: stream [lin] holds symbols of its own
    call of the source on the subcarriers congruent to [lin] modulo the
    number of streams, and zero elsewhere. *)
Definition kronecker_pilots_upto {A} `{Dtype A} (seed : Z)
  (tx st np neff done : nat) : tensor A :=
  tabulate [tx; st; np; neff]
    (fun idx =>
       let lin := nth 0 idx 0 * st + nth 1 idx 0 in
       if (lin <? done) && (nth 3 idx 0 mod (tx * st) =? lin)
       then QAMSource seed lin
              (nth 2 idx 0 * (neff / (tx * st)) + nth 3 idx 0 / (tx * st))
       else zero).

Definition kronecker_pilots {A} `{Dtype A} (seed : Z) (tx st np neff : nat)
  : tensor A :=
  Tensor [tx; st; np * neff]
         (data (kronecker_pilots_upto seed tx st np neff (tx * st))).

(** Subcarrier [c] of pilot symbol number [s] carries a non-zero pilot of
    the stream [(i, j)]: the stored pilots of a stream list its pilot
    symbols one after the other, each with one entry per effective
    subcarrier. *)
Definition carries_pilot {A} `{Dtype A} (pp : PilotPattern A)
  (i j s c : nat) : Prop :=
  get zero (_pilots pp)
      [i; j; s * PilotPattern_num_effective_subcarriers pp + c] <> zero.

(** ** Concrete grids *)

Definition grid_of (r : result (ResourceGrid Z)) : ResourceGrid Z :=
  match r with
  | Ok rg => rg
  | Raise _ =>
      {| _num_ofdm_symbols := 0; _fft_size := 0; _subcarrier_spacing := 0;
         _cyclic_prefix_length := 0; _num_tx := 0; _num_streams_per_tx := 0;
         _num_guard_carriers := []; _dc_null := false;
         _pilot_ofdm_symbol_indices := None;
         _pilot_pattern := unbound_pattern |}
  end.

(** Two symbols of four subcarriers, two transmitters, no pilots. *)
Definition small_grid : ResourceGrid Z :=
  Eval cbv in
    grid_of (ResourceGrid_init 2 4 (15000 # 1) 2 1 0 [0; 0]%Z false
               PatternNone None).

(** Two symbols of three subcarriers, two transmitters, no pilots. *)
Definition odd_grid : ResourceGrid Z :=
  Eval cbv in
    grid_of (ResourceGrid_init 2 3 (15000 # 1) 2 1 0 [0; 0]%Z false
               PatternNone None).

(** One symbol of eight subcarriers with a nulled DC carrier and five guard
    carriers on the left: the DC index 4 lies inside the guard band. *)
Definition guard_grid : ResourceGrid Z :=
  Eval cbv in
    grid_of (ResourceGrid_init 1 8 (15000 # 1) 1 1 0 [5; 0]%Z true
               PatternNone None).

(** One symbol of eight subcarriers with a nulled DC carrier, one guard
    carrier on each side and a Kronecker pattern on two streams. *)
Definition comb_grid : ResourceGrid Z :=
  Eval cbv in
    grid_of (ResourceGrid_init 2 8 (15000 # 1) 2 1 0 [1; 2]%Z true
               (PatternStr "kronecker") (Some [1%Z])).

(** ** Data positions *)

(** Positions of the value [v] in a vector, ascending. *)
Definition positions (v : Z) (l : list Z) : list nat :=
  filter (fun c => (nth c l 0 =? v)%Z) (seq 0 (length l)).

(** The (symbol, effective subcarrier) pairs at which the mask of the
    stream [(i, j)] holds [v], in row-major order; for [v = 0] these are the
    data positions of the stream in their canonical order. *)
Definition mask_positions (mask : tensor Z) (v : Z) (i j : nat)
  : list (nat * nat) :=
  flat_map (fun s => map (pair s) (positions v (row 0%Z mask [i; j; s])))
           (seq 0 (dim mask 2)).

(** Subcarrier of the full grid at effective position [e], when the DC
    carrier lies between the guard bands: the guards on the left are
    skipped, and so is the DC carrier if it is nulled. *)
Definition effective_subcarrier {A} `{Dtype A} (self : ResourceGrid A)
  (e : nat) : nat :=
  let left := nth 0 (_num_guard_carriers self) 0%Z in
  if _dc_null self && (Z.to_nat (ResourceGrid_dc_ind self - left) <=? e)
  then Z.to_nat left + e + 1
  else Z.to_nat left + e.

(** Index into the full grid of the stream [(i, j)] at the (symbol,
    effective subcarrier) pair [se]. *)
Definition grid_position {A} `{Dtype A} (self : ResourceGrid A) (i j : nat)
  (se : nat * nat) : list nat :=
  [i; j; fst se; effective_subcarrier self (snd se)].

(** The pattern made by [EmptyPilotPattern(2, 1, 1, 4)]. *)
Definition two_tx_pattern : PilotPattern Z :=
  {| _mask := Tensor [2; 1; 1; 4] (repeat 0%Z 8);
     _pilots := Tensor [2; 1; 0] [];
     _normalize := false |}.

(** ** resource_grid.py: the remaining integer properties of ResourceGrid *)

Section ResourceGridProperties.
Context {A : Type} `{Dtype A}.

(** [num_zero_symbols]: the product is a NumPy integer, which
    [tf.cast(n, tf.int32)] reduces to 32 bits. *)
Definition ResourceGrid_num_zero_symbols (self : ResourceGrid A) : Z :=
  let n := ((_fft_size self - ResourceGrid_num_effective_subcarriers self)
            * _num_ofdm_symbols self)%Z in
  tf_cast_int32_scalar n.

(** [num_time_samples]. *)
Definition ResourceGrid_num_time_samples (self : ResourceGrid A) : Z :=
  ((_fft_size self + _cyclic_prefix_length self) * _num_ofdm_symbols self)%Z.

(** ** resource_grid.py: class RemoveNulledSubcarriers *)

Record RemoveNulledSubcarriers : Type := {
  _sc_ind : list Z
}.

Definition RemoveNulledSubcarriers_init (resource_grid : ResourceGrid A)
  : result RemoveNulledSubcarriers :=
  sc_ind <- ResourceGrid_effective_subcarrier_ind resource_grid ;;
  Ok {| _sc_ind := sc_ind |}.

(** [tf.gather(inputs, self._sc_ind, axis=-1)]. *)
Definition RemoveNulledSubcarriers_call (self : RemoveNulledSubcarriers)
  (inputs : tensor A) : result (tensor A) :=
  tf_gather zero inputs (_sc_ind self) (rank inputs - 1).

End ResourceGridProperties.

(** ** The complex floating-point dtypes

    [tf.complex64] ("single", the default precision) has binary32 parts,
    [tf.complex128] ("double") binary64 parts.  The parts are IEEE 754
    numbers as specified by [SpecFloat]. *)

Inductive precision : Type := Single | Double.

Definition prec_of (p : precision) : Z :=
  match p with Single => 24%Z | Double => 53%Z end.

Definition emax_of (p : precision) : Z :=
  match p with Single => 128%Z | Double => 1024%Z end.

Record complex : Type := Complex { re : spec_float; im : spec_float }.

Section ComplexFloat.
Variable p : precision.

Local Notation "'fadd'" := (SFadd (prec_of p) (emax_of p)).
Local Notation "'fsub'" := (SFsub (prec_of p) (emax_of p)).
Local Notation "'fmul'" := (SFmul (prec_of p) (emax_of p)).
Local Notation "'fdiv'" := (SFdiv (prec_of p) (emax_of p)).
Local Notation "'fsqrt'" := (SFsqrt (prec_of p) (emax_of p)).

Definition f_zero : spec_float := S754_zero false.

Definition f_one : spec_float := SFone (prec_of p) (emax_of p).

(** Conversion of a count to the floating-point type. *)
Definition f_of_nat (n : nat) : spec_float :=
  binary_normalize (prec_of p) (emax_of p) (Z.of_nat n) 0%Z false.

Definition c_zero : complex := Complex f_zero f_zero.

Definition c_add (a b : complex) : complex :=
  Complex (fadd (re a) (re b)) (fadd (im a) (im b)).

Definition c_mul (a b : complex) : complex :=
  Complex (fsub (fmul (re a) (re b)) (fmul (im a) (im b)))
          (fadd (fmul (re a) (im b)) (fmul (im a) (re b))).

(** [tf.abs] of a complex value. *)
Definition c_abs (a : complex) : spec_float :=
  fsqrt (fadd (fmul (re a) (re a)) (fmul (im a) (im a))).

(** [tf.abs(x)**2]. *)
Definition c_energy (a : complex) : spec_float := fmul (c_abs a) (c_abs a).

(** [tf.reduce_mean(v, axis=-1)] of one vector: the sum divided by the
    number of entries. *)
Definition f_reduce_mean (v : list spec_float) : spec_float :=
  fdiv (fold_left fadd v f_zero) (f_of_nat (length v)).

(** The scale of [norm_pilots] for one vector of pilots:
    [1/tf.sqrt(tf.reduce_mean(tf.abs(p)**2))], cast to the complex type. *)
Definition c_rsqrt_mean_energy (v : list complex) : complex :=
  let scale := map c_energy v in
  let scale := fdiv f_one (fsqrt (f_reduce_mean scale)) in
  Complex scale f_zero.

(** Mean energy of a vector of complex values. *)
Definition mean_energy (v : list complex) : spec_float :=
  f_reduce_mean (map c_energy v).

(** The dtype, for a symbol source [src]. *)
Definition complex_dtype (src : Z -> nat -> nat -> complex) : Dtype complex :=
  {| zero := c_zero;
     add := c_add;
     mul := c_mul;
     rsqrt_mean_energy := c_rsqrt_mean_energy;
     QAMSource := src |}.

End ComplexFloat.

Definition is_zero (x : spec_float) : Prop := exists s, x = S754_zero s.

Definition c_is_zero (a : complex) : Prop := is_zero (re a) /\ is_zero (im a).

Definition c_nan : complex := Complex S754_nan S754_nan.

(** A source of symbols of unit real part, for running the model. *)
Definition unit_source (p : precision) : Z -> nat -> nat -> complex :=
  fun _ _ _ => Complex (f_one p) f_zero.

(** A mask and pilots for one stream with two pilots that are both zero,
    and with one pilot [2^100], in single precision. *)
Definition two_pilot_mask : tensor bool :=
  Tensor [1; 1; 1; 2] [true; true].

Definition zero_pilots : tensor complex :=
  Tensor [1; 1; 2] [c_zero; c_zero].

Definition one_pilot_mask : tensor bool := Tensor [1; 1; 1; 1] [true].

Definition huge_pilots : tensor complex :=
  Tensor [1; 1; 1] [Complex (S754_finite false 8388608 77) f_zero].

(** ** Inputs of the constructors, written out *)

(** The grid as the [pilot_pattern] setter hands it to
    [KroneckerPilotPattern]: two symbols of eight subcarriers, a nulled DC
    carrier, guard carriers (1, 2), two transmitters with one stream. *)
Definition kronecker_input : ResourceGrid Z :=
  {| _num_ofdm_symbols := 2; _fft_size := 8; _subcarrier_spacing := 15000 # 1;
     _cyclic_prefix_length := 0; _num_tx := 2; _num_streams_per_tx := 1;
     _num_guard_carriers := [1; 2]%Z; _dc_null := true;
     _pilot_ofdm_symbol_indices := Some [1%Z];
     _pilot_pattern := unbound_pattern |}.

(** A mask without any transmitter, and pilots to match. *)
Definition no_tx_mask : tensor bool := Tensor [0; 1; 2; 2] [].

Definition no_tx_pilots : tensor Z := Tensor [0; 1; 0] [].

(** * Properties *)

(** ** Lists *)

Lemma nth_concat_uniform : forall (T : Type) (L : nat) (l : list (list T))
    (q r : nat) (d : T),
    Forall (fun x => length x = L) l -> q < length l -> r < L ->
    nth (q * L + r) (concat l) d = nth r (nth q l []) d.
Proof.
  induction l as [|x l IH]; intros q r d Hall Hq Hr; simpl in *; [lia|].
  inversion Hall as [|? ? Hx Hl]; subst.
  destruct q as [|q]; simpl.
  - rewrite app_nth1 by lia. reflexivity.
  - rewrite app_nth2 by lia.
    replace (length x + q * length x + r - length x) with (q * length x + r) by lia.
    apply IH; auto; lia.
Qed.

Lemma length_concat_uniform : forall (T : Type) (L : nat) (l : list (list T)),
    Forall (fun x => length x = L) l -> length (concat l) = length l * L.
Proof.
  induction l as [|x l IH]; intros Hall; simpl; [reflexivity|].
  inversion Hall; subst. rewrite length_app, IH by assumption. reflexivity.
Qed.

Lemma flat_map_concat_map' : forall (T U : Type) (f : T -> list U) (l : list T),
    flat_map f l = concat (map f l).
Proof. induction l; simpl; congruence. Qed.

Lemma seq_map_add : forall L a, seq a L = map (fun r => a + r) (seq 0 L).
Proof.
  induction L as [|L IH]; intros a; simpl; [reflexivity|].
  f_equal; [lia|]. rewrite <- (seq_shift L 0), map_map, (IH (S a)).
  apply map_ext. intros; lia.
Qed.

Lemma firstn_seq : forall k a n, firstn k (seq a n) = seq a (Nat.min k n).
Proof.
  induction k as [|k IH]; intros a [|n]; simpl; try reflexivity.
  f_equal. apply IH.
Qed.

Lemma seq_blocks : forall L d,
    flat_map (fun i => map (fun r => i * L + r) (seq 0 L)) (seq 0 d)
    = seq 0 (d * L).
Proof.
  intros L d. induction d as [|d IH]; [reflexivity|].
  rewrite seq_S, flat_map_app, IH. simpl. rewrite app_nil_r.
  replace (L + d * L) with (d * L + L) by lia.
  rewrite seq_app. f_equal. simpl. symmetry. apply seq_map_add.
Qed.

(** ** Shapes and multi-indices *)

Lemma size_app : forall a b, size (a ++ b) = size a * size b.
Proof.
  induction a as [|x a IH]; intros b; simpl; [lia|]. rewrite IH. lia.
Qed.

Lemma in_boundsb_iff : forall idx s, in_boundsb idx s = true <-> in_bounds idx s.
Proof.
  induction idx as [|i idx IH]; intros [|d s]; simpl; split; intros Hb;
    try discriminate; try (inversion Hb; fail); try constructor.
  - apply andb_prop in Hb. destruct Hb as [Hi _]. apply Nat.ltb_lt; assumption.
  - apply andb_prop in Hb. destruct Hb as [_ Hr]. apply IH; assumption.
  - inversion Hb; subst. apply andb_true_intro. split;
      [apply Nat.ltb_lt; assumption | apply IH; assumption].
Qed.

Lemma in_bounds_length : forall idx s, in_bounds idx s -> length idx = length s.
Proof. intros idx s Hb. induction Hb; simpl; congruence. Qed.

Lemma In_indices : forall s idx, In idx (indices s) <-> in_bounds idx s.
Proof.
  induction s as [|d s IH]; intros idx; simpl.
  - split; [intros [<-|[]]; constructor | intros Hb; inversion Hb; auto].
  - rewrite in_flat_map. split.
    + intros (i & Hi & Hin). apply in_map_iff in Hin.
      destruct Hin as (idx' & <- & Hin'). apply in_seq in Hi.
      constructor; [lia | apply IH; assumption].
    + intros Hb. inversion Hb as [|i d' idx' s' Hi Hr]; subst.
      exists i. split; [apply in_seq; lia|].
      apply in_map. apply IH. assumption.
Qed.

Lemma length_indices : forall s, length (indices s) = size s.
Proof.
  induction s as [|d s IH]; simpl; [reflexivity|].
  rewrite flat_map_concat_map', (@length_concat_uniform _ (size s)).
  - rewrite length_map, length_seq. reflexivity.
  - apply Forall_forall. intros x Hx. apply in_map_iff in Hx.
    destruct Hx as (i & <- & _). rewrite length_map. assumption.
Qed.

Lemma ravel_lt : forall idx s, in_bounds idx s -> ravel s idx < size s.
Proof.
  intros idx s Hb. induction Hb as [|i d idx s Hi Hr IH]; simpl; [lia|]. nia.
Qed.

Lemma ravel_indices : forall s, map (ravel s) (indices s) = seq 0 (size s).
Proof.
  induction s as [|d s IH]; simpl; [reflexivity|].
  rewrite <- seq_blocks, !flat_map_concat_map', concat_map, map_map.
  f_equal. apply map_ext. intros i. rewrite map_map. simpl.
  rewrite <- IH, map_map. reflexivity.
Qed.

Lemma nth_indices : forall s idx d,
    in_bounds idx s -> nth (ravel s idx) (indices s) d = idx.
Proof.
  intros s idx d Hb.
  assert (Hlt : ravel s idx < length (indices s))
    by (rewrite length_indices; apply ravel_lt; assumption).
  assert (Hin : In (nth (ravel s idx) (indices s) d) (indices s))
    by (apply nth_In; assumption).
  apply In_indices in Hin.
  assert (Hr : ravel s (nth (ravel s idx) (indices s) d) = ravel s idx).
  { rewrite <- (map_nth (ravel s)), ravel_indices.
    rewrite seq_nth; [reflexivity|]. rewrite <- length_indices. assumption. }
  clear Hlt. revert Hin Hr. generalize (nth (ravel s idx) (indices s) d).
  intros idx' Hb'. revert idx Hb.
  induction Hb' as [|i' d' idx' s Hi' Hr' IH]; intros idx Hb Heq;
    inversion Hb as [|i d0 idx0 s0 Hi Hr]; subst; [reflexivity|].
  simpl in Heq.
  pose proof (ravel_lt Hr) as H1. pose proof (ravel_lt Hr') as H2.
  assert (Hii : i' = i) by nia. subst i'.
  f_equal. apply IH; [assumption | lia].
Qed.

Lemma NoDup_indices : forall s, NoDup (indices s).
Proof.
  intros s. apply (NoDup_map_inv (ravel s)).
  rewrite ravel_indices. apply seq_NoDup.
Qed.

Lemma ravel_app : forall s1 i1 s2 i2,
    length i1 = length s1 ->
    ravel (s1 ++ s2) (i1 ++ i2) = ravel s1 i1 * size s2 + ravel s2 i2.
Proof.
  induction s1 as [|d s1 IH]; intros [|i i1] s2 i2 Hlen; simpl in *;
    try discriminate; [reflexivity|].
  rewrite IH by lia. rewrite size_app. lia.
Qed.

(** ** Tensors *)

Lemma get_tabulate : forall (T : Type) (d : T) s f idx,
    in_bounds idx s -> get d (tabulate s f) idx = f idx.
Proof.
  intros T d s f idx Hb. unfold get, tabulate. simpl.
  rewrite (nth_indep _ d (f idx)).
  - rewrite map_nth, nth_indices by assumption. reflexivity.
  - rewrite length_map, length_indices. apply ravel_lt. assumption.
Qed.

Lemma tabulate_wf : forall (T : Type) s (f : list nat -> T),
    tensor_wf (tabulate s f).
Proof.
  intros. unfold tensor_wf, tabulate. simpl.
  rewrite length_map. apply length_indices.
Qed.

Lemma full_wf : forall (T : Type) s (v : T), tensor_wf (full s v).
Proof. intros. unfold tensor_wf, full. simpl. apply repeat_length. Qed.

Lemma get_full : forall (T : Type) (d : T) s v idx,
    in_bounds idx s -> get d (full s v) idx = v.
Proof.
  intros T d s v idx Hb. unfold get, full. simpl.
  apply nth_repeat_lt. apply ravel_lt. assumption.
Qed.

Lemma tensor_tabulate : forall (T : Type) (d : T) (t : tensor T),
    tensor_wf t -> t = tabulate (shape t) (get d t).
Proof.
  intros T d [s l] Hwf. unfold tensor_wf, tabulate, get in *. simpl in *.
  f_equal.
  rewrite <- (map_map (ravel s) (fun k => nth k l d)), ravel_indices, <- Hwf.
  clear Hwf. symmetry. apply nth_ext with (d := d) (d' := d).
  - rewrite length_map, length_seq. reflexivity.
  - intros n Hn. rewrite length_map, length_seq in Hn.
    rewrite (nth_indep _ d (nth 0 l d)) by (rewrite length_map, length_seq; assumption).
    rewrite (map_nth (fun k => nth k l d)), seq_nth by assumption. reflexivity.
Qed.

Lemma tensor_ext : forall (T : Type) (d : T) (t1 t2 : tensor T),
    tensor_wf t1 -> tensor_wf t2 -> shape t1 = shape t2 ->
    (forall idx, in_bounds idx (shape t1) -> get d t1 idx = get d t2 idx) ->
    t1 = t2.
Proof.
  intros T d t1 t2 H1 H2 Hs Hget.
  rewrite (tensor_tabulate d H1), (tensor_tabulate d H2), <- Hs.
  unfold tabulate. f_equal. apply map_ext_in.
  intros idx Hin. apply Hget. apply In_indices. assumption.
Qed.

Lemma tabulate_ext : forall (T : Type) s (f g : list nat -> T),
    (forall idx, in_bounds idx s -> f idx = g idx) ->
    tabulate s f = tabulate s g.
Proof.
  intros T s f g Hfg. unfold tabulate. f_equal.
  apply map_ext_in. intros idx Hin. apply Hfg. apply In_indices. assumption.
Qed.

(** ** Results *)

Lemma bind_Ok : forall (T U : Type) (r : result T) (k : T -> result U) (u : U),
    bind r k = Ok u -> exists v, r = Ok v /\ k v = Ok u.
Proof. intros T U [v|e] k u Hb; simpl in Hb; [eauto | discriminate]. Qed.

Lemma assert_Ok : forall c msg u, assert c msg = Ok u -> c = true.
Proof. intros [|] msg u Ha; [reflexivity | discriminate]. Qed.

Lemma assert_true : forall msg, assert true msg = Ok tt.
Proof. reflexivity. Qed.

(** Splits a successful chain of [bind]s and [assert]s into its steps. *)
Ltac split_ok H :=
  repeat match type of H with
         | bind (assert ?c ?m) _ = Ok _ =>
             let Hc := fresh "Hc" in
             destruct c eqn:Hc; [cbn [assert bind] in H | discriminate H]
         | bind ?r _ = Ok _ =>
             let v := fresh "v" in
             let Hv := fresh "Hv" in
             apply bind_Ok in H; destruct H as (v & Hv & H)
         end.

(** ** ResourceGrid: construction *)

Ltac grid_fields :=
  cbn [_num_ofdm_symbols _fft_size _subcarrier_spacing _cyclic_prefix_length
       _num_tx _num_streams_per_tx _num_guard_carriers _dc_null
       _pilot_ofdm_symbol_indices _pilot_pattern] in *.

Section Construction.
Context {A : Type} {D : Dtype A}.

Lemma ResourceGrid_check_settings_Ok : forall (self : ResourceGrid A) b,
    ResourceGrid_check_settings self = Ok b ->
    (0 < _num_ofdm_symbols self /\ 0 < _fft_size self
     /\ 0 <= _cyclic_prefix_length self <= _fft_size self
     /\ 0 < _num_tx self /\ 0 < _num_streams_per_tx self)%Z
    /\ length (_num_guard_carriers self) = 2
    /\ Forall (fun g => 0 <= g)%Z (_num_guard_carriers self)
    /\ (np_sum (_num_guard_carriers self) + Z.b2z (_dc_null self)
        <= _fft_size self)%Z.
Proof.
  intros self b Hc. unfold ResourceGrid_check_settings in Hc. split_ok Hc.
  repeat match goal with
         | Hx : (_ <? _)%Z = true |- _ => apply Z.ltb_lt in Hx
         | Hx : (_ <=? _)%Z = true |- _ => apply Z.leb_le in Hx
         | Hx : (_ =? _) = true |- _ => apply Nat.eqb_eq in Hx
         end.
  repeat split; try assumption; try lia.
  apply Forall_forall. intros g Hg.
  match goal with
  | Hx : forallb _ _ = true |- _ =>
      rewrite forallb_forall in Hx; specialize (Hx g Hg)
  end.
  apply Z.leb_le. assumption.
Qed.

Lemma ResourceGrid_check_settings_complete : forall (self : ResourceGrid A),
    (0 < _num_ofdm_symbols self)%Z -> (0 < _fft_size self)%Z ->
    (0 <= _cyclic_prefix_length self <= _fft_size self)%Z ->
    (0 < _num_tx self)%Z -> (0 < _num_streams_per_tx self)%Z ->
    length (_num_guard_carriers self) = 2 ->
    Forall (fun g => 0 <= g)%Z (_num_guard_carriers self) ->
    (np_sum (_num_guard_carriers self) + Z.b2z (_dc_null self)
     <= _fft_size self)%Z ->
    ResourceGrid_check_settings self = Ok true.
Proof.
  intros self H1 H2 H3 H4 H5 H6 H7 H8. unfold ResourceGrid_check_settings.
  rewrite (proj2 (Z.ltb_lt _ _) H1), (proj2 (Z.ltb_lt _ _) H2),
    (proj2 (Z.leb_le _ _) (proj1 H3)), (proj2 (Z.leb_le _ _) (proj2 H3)),
    (proj2 (Z.ltb_lt _ _) H4), (proj2 (Z.ltb_lt _ _) H5),
    (proj2 (Nat.eqb_eq _ _) H6).
  cbn [assert bind].
  replace (forallb _ _) with true.
  - cbn [assert bind].
    replace (_ <=? _)%Z with true; [reflexivity|].
    symmetry. apply Z.leb_le. lia.
  - symmetry. apply forallb_forall. intros g Hg.
    rewrite Forall_forall in H7. apply Z.leb_le. auto.
Qed.

Lemma ResourceGrid_check_settings_true : forall (self : ResourceGrid A) b,
    ResourceGrid_check_settings self = Ok b -> b = true.
Proof.
  intros self b Hc. unfold ResourceGrid_check_settings in Hc. split_ok Hc.
  congruence.
Qed.

Lemma ResourceGrid_init_Ok : forall n f s tx st cp gc dc
    (pp : pilot_pattern_arg A) idx (rg : ResourceGrid A),
    ResourceGrid_init n f s tx st cp gc dc pp idx = Ok rg ->
    ResourceGrid_check_settings rg = Ok true
    /\ _num_ofdm_symbols rg = n /\ _fft_size rg = f
    /\ _subcarrier_spacing rg = s /\ _cyclic_prefix_length rg = cp
    /\ _num_tx rg = tx /\ _num_streams_per_tx rg = st
    /\ _num_guard_carriers rg = gc /\ _dc_null rg = dc
    /\ _pilot_ofdm_symbol_indices rg = idx.
Proof.
  intros n f s tx st cp gc dc pp idx rg Hinit.
  unfold ResourceGrid_init in Hinit. split_ok Hinit.
  unfold ResourceGrid_set_pilot_pattern in Hv. split_ok Hv.
  injection Hv as <-. cbn in *.
  rewrite (ResourceGrid_check_settings_true _ Hv0) in Hv0.
  injection Hinit as <-. cbn. repeat split; try reflexivity. exact Hv0.
Qed.

(** The pattern bound by the setter does not depend on the subcarrier
    spacing or on the cyclic prefix. *)
Lemma ResourceGrid_init_spacing : forall n f s s' tx st cp gc dc
    (pp : pilot_pattern_arg A) idx (rg : ResourceGrid A),
    ResourceGrid_init n f s tx st cp gc dc pp idx = Ok rg ->
    exists rg', ResourceGrid_init n f s' tx st cp gc dc pp idx = Ok rg'
                /\ _pilot_pattern rg' = _pilot_pattern rg
                /\ _subcarrier_spacing rg' = s'.
Proof.
  intros n f s s' tx st cp gc dc pp idx rg Hinit.
  unfold ResourceGrid_init, ResourceGrid_set_pilot_pattern,
    KroneckerPilotPattern_init, ResourceGrid_num_effective_subcarriers in *.
  grid_fields. revert Hinit.
  match goal with
  | |- bind (bind ?P _) _ = _ -> _ => destruct P as [p|e]
  end; cbn [bind]; [|discriminate].
  unfold ResourceGrid_check_settings. grid_fields.
  match goal with
  | |- bind ?C _ = _ -> _ => destruct C as [b|e]
  end; cbn [bind]; [|discriminate].
  intros Hinit. injection Hinit as <-. grid_fields.
  eexists. split; [reflexivity|]. split; reflexivity.
Qed.

End Construction.




(** ** PilotPattern: the [pilots] property *)

Lemma list_eqb_eq : forall l1 l2, list_eqb l1 l2 = true <-> l1 = l2.
Proof.
  induction l1 as [|a l1 IH]; intros [|b l2]; simpl; split; intros Hb;
    try discriminate; try reflexivity.
  - apply andb_prop in Hb. destruct Hb as [Hab Hl].
    apply Nat.eqb_eq in Hab. apply IH in Hl. congruence.
  - injection Hb as -> ->. rewrite Nat.eqb_refl. simpl. apply IH. reflexivity.
Qed.

(** Closes a goal stating that a chain of assertions raises an
    [AssertionError], given that one of its conditions is false. *)
Ltac raise_assertion :=
  repeat match goal with
         | |- exists msg, bind (assert ?c _) _ = Raise (AssertionError msg) =>
             destruct c eqn:?; cbn [assert bind];
             [| eexists; reflexivity]
         end.

(** C9, as amended: assignment through the [pilots] setter never fails and
    does not validate: the assigned tensor becomes the stored one, mask and
    normalisation flag are kept.  Invariant B is examined by
    [_check_settings] only, which construction calls: on a pattern whose
    assigned pilots differ from the mask in the first two dimensions it
    raises an assertion error. *)
Theorem PilotPattern_set_pilots_unchecked : forall (A : Type)
    (self : PilotPattern A) (v : tensor A),
    _pilots (PilotPattern_set_pilots self v) = v
    /\ _mask (PilotPattern_set_pilots self v) = _mask self
    /\ _normalize (PilotPattern_set_pilots self v) = _normalize self
    /\ (firstn 2 (shape (_mask self)) <> firstn 2 (shape v) ->
        exists msg, PilotPattern_check_settings (PilotPattern_set_pilots self v)
                    = Raise (AssertionError msg)).
Proof.
  intros A self v. repeat split.
  intros Hne. unfold PilotPattern_check_settings. cbn [PilotPattern_set_pilots _mask _pilots].
  raise_assertion.
  match goal with
  | Hx : list_eqb _ _ = true |- _ => apply list_eqb_eq in Hx; contradiction
  end.
Qed.

Lemma PilotPattern_set_pilots_unchecked_witness :
  _pilots (PilotPattern_set_pilots unit_pattern (Tensor [2; 1; 0] []))
  = Tensor [2; 1; 0] []
  /\ exists msg, PilotPattern_check_settings
                   (PilotPattern_set_pilots unit_pattern (Tensor [2; 1; 0] []))
                 = Raise (AssertionError msg).
Proof.
  destruct (@PilotPattern_set_pilots_unchecked Z unit_pattern
              (Tensor [2; 1; 0] [])) as (Hp & _ & _ & Hchk).
  split; [exact Hp|]. apply Hchk. discriminate.
Defined.

(** C9, counterexample: on the pattern of [EmptyPilotPattern(1, 1, 1, 1)],
    whose mask has leading dimensions [1, 1], assigning pilots with leading
    dimensions [2, 1] replaces the stored pilots. *)
Lemma PilotPattern_set_pilots_mismatch :
  EmptyPilotPattern_init 1 1 1 1 = Ok unit_pattern
  /\ firstn 2 (shape (Tensor [2; 1; 0] (@nil Z)))
     <> firstn 2 (shape (_mask unit_pattern))
  /\ _pilots (PilotPattern_set_pilots unit_pattern (Tensor [2; 1; 0] []))
     = Tensor [2; 1; 0] []
  /\ _pilots (PilotPattern_set_pilots unit_pattern (Tensor [2; 1; 0] []))
     <> _pilots unit_pattern.
Proof. repeat split; discriminate. Qed.

(** Reading [pilots], whatever the dtype: the getter returns the stored
    tensor when [normalize] is unset and the rescaled one when it is set,
    each vector along the last axis being multiplied by one scale; it is a
    function of the pattern and stores nothing. *)
Lemma PilotPattern_pilots_read : forall (A : Type) (D : Dtype A)
    (self : PilotPattern A),
    (_normalize self = false -> PilotPattern_pilots self = _pilots self)
    /\ (_normalize self = true ->
        shape (PilotPattern_pilots self) = shape (_pilots self)
        /\ forall idx, in_bounds idx (shape (_pilots self)) ->
             get zero (PilotPattern_pilots self) idx
             = mul (rsqrt_mean_energy
                      (row zero (_pilots self) (removelast idx)))
                   (get zero (_pilots self) idx)).
Proof.
  intros A D self. unfold PilotPattern_pilots. split; intros ->.
  - reflexivity.
  - split; [reflexivity|]. intros idx Hb. unfold norm_pilots.
    rewrite get_tabulate by assumption. reflexivity.
Qed.

(** ** ResourceGrid: effective subcarriers of a constructed grid *)

(** C10, as amended: a grid constructed with the default or the "empty"
    pilot pattern has at least one effective subcarrier, and with these
    patterns a configuration whose guard carriers and nulled DC carrier use
    up the whole FFT size fails with an assertion error, although it
    satisfies the guard-carrier bound. *)
Theorem ResourceGrid_empty_pattern_positive_subcarriers :
  forall (A : Type) (D : Dtype A) n f s tx st cp gc dc
         (pp : pilot_pattern_arg A) idx,
    pp = PatternNone \/ pp = PatternStr "empty" ->
    (forall rg, ResourceGrid_init n f s tx st cp gc dc pp idx = Ok rg ->
                (1 <= ResourceGrid_num_effective_subcarriers rg)%Z)
    /\ ((np_sum gc + Z.b2z dc = f)%Z ->
        (np_sum gc <= f - Z.b2z dc)%Z
        /\ exists msg, ResourceGrid_init n f s tx st cp gc dc pp idx
                       = Raise (AssertionError msg)).
Proof.
  intros A D n f s tx st cp gc dc pp idx Hpp.
  assert (Hset : forall self : ResourceGrid A,
             ResourceGrid_set_pilot_pattern self pp
             = bind (EmptyPilotPattern_init (_num_tx self)
                       (_num_streams_per_tx self) (_num_ofdm_symbols self)
                       (ResourceGrid_num_effective_subcarriers self))
                 (fun value =>
                    Ok {| _num_ofdm_symbols := _num_ofdm_symbols self;
                          _fft_size := _fft_size self;
                          _subcarrier_spacing := _subcarrier_spacing self;
                          _cyclic_prefix_length := _cyclic_prefix_length self;
                          _num_tx := _num_tx self;
                          _num_streams_per_tx := _num_streams_per_tx self;
                          _num_guard_carriers := _num_guard_carriers self;
                          _dc_null := _dc_null self;
                          _pilot_ofdm_symbol_indices :=
                            _pilot_ofdm_symbol_indices self;
                          _pilot_pattern := value |})).
  { intros self. destruct Hpp as [-> | ->]; reflexivity. }
  split.
  - intros rg Hinit. unfold ResourceGrid_init in Hinit. rewrite Hset in Hinit.
    apply bind_Ok in Hinit. destruct Hinit as (self & Hself & Hinit).
    apply bind_Ok in Hself. destruct Hself as (p & Hp & Hself).
    injection Hself as <-.
    apply bind_Ok in Hinit. destruct Hinit as (b & _ & Hinit).
    injection Hinit as <-.
    unfold EmptyPilotPattern_init in Hp. grid_fields. split_ok Hp.
    unfold ResourceGrid_num_effective_subcarriers in *. grid_fields.
    match goal with
    | Hx : (0 <? f - _ - _)%Z = true |- _ => apply Z.ltb_lt in Hx; lia
    end.
  - intros Hfull. split; [lia|].
    unfold ResourceGrid_init. rewrite Hset. grid_fields.
    unfold EmptyPilotPattern_init, ResourceGrid_num_effective_subcarriers.
    grid_fields.
    replace (f - Z.b2z dc - np_sum gc)%Z with 0%Z by lia.
    destruct (0 <? tx)%Z; [|eexists; reflexivity].
    destruct (0 <? st)%Z; [|eexists; reflexivity].
    destruct (0 <? n)%Z; [|eexists; reflexivity].
    eexists; reflexivity.
Qed.

Lemma ResourceGrid_empty_pattern_positive_subcarriers_witness :
  (forall rg, ResourceGrid_init (A := Z) 1 2 (15000 # 1) 1 1 0 [1; 1]%Z false
                PatternNone None = Ok rg ->
              (1 <= ResourceGrid_num_effective_subcarriers rg)%Z)
  /\ (np_sum [1; 1] <= 2 - Z.b2z false)%Z
  /\ exists msg, ResourceGrid_init (A := Z) 1 2 (15000 # 1) 1 1 0 [1; 1]%Z
                   false PatternNone None
                 = Raise (AssertionError msg).
Proof.
  destruct (@ResourceGrid_empty_pattern_positive_subcarriers Z int_dtype
              1 2 (15000 # 1) 1 1 0 [1; 1]%Z false PatternNone None
              (or_introl eq_refl)) as (Hpos & Hfull).
  split; [exact Hpos|]. apply Hfull. reflexivity.
Defined.

(** C10, counterexample: with a caller-supplied pattern the setter performs
    no check, and a grid whose two guard carriers use up an FFT size of two
    is constructed with zero effective subcarriers. *)
Lemma ResourceGrid_supplied_pattern_no_subcarriers :
  EmptyPilotPattern_init 1 1 1 1 = Ok unit_pattern
  /\ exists rg, ResourceGrid_init 1 2 (15000 # 1) 1 1 0 [1; 1]%Z false
                  (PatternInstance unit_pattern) None = Ok rg
                /\ ResourceGrid_num_effective_subcarriers rg = 0%Z.
Proof.
  split; [reflexivity|]. eexists. split; [vm_compute; reflexivity|].
  reflexivity.
Qed.

(** ** The scenario of 14 symbols, 64 subcarriers and two transmitters *)

Lemma scenario_grid : forall (A : Type) (D : Dtype A) (s : Q),
    exists rg : ResourceGrid A,
      ResourceGrid_init 14 64 s 2 1 0 [2; 3]%Z true (PatternStr "kronecker")
        (Some [2; 11]%Z) = Ok rg
      /\ ResourceGrid_num_effective_subcarriers rg = 58%Z
      /\ ResourceGrid_num_pilot_symbols rg = 116%Z
      /\ ResourceGrid_num_data_symbols rg = 696%Z.
Proof.
  intros A D s. eexists. split; [vm_compute; reflexivity|].
  repeat split; vm_compute; reflexivity.
Qed.

(** C2, as amended: in the scenario the grid has 58 effective subcarriers;
    the mask marks every subcarrier of the two pilot symbols for each
    stream, so each stream has 2*58 = 116 pilot symbols (those on the comb
    of the other stream are zero) and 14*58 - 116 = 696 data symbols. *)
Theorem scenario_counts : forall (A : Type) (D : Dtype A) (s : Q),
    exists rg : ResourceGrid A,
      ResourceGrid_init 14 64 s 2 1 0 [2; 3]%Z true (PatternStr "kronecker")
        (Some [2; 11]%Z) = Ok rg
      /\ ResourceGrid_num_effective_subcarriers rg = 58%Z
      /\ ResourceGrid_num_pilot_symbols rg = 116%Z
      /\ PilotPattern_num_pilot_symbols (_pilot_pattern rg) = 116%Z
      /\ ResourceGrid_num_data_symbols rg = 696%Z
      /\ PilotPattern_num_data_symbols (_pilot_pattern rg) = 696%Z.
Proof.
  intros A D s. destruct (scenario_grid D s) as (rg & Hrg & Hn & Hp & Hd).
  exists rg. repeat split; try assumption.
  revert Hrg. clear. intros Hrg.
  assert (Heq : Ok rg = Ok rg) by reflexivity.
  rewrite <- Hrg in Heq at 1. vm_compute in Heq. injection Heq as <-.
  vm_compute. reflexivity.
Qed.

(** C2, counterexample: no grid constructed in the scenario has 58 pilot
    symbols per stream and 754 data symbols. *)
Lemma scenario_claimed_counts :
  ~ exists rg : ResourceGrid Z,
      ResourceGrid_init 14 64 (30000 # 1) 2 1 0 [2; 3]%Z true
        (PatternStr "kronecker") (Some [2; 11]%Z) = Ok rg
      /\ ResourceGrid_num_effective_subcarriers rg = 58%Z
      /\ ResourceGrid_num_pilot_symbols rg = 58%Z
      /\ ResourceGrid_num_data_symbols rg = 754%Z.
Proof.
  intros (rg & Hrg & _ & Hp & _).
  destruct (scenario_grid int_dtype (30000 # 1)) as (rg' & Hrg' & _ & Hp' & _).
  rewrite Hrg in Hrg'. injection Hrg' as <-. rewrite Hp in Hp'. discriminate.
Qed.

(** ** PilotPattern: the pilot-count invariant *)

Lemma get_tmap : forall (T U : Type) (f : T -> U) (d : T) (t : tensor T) idx,
    get (f d) (tmap f t) idx = f (get d t idx).
Proof. intros. unfold get, tmap. simpl. apply map_nth. Qed.

Lemma block_tmap : forall (T U : Type) (f : T -> U) (d : T) (t : tensor T) lead,
    block (f d) (tmap f t) lead = map f (block d t lead).
Proof.
  intros. unfold block. rewrite map_map. simpl.
  apply map_ext. intros tl. apply get_tmap.
Qed.

Lemma sum_cast_count : forall l : list bool,
    fold_right Z.add 0%Z (map (fun b : bool => if b then 1%Z else 0%Z) l)
    = Z.of_nat (length (filter (fun b : bool => b) l)).
Proof.
  induction l as [|b l IH]; [reflexivity|].
  cbn [map fold_right filter]. rewrite IH.
  destruct b; cbn [length]; [rewrite Nat2Z.inj_succ; lia | reflexivity].
Qed.

Lemma reduce_sum_pair_count : forall (mask : tensor bool) i j,
    fold_right Z.add 0%Z (block 0%Z (tf_cast_int32 mask) [i; j])
    = pair_count mask i j.
Proof.
  intros mask i j. unfold tf_cast_int32, pair_count.
  rewrite (block_tmap (fun b : bool => if b then 1%Z else 0%Z) false).
  apply sum_cast_count.
Qed.

Lemma fold_min_le : forall l x y, In y (x :: l) -> (fold_left Z.min l x <= y)%Z.
Proof.
  induction l as [|a l IH]; intros x y Hin; simpl in *.
  - destruct Hin as [<-|[]]. lia.
  - destruct Hin as [<-|[<-|Hin]].
    + specialize (IH (Z.min x a) (Z.min x a) (or_introl eq_refl)). lia.
    + specialize (IH (Z.min x a) (Z.min x a) (or_introl eq_refl)). lia.
    + apply IH. right. assumption.
Qed.

Lemma fold_max_ge : forall l x y, In y (x :: l) -> (y <= fold_left Z.max l x)%Z.
Proof.
  induction l as [|a l IH]; intros x y Hin; simpl in *.
  - destruct Hin as [<-|[]]. lia.
  - destruct Hin as [<-|[<-|Hin]].
    + specialize (IH (Z.max x a) (Z.max x a) (or_introl eq_refl)). lia.
    + specialize (IH (Z.max x a) (Z.max x a) (or_introl eq_refl)). lia.
    + apply IH. right. assumption.
Qed.

Lemma reduce_min_le : forall (t : tensor Z) y,
    In y (data t) -> (tf_reduce_min t <= y)%Z.
Proof.
  intros [s [|x l]] y Hin; [destruct Hin|]. apply fold_min_le. assumption.
Qed.

Lemma reduce_max_ge : forall (t : tensor Z) y,
    In y (data t) -> (y <= tf_reduce_max t)%Z.
Proof.
  intros [s [|x l]] y Hin; [destruct Hin|]. apply fold_max_ge. assumption.
Qed.

Lemma fold_min_const : forall c l,
    Forall (eq c) l -> fold_left Z.min l c = c.
Proof.
  intros c l Hall. induction Hall as [|a l <- _ IH]; simpl; [reflexivity|].
  rewrite Z.min_id. assumption.
Qed.

Lemma fold_max_const : forall c l,
    Forall (eq c) l -> fold_left Z.max l c = c.
Proof.
  intros c l Hall. induction Hall as [|a l <- _ IH]; simpl; [reflexivity|].
  rewrite Z.max_id. assumption.
Qed.

Lemma reduce_const : forall (t : tensor Z) c,
    data t <> [] -> Forall (eq c) (data t) ->
    tf_reduce_min t = c /\ tf_reduce_max t = c.
Proof.
  intros [s [|x l]] c Hne Hall; [contradiction|].
  inversion Hall as [|? ? <- Hl]; subst. unfold tf_reduce_min, tf_reduce_max.
  simpl. split; [apply fold_min_const | apply fold_max_const]; assumption.
Qed.

Lemma reduce_sum_data : forall (mask : tensor bool),
    rank mask = 4 ->
    data (tf_reduce_sum_last2 (tf_cast_int32 mask))
    = map (fun idx => pair_count mask (nth 0 idx 0) (nth 1 idx 0))
          (indices [dim mask 0; dim mask 1]).
Proof.
  intros [s l] Hr. unfold rank in Hr. simpl in Hr.
  destruct s as [|d0 [|d1 [|d2 [|d3 [|]]]]]; try discriminate.
  unfold tf_reduce_sum_last2, tabulate, rank, dim. simpl shape. simpl data.
  simpl firstn. simpl nth. simpl length.
  apply map_ext_in. intros idx Hin. apply In_indices in Hin.
  inversion Hin as [|i ? idx1 ? Hi H1]; subst.
  inversion H1 as [|j ? idx2 ? Hj H2]; subst. inversion H2; subst.
  apply (reduce_sum_pair_count (Tensor [d0; d1; d2; d3] l)).
Qed.

Lemma pair_count_in_data : forall (mask : tensor bool) i j,
    rank mask = 4 -> i < dim mask 0 -> j < dim mask 1 ->
    In (pair_count mask i j) (data (tf_reduce_sum_last2 (tf_cast_int32 mask))).
Proof.
  intros mask i j Hr Hi Hj. rewrite reduce_sum_data by assumption.
  apply in_map_iff. exists [i; j]. split; [reflexivity|].
  apply In_indices. repeat constructor; assumption.
Qed.

Lemma PilotPattern_init_uneven : forall (A : Type)
    (mask : tensor bool) (pilots : tensor A) (normalize : bool) i j i' j',
    i < dim mask 0 -> j < dim mask 1 -> i' < dim mask 0 -> j' < dim mask 1 ->
    pair_count mask i j <> pair_count mask i' j' ->
    exists msg, PilotPattern_init mask pilots normalize
                = Raise (AssertionError msg).
Proof.
  intros A mask pilots normalize i j i' j' Hi Hj Hi' Hj' Hne.
  unfold PilotPattern_init, PilotPattern_check_settings.
  cbn [PilotPattern_set_pilots PilotPattern_set_normalize _mask _pilots
       _normalize].
  match goal with
  | |- exists msg, bind ?c _ = _ =>
      assert (Hraise : exists msg, c = Raise (AssertionError msg));
      [| destruct Hraise as (msg & ->); exists msg; reflexivity]
  end.
  raise_assertion.
  match goal with
  | Hx : (rank (tf_cast_int32 mask) =? 4) = true |- _ =>
      apply Nat.eqb_eq in Hx; rename Hx into Hr
  end.
  change (rank (tf_cast_int32 mask)) with (rank mask) in Hr.
  match goal with
  | Hx : (_ =? _)%Z = true |- _ => apply Z.eqb_eq in Hx; rename Hx into Heq
  end.
  pose proof (reduce_min_le _ _ (pair_count_in_data mask Hr Hi Hj)).
  pose proof (reduce_max_ge _ _ (pair_count_in_data mask Hr Hi Hj)).
  pose proof (reduce_min_le _ _ (pair_count_in_data mask Hr Hi' Hj')).
  pose proof (reduce_max_ge _ _ (pair_count_in_data mask Hr Hi' Hj')).
  lia.
Qed.

Lemma PilotPattern_init_even : forall (A : Type)
    (mask : tensor bool) (pilots : tensor A) (normalize : bool),
    rank mask = 4 -> rank pilots = 3 ->
    firstn 2 (shape mask) = firstn 2 (shape pilots) ->
    0 < dim mask 0 -> 0 < dim mask 1 ->
    (forall i j, i < dim mask 0 -> j < dim mask 1 ->
                 pair_count mask i j = Z.of_nat (dim_last pilots)) ->
    PilotPattern_init mask pilots normalize
    = Ok {| _mask := tf_cast_int32 mask;
            _pilots := pilots;
            _normalize := normalize |}.
Proof.
  intros A mask pilots normalize Hr Hrp Hlead Hd0 Hd1 Hcount.
  unfold PilotPattern_init, PilotPattern_check_settings.
  cbn [PilotPattern_set_pilots PilotPattern_set_normalize _mask _pilots
       _normalize].
  change (rank (tf_cast_int32 mask)) with (rank mask).
  change (shape (tf_cast_int32 mask)) with (shape mask).
  rewrite Hr, Hrp, Nat.eqb_refl. cbn [Nat.eqb assert bind].
  rewrite (proj2 (list_eqb_eq _ _) Hlead). cbn [assert bind].
  destruct (@reduce_const (tf_reduce_sum_last2 (tf_cast_int32 mask))
              (Z.of_nat (dim_last pilots))) as [Hmin Hmax].
  - rewrite reduce_sum_data by assumption.
    destruct (dim mask 0) as [|d0]; [lia|].
    destruct (dim mask 1) as [|d1]; [lia|]. discriminate.
  - rewrite reduce_sum_data by assumption. apply Forall_forall.
    intros c Hc. apply in_map_iff in Hc. destruct Hc as (idx & <- & Hin).
    apply In_indices in Hin.
    inversion Hin as [|i ? idx1 ? Hi H1]; subst.
    inversion H1 as [|j ? idx2 ? Hj H2]; subst. inversion H2; subst.
    symmetry. apply Hcount; assumption.
  - rewrite Hmin, Hmax. unfold PilotPattern_num_pilot_symbols.
    cbn [_pilots]. rewrite !Z.eqb_refl. reflexivity.
Qed.

Lemma PilotPattern_init_Ok : forall (A : Type)
    (mask : tensor bool) (pilots : tensor A) (normalize : bool) pp,
    PilotPattern_init mask pilots normalize = Ok pp ->
    pp = {| _mask := tf_cast_int32 mask;
            _pilots := pilots;
            _normalize := normalize |}
    /\ PilotPattern_check_settings pp = Ok true.
Proof.
  intros A mask pilots normalize pp Hinit. unfold PilotPattern_init in Hinit.
  cbn [PilotPattern_set_pilots PilotPattern_set_normalize _mask _pilots
       _normalize] in Hinit.
  apply bind_Ok in Hinit. destruct Hinit as (b & Hb & Hpp).
  injection Hpp as <-. split; [reflexivity|].
  rewrite Hb. f_equal. unfold PilotPattern_check_settings in Hb.
  split_ok Hb. congruence.
Qed.

(** C4, as amended: constructing a pattern from a mask in which two
    (tx, stream) pairs have different numbers of [True] entries raises an
    assertion error; when mask and pilots have four and three dimensions,
    agree in the first two, there is at least one transmitter and one
    stream, and every pair has as many [True] entries as the last dimension
    of the pilots, the construction succeeds and stores the mask, the pilots
    and the flag. *)
Theorem PilotPattern_init_pilot_count : forall (A : Type)
    (mask : tensor bool) (pilots : tensor A) (normalize : bool),
    ((exists i j i' j',
         i < dim mask 0 /\ j < dim mask 1 /\ i' < dim mask 0 /\ j' < dim mask 1
         /\ pair_count mask i j <> pair_count mask i' j') ->
     exists msg, PilotPattern_init mask pilots normalize
                 = Raise (AssertionError msg))
    /\ (rank mask = 4 -> rank pilots = 3 ->
        firstn 2 (shape mask) = firstn 2 (shape pilots) ->
        0 < dim mask 0 -> 0 < dim mask 1 ->
        (forall i j, i < dim mask 0 -> j < dim mask 1 ->
                     pair_count mask i j = Z.of_nat (dim_last pilots)) ->
        PilotPattern_init mask pilots normalize
        = Ok {| _mask := tf_cast_int32 mask;
                _pilots := pilots;
                _normalize := normalize |}).
Proof.
  intros A mask pilots normalize. split.
  - intros (i & j & i' & j' & Hi & Hj & Hi' & Hj' & Hne).
    exact (@PilotPattern_init_uneven A mask pilots normalize i j i' j'
             Hi Hj Hi' Hj' Hne).
  - exact (@PilotPattern_init_even A mask pilots normalize).
Qed.

Lemma PilotPattern_init_pilot_count_witness :
  (exists msg, PilotPattern_init uneven_mask (Tensor [1; 2; 1] [5; 7]%Z) false
               = Raise (AssertionError msg))
  /\ PilotPattern_init even_mask (Tensor [1; 2; 1] [5; 7]%Z) false
     = Ok {| _mask := tf_cast_int32 even_mask;
             _pilots := Tensor [1; 2; 1] [5; 7]%Z;
             _normalize := false |}.
Proof.
  split.
  - apply (proj1 (@PilotPattern_init_pilot_count Z uneven_mask
                    (Tensor [1; 2; 1] [5; 7]%Z) false)).
    exists 0, 0, 0, 1. vm_compute. repeat split; lia.
  - apply (proj2 (@PilotPattern_init_pilot_count Z even_mask
                    (Tensor [1; 2; 1] [5; 7]%Z) false));
      try reflexivity; try (vm_compute; lia).
    intros i j Hi Hj. change (dim even_mask 0) with 1 in Hi.
    change (dim even_mask 1) with 2 in Hj.
    destruct i as [|i]; [|lia].
    destruct j as [|[|j]]; [reflexivity | reflexivity | lia].
Defined.

(** C4, counterexample: a mask of shape [[0; 1; 2; 2]] and pilots of shape
    [[0; 1; 0]] have the right ranks and the same leading dimensions, and
    every pair (there is none) has as many [True] entries as the last
    dimension of the pilots; the construction fails all the same, because
    the minimum and the maximum of no count differ. *)
Lemma PilotPattern_init_no_pair :
  rank no_tx_mask = 4 /\ rank no_tx_pilots = 3
  /\ firstn 2 (shape no_tx_mask) = firstn 2 (shape no_tx_pilots)
  /\ (forall i j, i < dim no_tx_mask 0 -> j < dim no_tx_mask 1 ->
                  pair_count no_tx_mask i j
                  = Z.of_nat (dim_last no_tx_pilots))
  /\ PilotPattern_init no_tx_mask no_tx_pilots false
     = Raise (AssertionError "The number of nonzero elements in the masks for all transmitters and streams must be identical.").
Proof.
  split; [reflexivity|]. split; [reflexivity|]. split; [reflexivity|].
  split; [|reflexivity].
  intros i j Hi _. unfold dim in Hi. cbn [no_tx_mask shape nth] in Hi. lia.
Qed.

(** ** Rows and blocks of a tensor *)

Lemma in_bounds_app : forall i1 s1 i2 s2,
    in_bounds i1 s1 -> in_bounds i2 s2 -> in_bounds (i1 ++ i2) (s1 ++ s2).
Proof. intros. apply Forall2_app; assumption. Qed.

Lemma in_bounds_1 : forall c n, c < n -> in_bounds [c] [n].
Proof. intros. repeat constructor. assumption. Qed.

Lemma indices_1 : forall n, indices [n] = map (fun c => [c]) (seq 0 n).
Proof.
  intros n. simpl. induction (seq 0 n) as [|c l IH]; simpl; congruence.
Qed.

Lemma dim_last_tabulate : forall (T : Type) ls n (f : list nat -> T),
    dim_last (tabulate (ls ++ [n]) f) = n.
Proof. intros. unfold dim_last. simpl. apply last_last. Qed.

Lemma row_tabulate : forall (T : Type) (d : T) ls n f lead,
    in_bounds lead ls ->
    row d (tabulate (ls ++ [n]) f) lead
    = map (fun c => f (lead ++ [c])) (seq 0 n).
Proof.
  intros T d ls n f lead Hb. unfold row. rewrite dim_last_tabulate.
  apply map_ext_in. intros c Hc. apply in_seq in Hc.
  apply get_tabulate. apply in_bounds_app; [assumption|].
  apply in_bounds_1. lia.
Qed.

Lemma row_full : forall (T : Type) (d : T) ls n v lead,
    in_bounds lead ls -> row d (full (ls ++ [n]) v) lead = repeat v n.
Proof.
  intros T d ls n v lead Hb. unfold row, dim_last. simpl shape.
  rewrite last_last.
  transitivity (map (fun _ : nat => v) (seq 0 n)).
  - apply map_ext_in. intros c Hc. apply in_seq in Hc.
    apply get_full. apply in_bounds_app; [assumption|].
    apply in_bounds_1. lia.
  - generalize 0. induction n as [|n IH]; intros a; simpl; [reflexivity|].
    f_equal. apply IH.
Qed.

Lemma length_row : forall (T : Type) (d : T) (t : tensor T) lead,
    length (row d t lead) = dim_last t.
Proof. intros. unfold row. rewrite length_map, length_seq. reflexivity. Qed.

Lemma py_slice_bound_le : forall n i, py_slice_bound n i <= n.
Proof. intros. unfold py_slice_bound. destruct (i <? 0)%Z; lia. Qed.

Lemma py_slice_bound_inside : forall n i,
    (0 <= i <= Z.of_nat n)%Z -> py_slice_bound n i = Z.to_nat i.
Proof.
  intros n i Hi. unfold py_slice_bound.
  destruct (i <? 0)%Z eqn:Hneg; [apply Z.ltb_lt in Hneg; lia | lia].
Qed.

Lemma row_slice_last_to : forall (T : Type) (d : T) (t : tensor T) ls n i lead,
    shape t = ls ++ [n] -> in_bounds lead ls ->
    row d (slice_last_to d t i) lead
    = firstn (py_slice_bound n i) (row d t lead).
Proof.
  intros T d t ls n i lead Hs Hb. unfold slice_last_to.
  assert (Hn : dim_last t = n) by (unfold dim_last; rewrite Hs; apply last_last).
  rewrite Hs, removelast_last, Hn, row_tabulate by assumption.
  unfold row. rewrite Hn, firstn_map, firstn_seq.
  rewrite Nat.min_l by apply py_slice_bound_le. reflexivity.
Qed.

Lemma row_slice_last_from : forall (T : Type) (d : T) (t : tensor T) ls n i lead,
    shape t = ls ++ [n] -> in_bounds lead ls ->
    row d (slice_last_from d t i) lead
    = skipn (py_slice_bound n i) (row d t lead).
Proof.
  intros T d t ls n i lead Hs Hb. unfold slice_last_from.
  assert (Hn : dim_last t = n) by (unfold dim_last; rewrite Hs; apply last_last).
  rewrite Hs, removelast_last, Hn, row_tabulate by assumption.
  unfold row. rewrite Hn, skipn_map, skipn_seq.
  rewrite (seq_map_add (n - py_slice_bound n i) (0 + py_slice_bound n i)), map_map.
  apply map_ext. intros c. rewrite removelast_last, last_last. reflexivity.
Qed.

Lemma concat_pick_rows : forall (T : Type) (d : T) (ts : list (tensor T)) lead,
    map (concat_pick d ts lead) (seq 0 (list_sum (map dim_last ts)))
    = concat (map (fun t => row d t lead) ts).
Proof.
  intros T d ts lead. induction ts as [|t ts IH]; [reflexivity|].
  cbn [map list_sum fold_right concat]. rewrite seq_app, map_app. f_equal.
  - unfold row. apply map_ext_in. intros c Hc. apply in_seq in Hc.
    cbn [concat_pick]. destruct (c <? dim_last t) eqn:Hlt; [reflexivity|].
    apply Nat.ltb_ge in Hlt. lia.
  - rewrite <- IH, (seq_map_add _ (0 + dim_last t)), map_map.
    apply map_ext. intros c. cbn [concat_pick].
    destruct (0 + dim_last t + c <? dim_last t) eqn:Hlt;
      [apply Nat.ltb_lt in Hlt; lia|].
    f_equal. lia.
Qed.

Lemma tf_concat_last_Ok : forall (T : Type) (d : T) t0 ts lead,
    Forall (fun t => exists n, shape t = lead ++ [n]) (t0 :: ts) ->
    tf_concat_last d (t0 :: ts)
    = Ok (tabulate (lead ++ [list_sum (map dim_last (t0 :: ts))])
            (fun idx => concat_pick d (t0 :: ts) (removelast idx) (last idx 0))).
Proof.
  intros T d t0 ts lead Hall. unfold tf_concat_last.
  assert (H0 : exists n, shape t0 = lead ++ [n])
    by (inversion Hall; assumption).
  destruct H0 as (n0 & H0).
  replace (1 <=? rank t0) with true.
  2:{ symmetry. apply Nat.leb_le. unfold rank. rewrite H0, length_app.
      simpl. lia. }
  replace (forallb _ (t0 :: ts)) with true.
  - cbn [andb]. rewrite H0, removelast_last. reflexivity.
  - symmetry. apply forallb_forall. intros t Ht.
    rewrite Forall_forall in Hall. destruct (Hall t Ht) as (n & Hn).
    unfold rank. rewrite Hn, H0, !removelast_last, !length_app.
    rewrite Nat.eqb_refl. apply list_eqb_eq. reflexivity.
Qed.

Lemma row_concat : forall (T : Type) (d : T) (ts : list (tensor T)) ls lead,
    in_bounds lead ls ->
    row d (tabulate (ls ++ [list_sum (map dim_last ts)])
             (fun idx => concat_pick d ts (removelast idx) (last idx 0)))
        lead
    = concat (map (fun t => row d t lead) ts).
Proof.
  intros T d ts ls lead Hb. rewrite row_tabulate by assumption.
  rewrite <- concat_pick_rows. apply map_ext. intros c.
  rewrite removelast_last, last_last. reflexivity.
Qed.

Lemma get_In_data : forall (T : Type) (d : T) (t : tensor T) idx,
    tensor_wf t -> in_bounds idx (shape t) -> In (get d t idx) (data t).
Proof.
  intros T d t idx Hwf Hb. unfold get. apply nth_In.
  rewrite Hwf. apply ravel_lt. assumption.
Qed.

Lemma block_rows : forall (T : Type) (d : T) (t : tensor T) a b c n i j,
    shape t = [a; b; c; n] ->
    block d t [i; j] = flat_map (fun s => row d t [i; j; s]) (seq 0 c).
Proof.
  intros T d t a b c n i j Hs. unfold block, row, dim_last. rewrite Hs.
  cbn [length skipn last indices].
  rewrite !flat_map_concat_map', concat_map, map_map. f_equal.
  apply map_ext. intros s.
  rewrite <- flat_map_concat_map'.
  change (flat_map (fun i0 => map (cons i0) [[]]) (seq 0 n)) with (indices [n]).
  rewrite indices_1, !map_map. reflexivity.
Qed.

Lemma length_block : forall (T : Type) (d : T) (t : tensor T) lead,
    length (block d t lead) = size (skipn (length lead) (shape t)).
Proof. intros. unfold block. rewrite length_map. apply length_indices. Qed.

Lemma count_codes : forall l : list Z,
    Forall (fun v => In v [0; 1; 2; 3]%Z) l ->
    length (filter (Z.eqb 0) l) + length (filter (Z.eqb 1) l)
    + length (filter (Z.eqb 2) l) + length (filter (Z.eqb 3) l) = length l.
Proof.
  intros l Hall. induction Hall as [|v l Hv _ IH]; [reflexivity|].
  cbn [In] in Hv.
  destruct Hv as [<-|[<-|[<-|[<-|[]]]]]; simpl; lia.
Qed.

(** ** ResourceGrid: the type grid *)

Lemma filled_Ok : forall (T : Type) (dims : list Z) (v : T),
    Forall (fun d => 0 <= d)%Z dims ->
    filled dims v = Ok (full (map Z.to_nat dims) v).
Proof.
  intros T dims v Hall. unfold filled, to_shape.
  replace (forallb _ dims) with true; [reflexivity|].
  symmetry. apply forallb_forall. intros d Hd.
  rewrite Forall_forall in Hall. apply Z.leb_le. auto.
Qed.

Lemma guard_carriers_pair : forall (A : Type) (self : ResourceGrid A),
    ResourceGrid_check_settings self = Ok true ->
    exists g0 g1, _num_guard_carriers self = [g0; g1]
                  /\ (0 <= g0)%Z /\ (0 <= g1)%Z
                  /\ (g0 + g1 + Z.b2z (_dc_null self) <= _fft_size self)%Z.
Proof.
  intros A self Hchk.
  apply ResourceGrid_check_settings_Ok in Hchk.
  destruct Hchk as (_ & Hlen & Hpos & Hsum).
  destruct (_num_guard_carriers self) as [|g0 [|g1 [|]]]; try discriminate.
  exists g0, g1. inversion Hpos as [|? ? H0 H1]; subst.
  inversion H1; subst. simpl in Hsum. repeat split; try assumption; lia.
Qed.

Section TypeGrid.
Context {A : Type} {D : Dtype A}.
Variable self : ResourceGrid A.
Hypothesis Hchk : ResourceGrid_check_settings self = Ok true.
Hypothesis Hfits : mask_fits self.

Lemma mask_shape :
  shape (_mask (_pilot_pattern self))
  = [grid_tx self; grid_streams self; grid_symbols self] ++ [grid_subcarriers self].
Proof. destruct Hfits as (m & -> & _ & Hs). exact Hs. Qed.

Lemma mask_wf : tensor_wf (_mask (_pilot_pattern self)).
Proof.
  destruct Hfits as (m & -> & Hwf & _). unfold tensor_wf, tf_cast_int32, tmap.
  simpl. rewrite length_map. exact Hwf.
Qed.

Lemma mask_binary : forall idx,
    In (get 0%Z (_mask (_pilot_pattern self)) idx) [0; 1]%Z.
Proof.
  intros idx. destruct Hfits as (m & -> & _ & _). unfold tf_cast_int32.
  rewrite (get_tmap (fun b : bool => if b then 1%Z else 0%Z) false).
  destruct (get false m idx); simpl; auto.
Qed.

Lemma build_type_grid_rows :
  exists tg,
    ResourceGrid_build_type_grid self = Ok tg
    /\ shape tg = [grid_tx self; grid_streams self; grid_symbols self; grid_fft self]
    /\ tensor_wf tg
    /\ forall i j s,
        i < grid_tx self -> j < grid_streams self -> s < grid_symbols self ->
        row 0%Z tg [i; j; s]
        = type_row self (row 0%Z (_mask (_pilot_pattern self)) [i; j; s]).
Proof.
  pose proof Hchk as Hgp. apply guard_carriers_pair in Hgp.
  destruct Hgp as (g0 & g1 & Hgc & Hg0 & Hg1 & Hsum).
  pose proof Hchk as Hpos. apply ResourceGrid_check_settings_Ok in Hpos.
  destruct Hpos as ((Hn & Hf & _ & Htx & Hst) & _).
  pose proof mask_shape as Hms.
  unfold ResourceGrid_build_type_grid, PilotPattern_mask. rewrite Hgc.
  change (np_item [g0; g1] 0) with (Ok g0).
  change (np_item [g0; g1] 1) with (Ok g1).
  cbn [bind].
  rewrite !filled_Ok by (repeat constructor; try lia; destruct (_dc_null self); simpl; lia).
  cbn [bind map app].
  set (mask := _mask (_pilot_pattern self)) in *.
  set (split := (ResourceGrid_dc_ind self - g0)%Z).
  set (lead := [Z.to_nat (_num_tx self); Z.to_nat (_num_streams_per_tx self);
                Z.to_nat (_num_ofdm_symbols self)]).
  assert (Hlast : dim_last mask = grid_subcarriers self)
    by (unfold dim_last; rewrite Hms; apply last_last).
  rewrite (@tf_concat_last_Ok _ 0%Z _ _ lead).
  2:{ repeat constructor.
      - exists (Z.to_nat g0). reflexivity.
      - exists (py_slice_bound (dim_last mask) split). unfold slice_last_to.
        simpl shape. rewrite Hms, removelast_last. reflexivity.
      - exists (Z.to_nat (Z.b2z (_dc_null self))). reflexivity.
      - exists (dim_last mask - py_slice_bound (dim_last mask) split).
        unfold slice_last_from. simpl shape. rewrite Hms, removelast_last.
        reflexivity.
      - exists (Z.to_nat g1). reflexivity. }
  eexists. split; [reflexivity|].
  assert (Hsumdim :
            list_sum (map (@dim_last Z)
                        [full [Z.to_nat (_num_tx self);
                               Z.to_nat (_num_streams_per_tx self);
                               Z.to_nat (_num_ofdm_symbols self); Z.to_nat g0] 2%Z;
                         slice_last_to 0%Z mask split;
                         full [Z.to_nat (_num_tx self);
                               Z.to_nat (_num_streams_per_tx self);
                               Z.to_nat (_num_ofdm_symbols self);
                               Z.to_nat (Z.b2z (_dc_null self))] 3%Z;
                         slice_last_from 0%Z mask split;
                         full [Z.to_nat (_num_tx self);
                               Z.to_nat (_num_streams_per_tx self);
                               Z.to_nat (_num_ofdm_symbols self); Z.to_nat g1] 2%Z])
            = grid_fft self).
  { cbn [map list_sum fold_right]. unfold slice_last_to, slice_last_from.
    rewrite !dim_last_tabulate, !Hlast. unfold dim_last. cbn [shape full last].
    pose proof (py_slice_bound_le (grid_subcarriers self) split) as Hk.
    unfold grid_subcarriers, grid_fft, ResourceGrid_num_effective_subcarriers in *.
    rewrite Hgc in *. cbn [np_sum fold_right] in *.
    destruct (_dc_null self); cbn [Z.b2z] in *; lia. }
  split; [|split].
  - cbn [shape tabulate]. rewrite Hsumdim. reflexivity.
  - apply tabulate_wf.
  - intros i j s Hi Hj Hs.
    rewrite row_concat by (repeat constructor; assumption).
    cbn [map concat].
    change [Z.to_nat (_num_tx self); Z.to_nat (_num_streams_per_tx self);
            Z.to_nat (_num_ofdm_symbols self); Z.to_nat g0]
      with (lead ++ [Z.to_nat g0]).
    change [Z.to_nat (_num_tx self); Z.to_nat (_num_streams_per_tx self);
            Z.to_nat (_num_ofdm_symbols self); Z.to_nat g1]
      with (lead ++ [Z.to_nat g1]).
    change [Z.to_nat (_num_tx self); Z.to_nat (_num_streams_per_tx self);
            Z.to_nat (_num_ofdm_symbols self); Z.to_nat (Z.b2z (_dc_null self))]
      with (lead ++ [Z.to_nat (Z.b2z (_dc_null self))]).
    rewrite !row_full by (repeat constructor; assumption).
    rewrite (@row_slice_last_to _ 0%Z mask lead (grid_subcarriers self))
      by (assumption || (repeat constructor; assumption)).
    rewrite (@row_slice_last_from _ 0%Z mask lead (grid_subcarriers self))
      by (assumption || (repeat constructor; assumption)).
    unfold type_row. rewrite Hgc, length_row, Hlast. cbn [nth].
    rewrite app_nil_r. reflexivity.
Qed.

End TypeGrid.

Lemma nth_row : forall (T : Type) (d : T) (t : tensor T) lead c,
    c < dim_last t -> nth c (row d t lead) d = get d t (lead ++ [c]).
Proof.
  intros T d t lead c Hc. unfold row.
  rewrite (nth_indep _ d ((fun c0 => get d t (lead ++ [c0])) 0))
    by (rewrite length_map, length_seq; assumption).
  rewrite (map_nth (fun c0 => get d t (lead ++ [c0]))), seq_nth by assumption.
  reflexivity.
Qed.

Lemma type_row_codes : forall (A : Type) (D : Dtype A) (self : ResourceGrid A)
    (mrow : list Z),
    Forall (fun v => In v [0; 1]%Z) mrow ->
    Forall (fun v => In v [0; 1; 2; 3]%Z) (type_row self mrow).
Proof.
  intros A D self mrow Hm. unfold type_row.
  assert (Hweak : forall l, Forall (fun v => In v [0; 1]%Z) l ->
                            Forall (fun v => In v [0; 1; 2; 3]%Z) l).
  { intros l Hl. eapply Forall_impl; [|exact Hl].
    intros v [<-|[<-|[]]]; simpl; auto. }
  set (k := py_slice_bound _ _).
  pose proof Hm as Hm'. rewrite <- (firstn_skipn k mrow) in Hm'.
  apply Forall_app in Hm'. destruct Hm' as [Hfirst Hskip].
  assert (Hrep : forall v c, In v [0; 1; 2; 3]%Z ->
                             Forall (fun v => In v [0; 1; 2; 3]%Z) (repeat v c)).
  { intros v c Hv. apply Forall_forall. intros w Hw.
    apply repeat_spec in Hw. subst. exact Hv. }
  rewrite !Forall_app. repeat split; auto; apply Hrep; simpl; auto.
Qed.

(** ** KroneckerPilotPattern: the divisibility assertion *)

Lemma mod_scaled : forall p n s : Z,
    (0 < p)%Z -> (s <> 0)%Z ->
    ((p * n) mod (s * p) = 0 <-> n mod s = 0)%Z.
Proof.
  intros p n s Hp Hs.
  rewrite (Z.mul_comm s p), Z.mul_mod_distr_l by lia. nia.
Qed.

Lemma kronecker_assert : forall np neff S : Z,
    (0 <= np)%Z ->
    is_integral (np_true_divide
                   (np_true_divide (Some (inject_Z (np * neff))) S) np) = true
    <-> (np <> 0 /\ S <> 0 /\ neff mod S = 0)%Z.
Proof.
  intros np neff S Hnp. unfold np_true_divide.
  destruct (S =? 0)%Z eqn:HS.
  { apply Z.eqb_eq in HS. simpl. split; [discriminate | tauto]. }
  destruct (np =? 0)%Z eqn:HP.
  { apply Z.eqb_eq in HP. simpl. split; [discriminate | tauto]. }
  apply Z.eqb_neq in HS, HP. unfold is_integral. rewrite Z.eqb_eq.
  destruct np as [|p|p]; try lia.
  remember (Z.pos p * neff)%Z as M eqn:HM.
  destruct S as [|s|s]; try lia.
  - cbn [Qdiv Qmult Qinv inject_Z Qnum Qden].
    rewrite !Z.mul_1_r, Pos.mul_1_l, Pos2Z.inj_mul. subst M.
    rewrite mod_scaled by lia. intuition.
  - cbn [Qdiv Qmult Qinv inject_Z Qnum Qden].
    rewrite !Z.mul_1_r, Pos.mul_1_l, Pos2Z.inj_mul. subst M.
    change (Z.neg 1) with (- (1))%Z.
    rewrite Z.mul_opp_r, Z.mul_1_r.
    rewrite !Z.mod_divide by lia. rewrite Z.divide_opp_r.
    rewrite <- !Z.mod_divide by lia. rewrite mod_scaled by lia.
    rewrite !Z.mod_divide by lia.
    change (Z.neg s) with (- Z.pos s)%Z. rewrite Z.divide_opp_l. intuition.
Qed.

Lemma kronecker_per_symbol : forall np neff S : Z,
    (0 < np)%Z -> (0 < S)%Z -> (neff mod S = 0)%Z ->
    py_int (np_true_divide
              (np_true_divide (Some (inject_Z (np * neff))) S) np)
    = (neff / S)%Z.
Proof.
  intros np neff S Hnp HS Hmod. unfold np_true_divide.
  destruct (S =? 0)%Z eqn:HS0; [apply Z.eqb_eq in HS0; lia|].
  destruct (np =? 0)%Z eqn:HP0; [apply Z.eqb_eq in HP0; lia|].
  destruct np as [|p|p]; try lia.
  remember (Z.pos p * neff)%Z as M eqn:HM.
  destruct S as [|s|s]; try lia.
  unfold py_int, Qtrunc.
  cbn [Qdiv Qmult Qinv inject_Z Qnum Qden].
  rewrite !Z.mul_1_r, Pos.mul_1_l, Pos2Z.inj_mul. subst M.
  apply Z.mod_divide in Hmod; [|lia]. destruct Hmod as (k & ->).
  rewrite Z.div_mul by lia.
  replace (Z.pos p * (k * Z.pos s))%Z with (k * (Z.pos s * Z.pos p))%Z by lia.
  apply Z.quot_mul. lia.
Qed.

(** ** KroneckerPilotPattern: the loops *)

Lemma for_range_inv : forall (S0 : Type) (Inv : nat -> S0 -> Prop) (n : Z)
    (body : nat -> S0 -> result S0) (s0 : S0),
    Inv 0 s0 ->
    (forall i s, i < Z.to_nat n -> Inv i s ->
                 exists s', body i s = Ok s' /\ Inv (S i) s') ->
    exists s', for_range n body s0 = Ok s' /\ Inv (Z.to_nat n) s'.
Proof.
  intros S0 Inv n body s0 H0 Hstep. unfold for_range.
  assert (Hgen : forall len a s, a + len <= Z.to_nat n -> Inv a s ->
                   exists s', fold_left (fun acc i => bind acc (body i))
                                (seq a len) (Ok s) = Ok s'
                              /\ Inv (a + len) s').
  { induction len as [|len IH]; intros a s Hle Ha; simpl.
    - exists s. rewrite Nat.add_0_r. auto.
    - destruct (Hstep a s ltac:(lia) Ha) as (s1 & Hb & H1). rewrite Hb.
      destruct (IH (S a) s1 ltac:(lia) H1) as (s' & Hf & H').
      exists s'. split; [exact Hf|].
      replace (a + S len) with (S a + len) by lia. exact H'. }
  destruct (Hgen (Z.to_nat n) 0 s0 ltac:(lia) H0) as (s' & Hf & H').
  exists s'. auto.
Qed.

Lemma fold_raise : forall (S0 : Type) (body : nat -> S0 -> result S0) l e,
    fold_left (fun acc i => bind acc (body i)) l (Raise e) = Raise e.
Proof. induction l as [|a l IH]; intros e; simpl; auto. Qed.

Lemma for_range_raise : forall (S0 : Type) (P : error -> Prop) (n : Z)
    (body : nat -> S0 -> result S0) (s0 : S0) e,
    (forall i s e', body i s = Raise e' -> P e') ->
    for_range n body s0 = Raise e -> P e.
Proof.
  intros S0 P n body s0 e Hbody. unfold for_range.
  generalize (seq 0 (Z.to_nat n)). intros l. revert s0.
  induction l as [|a l IH]; intros s0 Hf; simpl in Hf; [discriminate|].
  destruct (body a s0) as [s1|e1] eqn:Hb.
  - apply (IH s1). exact Hf.
  - rewrite fold_raise in Hf. injection Hf as <-. eapply Hbody. exact Hb.
Qed.

Lemma div_mod_unique : forall a S q r,
    r < S -> a = S * q + r -> a / S = q /\ a mod S = r.
Proof.
  intros a S q r Hr Ha. split.
  - symmetry. apply (Nat.div_unique a S q r); assumption.
  - symmetry. apply (Nat.mod_unique a S q r); assumption.
Qed.

Lemma exact_div : forall n S, 0 < S -> n mod S = 0 -> n = S * (n / S).
Proof. intros n S HS Hm. pose proof (Nat.div_mod_eq n S). lia. Qed.

Lemma stride_len_comb : forall neff c S,
    c < S -> neff mod S = 0 -> stride_len neff c S = neff / S.
Proof.
  intros neff c S Hc Hm. unfold stride_len.
  pose proof (@exact_div neff S ltac:(lia) Hm) as He.
  destruct (c <? neff) eqn:Hlt.
  - apply Nat.ltb_lt in Hlt. set (q := neff / S) in *.
    apply (@div_mod_unique (neff - c + S - 1) S q (S - 1 - c)); [lia|]. nia.
  - apply Nat.ltb_ge in Hlt. set (q := neff / S) in *. nia.
Qed.

Lemma comb_position : forall c off S,
    off < S ->
    ((off <=? c) && ((c - off) mod S =? 0) = (c mod S =? off))
    /\ (c mod S = off -> (c - off) / S = c / S).
Proof.
  intros c off S Ho. split.
  - destruct (c mod S =? off) eqn:Hm.
    + apply Nat.eqb_eq in Hm. pose proof (Nat.div_mod_eq c S) as He.
      rewrite Hm in He.
      destruct (@div_mod_unique (c - off) S (c / S) 0 ltac:(lia) ltac:(lia))
        as [_ Hz].
      rewrite Hz. replace (off <=? c) with true; [reflexivity|].
      symmetry. apply Nat.leb_le. lia.
    + apply Nat.eqb_neq in Hm.
      destruct (off <=? c) eqn:Hle; [|reflexivity]. apply Nat.leb_le in Hle.
      destruct ((c - off) mod S =? 0) eqn:Hz; [|reflexivity].
      apply Nat.eqb_eq in Hz. exfalso. apply Hm.
      pose proof (@exact_div (c - off) S ltac:(lia) Hz) as He.
      apply (@div_mod_unique c S ((c - off) / S) off); lia.
  - intros Hm. pose proof (Nat.div_mod_eq c S) as He. rewrite Hm in He.
    apply (@div_mod_unique (c - off) S (c / S) 0); lia.
Qed.

Lemma div_lt_exact : forall c neff S,
    0 < S -> neff mod S = 0 -> c < neff -> c / S < neff / S.
Proof.
  intros c neff S HS Hm Hlt. pose proof (@exact_div neff S HS Hm) as He.
  pose proof (Nat.div_mod_eq c S) as Hc.
  pose proof (Nat.mod_upper_bound c S ltac:(lia)).
  set (q := neff / S) in *. set (m := c / S) in *. nia.
Qed.

Lemma full_tabulate : forall (T : Type) s (v : T),
    full s v = tabulate s (fun _ => v).
Proof.
  intros T s v. unfold full, tabulate. f_equal.
  rewrite <- length_indices. induction (indices s) as [|a l IH]; simpl; congruence.
Qed.

Section KroneckerLoops.
Context {A : Type} {D : Dtype A}.
Variables (seed : Z) (tx st np neff : nat).
Hypothesis Hdiv : neff mod (tx * st) = 0.

Lemma kronecker_step : forall i j,
    i < tx -> j < st ->
    np_set_strided zero (kronecker_pilots_upto seed tx st np neff (i * st + j))
      i j (i * st + j) (tx * st)
      (qam_source seed (i * st + j) [1; 1; np; neff / (tx * st)])
    = Ok (kronecker_pilots_upto seed tx st np neff (S (i * st + j))).
Proof.
  intros i j Hi Hj.
  assert (HS : i * st + j < tx * st) by nia.
  unfold np_set_strided.
  replace (tx * st =? 0) with false by (symmetry; apply Nat.eqb_neq; lia).
  unfold kronecker_pilots_upto at 1 2 3 4 5 6, qam_source, tabulate, dim, rank.
  cbn [shape nth length].
  rewrite (proj2 (Nat.ltb_lt _ _) Hi), (proj2 (Nat.ltb_lt _ _) Hj).
  rewrite stride_len_comb by assumption. rewrite !Nat.eqb_refl.
  cbn [andb negb orb].
  unfold kronecker_pilots_upto. apply f_equal. apply tabulate_ext.
  intros idx Hb.
  inversion Hb as [|i' ? idx1 ? Hi' H1]; subst.
  inversion H1 as [|j' ? idx2 ? Hj' H2]; subst.
  inversion H2 as [|s ? idx3 ? Hs H3]; subst.
  inversion H3 as [|c ? idx4 ? Hc H4]; subst. inversion H4; subst.
  cbn [nth].
  change (Tensor [tx; st; np; neff] (map ?f (indices [tx; st; np; neff])))
    with (tabulate [tx; st; np; neff] f).
  rewrite (get_tabulate _ _ Hb). cbn [nth].
  destruct (comb_position c HS) as [Hcomb Hquot].
  rewrite <- (andb_assoc ((i' =? i) && (j' =? j))), Hcomb.
  destruct ((i' =? i) && (j' =? j)) eqn:Hij.
  - apply andb_prop in Hij. destruct Hij as [Hi0 Hj0].
    apply Nat.eqb_eq in Hi0, Hj0. subst i' j'. cbn [andb].
    replace (i * st + j <? S (i * st + j)) with true
      by (symmetry; apply Nat.ltb_lt; lia).
    cbn [andb].
    destruct (c mod (tx * st) =? i * st + j) eqn:Hm.
    + apply Nat.eqb_eq in Hm. rewrite (Hquot Hm).
      pose proof (@div_lt_exact c neff (tx * st) ltac:(lia) Hdiv Hc) as Hlt.
      change (Tensor [1; 1; np; neff / (tx * st)]
                (map ?f (indices [1; 1; np; neff / (tx * st)])))
        with (tabulate [1; 1; np; neff / (tx * st)] f).
      assert (Hs' : (if np =? 1 then 0 else s) = s).
      { destruct (np =? 1) eqn:H1'; [apply Nat.eqb_eq in H1'; lia | reflexivity]. }
      assert (Hc' : (if neff / (tx * st) =? 1 then 0 else c / (tx * st))
                    = c / (tx * st)).
      { destruct (neff / (tx * st) =? 1) eqn:H1';
          [apply Nat.eqb_eq in H1'; lia | reflexivity]. }
      rewrite Hs', Hc'.
      rewrite get_tabulate by (repeat constructor; lia).
      f_equal. cbn [ravel size fold_right]. lia.
    + replace (i * st + j <? i * st + j) with false
        by (symmetry; apply Nat.ltb_ge; lia).
      reflexivity.
  - cbn [andb].
    assert (Hne : i' * st + j' <> i * st + j).
    { intros Heq. apply andb_false_iff in Hij.
      assert (i' = i) by nia. subst i'. assert (j' = j) by lia. subst j'.
      rewrite !Nat.eqb_refl in Hij. destruct Hij; discriminate. }
    replace (i' * st + j' <? S (i * st + j)) with (i' * st + j' <? i * st + j);
      [reflexivity|].
    destruct (i' * st + j' <? i * st + j) eqn:Hlt.
    + apply Nat.ltb_lt in Hlt. symmetry. apply Nat.ltb_lt. lia.
    + apply Nat.ltb_ge in Hlt. symmetry. apply Nat.ltb_ge. lia.
Qed.

Lemma kronecker_loops : forall txz stz : Z,
    Z.to_nat txz = tx -> Z.to_nat stz = st ->
    for_range txz
      (fun i pilots =>
         for_range stz
           (fun j pilots =>
              np_set_strided zero pilots i j (i * st + j) (tx * st)
                (qam_source seed (i * st + j) [1; 1; np; neff / (tx * st)]))
           pilots)
      (full [tx; st; np; neff] zero)
    = Ok (kronecker_pilots_upto seed tx st np neff (tx * st)).
Proof.
  intros txz stz Htx Hst.
  destruct (@for_range_inv (tensor A)
              (fun i s => s = kronecker_pilots_upto seed tx st np neff (i * st))
              txz
              (fun i pilots =>
                 for_range stz
                   (fun j pilots =>
                      np_set_strided zero pilots i j (i * st + j) (tx * st)
                        (qam_source seed (i * st + j)
                           [1; 1; np; neff / (tx * st)]))
                   pilots)
              (full [tx; st; np; neff] zero)) as (s' & Hs' & Hinv).
  - rewrite full_tabulate. unfold kronecker_pilots_upto.
    apply tabulate_ext. intros idx _. cbn [Nat.mul Nat.ltb Nat.leb andb].
    reflexivity.
  - intros i s Hi ->. rewrite Htx in Hi.
    destruct (@for_range_inv (tensor A)
                (fun j s => s = kronecker_pilots_upto seed tx st np neff
                                  (i * st + j))
                stz
                (fun j pilots =>
                   np_set_strided zero pilots i j (i * st + j) (tx * st)
                     (qam_source seed (i * st + j)
                        [1; 1; np; neff / (tx * st)]))
                (kronecker_pilots_upto seed tx st np neff (i * st)))
      as (s' & Hs' & Hinv).
    + rewrite Nat.add_0_r. reflexivity.
    + intros j s Hj ->. rewrite Hst in Hj.
      exists (kronecker_pilots_upto seed tx st np neff (S (i * st + j))).
      split; [apply kronecker_step; assumption|].
      f_equal. lia.
    + exists s'. split; [exact Hs'|]. rewrite Hinv, Hst. f_equal. lia.
  - rewrite Hs', Hinv, Htx. reflexivity.
Qed.

End KroneckerLoops.

Section KroneckerInit.
Context {A : Type} {D : Dtype A}.
Variable resource_grid : ResourceGrid A.
Variable pilot_ofdm_symbol_indices : list Z.
Variables (normalize : bool) (seed : Z).

Local Notation "'txn'" := (Z.to_nat (_num_tx resource_grid)).
Local Notation "'stn'" := (Z.to_nat (_num_streams_per_tx resource_grid)).
Local Notation "'nn'" := (Z.to_nat (_num_ofdm_symbols resource_grid)).
Local Notation "'neffn'" :=
  (Z.to_nat (ResourceGrid_num_effective_subcarriers resource_grid)).

Lemma KroneckerPilotPattern_init_divisible :
  pilot_ofdm_symbol_indices <> [] ->
  (0 < _num_tx resource_grid)%Z ->
  (0 < _num_streams_per_tx resource_grid)%Z ->
  (0 <= _num_ofdm_symbols resource_grid)%Z ->
  (0 <= ResourceGrid_num_effective_subcarriers resource_grid)%Z ->
  (ResourceGrid_num_effective_subcarriers resource_grid
   mod (_num_tx resource_grid * _num_streams_per_tx resource_grid) = 0)%Z ->
  KroneckerPilotPattern_init resource_grid pilot_ofdm_symbol_indices
    normalize seed
  = bind (mapM (py_index nn) pilot_ofdm_symbol_indices)
      (fun rows =>
         PilotPattern_init (kronecker_mask txn stn nn neffn rows)
           (kronecker_pilots seed txn stn (length pilot_ofdm_symbol_indices)
              neffn)
           normalize).
Proof.
  intros Hne Htx Hst Hn Hneff Hmod. unfold KroneckerPilotPattern_init.
  set (np := Z.of_nat (length pilot_ofdm_symbol_indices)).
  assert (Hnp : (0 < np)%Z).
  { unfold np. destruct pilot_ofdm_symbol_indices; [contradiction|].
    cbn [length]. lia. }
  set (S := (_num_tx resource_grid * _num_streams_per_tx resource_grid)%Z) in *.
  assert (HS : (0 < S)%Z) by (unfold S; nia).
  replace (is_integral _) with true
    by (symmetry; apply kronecker_assert; lia).
  cbn [assert bind].
  rewrite kronecker_per_symbol by assumption.
  rewrite !filled_Ok by (repeat constructor; lia).
  cbn [bind map].
  unfold np_set_rows at 1. unfold rank, dim. cbn [shape full length Nat.sub nth].
  destruct (mapM (py_index nn) pilot_ofdm_symbol_indices) as [rows|e];
    cbn [bind]; [|reflexivity].
  assert (HSn : Z.to_nat S = txn * stn)
    by (unfold S; apply Z2Nat.inj_mul; lia).
  assert (Hk : Z.to_nat (ResourceGrid_num_effective_subcarriers resource_grid / S)
               = neffn / (txn * stn)).
  { rewrite <- HSn. apply Z2Nat.inj_div; lia. }
  assert (Hdiv : neffn mod (txn * stn) = 0).
  { rewrite <- HSn. rewrite <- Z2Nat.inj_mod by lia.
    rewrite Hmod. reflexivity. }
  rewrite HSn, Hk. unfold np. rewrite Nat2Z.id.
  rewrite (@kronecker_loops _ _ seed txn stn
             (length pilot_ofdm_symbol_indices) neffn Hdiv
             (_num_tx resource_grid) (_num_streams_per_tx resource_grid)
             eq_refl eq_refl).
  cbn [bind]. unfold np_reshape_3.
  assert (Hsize : size (shape (kronecker_pilots_upto seed txn stn
                                 (length pilot_ofdm_symbol_indices) neffn
                                 (txn * stn)))
                  = (txn * stn) * (length pilot_ofdm_symbol_indices * neffn)).
  { cbn [kronecker_pilots_upto tabulate shape size fold_right]. lia. }
  rewrite Hsize.
  assert (Hpos : 0 < txn * stn) by (rewrite <- HSn; lia).
  replace (txn * stn =? 0) with false by (symmetry; apply Nat.eqb_neq; lia).
  rewrite (Nat.mul_comm (txn * stn)), Nat.Div0.mod_mul, Nat.div_mul by lia.
  cbn [Nat.eqb negb orb bind].
  reflexivity.
Qed.

End KroneckerInit.

(** ** KroneckerPilotPattern: outcome of the construction *)

Lemma filled_inv : forall (T : Type) (dims : list Z) (v : T) r,
    filled dims v = r ->
    (Forall (fun d => 0 <= d)%Z dims /\ r = Ok (full (map Z.to_nat dims) v))
    \/ exists msg, r = Raise (ValueError msg).
Proof.
  intros T dims v r <-. unfold filled, to_shape.
  destruct (forallb _ dims) eqn:Hall.
  - left. split; [|reflexivity]. apply Forall_forall. intros d Hd.
    rewrite forallb_forall in Hall. apply Z.leb_le. auto.
  - right. eexists. reflexivity.
Qed.

Lemma mapM_py_index_raise : forall n l e,
    mapM (py_index n) l = Raise e -> e = IndexError.
Proof.
  induction l as [|a l IH]; intros e Hm; simpl in Hm; [discriminate|].
  unfold py_index at 1 in Hm.
  destruct ((- Z.of_nat n <=? a)%Z && (a <? Z.of_nat n)%Z);
    cbn [bind] in Hm; [|congruence].
  destruct (mapM (py_index n) l) as [r|e']; cbn [bind] in Hm;
    [discriminate|]. injection Hm as <-. apply IH. reflexivity.
Qed.

Lemma mapM_py_index_Ok : forall n l,
    Forall (fun i => - Z.of_nat n <= i < Z.of_nat n)%Z l ->
    mapM (py_index n) l
    = Ok (map (fun i => Z.to_nat (i mod Z.of_nat n)) l).
Proof.
  intros n l Hall. induction Hall as [|a l Ha _ IH]; [reflexivity|].
  cbn [mapM map]. rewrite IH. unfold py_index.
  replace ((- Z.of_nat n <=? a)%Z && (a <? Z.of_nat n)%Z) with true
    by (symmetry; apply andb_true_intro; split;
        [apply Z.leb_le | apply Z.ltb_lt]; lia).
  cbn [bind]. do 3 f_equal.
  destruct (a <? 0)%Z eqn:Hneg.
  - apply Z.ltb_lt in Hneg.
    apply (Z.mod_unique_pos a (Z.of_nat n) (-1)); lia.
  - apply Z.ltb_ge in Hneg. symmetry. apply Z.mod_small. lia.
Qed.

Lemma mapM_py_index_lt : forall n l rows,
    mapM (py_index n) l = Ok rows ->
    length rows = length l /\ Forall (fun r => r < n) rows.
Proof.
  intros n l. induction l as [|a l IH]; intros rows Hm; simpl in Hm.
  - injection Hm as <-. split; [reflexivity | constructor].
  - unfold py_index at 1 in Hm.
    destruct ((- Z.of_nat n <=? a)%Z && (a <? Z.of_nat n)%Z) eqn:Hin;
      cbn [bind] in Hm; [|discriminate].
    destruct (mapM (py_index n) l) as [r|e]; cbn [bind] in Hm;
      [|discriminate].
    injection Hm as <-. destruct (IH r eq_refl) as [Hlen Hall].
    split; [simpl; congruence|]. constructor; [|exact Hall].
    apply andb_prop in Hin. destruct Hin as [Hlo Hhi].
    apply Z.leb_le in Hlo. apply Z.ltb_lt in Hhi.
    destruct (a <? 0)%Z eqn:Hneg;
      [apply Z.ltb_lt in Hneg | apply Z.ltb_ge in Hneg]; lia.
Qed.

Lemma np_set_strided_raise : forall (T : Type) (d : T) x i j off step p e,
    np_set_strided d x i j off step p = Raise e ->
    e = IndexError \/ exists msg, e = ValueError msg.
Proof.
  intros T d x i j off step p e Hr. unfold np_set_strided in Hr.
  destruct (step =? 0); [injection Hr as <-; right; eexists; reflexivity|].
  destruct (negb _); [left; congruence|].
  match type of Hr with
  | (if ?c then _ else _) = _ => destruct c
  end; [discriminate | injection Hr as <-; right; eexists; reflexivity].
Qed.

Lemma PilotPattern_init_raise : forall (A : Type)
    (mask : tensor bool) (pilots : tensor A) normalize e,
    PilotPattern_init mask pilots normalize = Raise e ->
    e <> AssertionError divisibility_message.
Proof.
  intros A mask pilots normalize e Hr.
  unfold PilotPattern_init, PilotPattern_check_settings in Hr.
  repeat match type of Hr with
         | bind (bind (assert ?c _) _) _ = _ =>
             destruct c; cbn [assert bind] in Hr;
             [| injection Hr as <-; discriminate]
         end.
  discriminate.
Qed.

Lemma count_members : forall n rows,
    NoDup rows -> Forall (fun r => r < n) rows ->
    length (filter (fun s => existsb (Nat.eqb s) rows) (seq 0 n))
    = length rows.
Proof.
  intros n rows Hnd Hlt. apply Permutation_length. apply NoDup_Permutation.
  - apply NoDup_filter. apply seq_NoDup.
  - exact Hnd.
  - intros x. rewrite filter_In, in_seq, existsb_exists. split.
    + intros (_ & y & Hy & Heq). apply Nat.eqb_eq in Heq. subst. exact Hy.
    + intros Hx. rewrite Forall_forall in Hlt. specialize (Hlt x Hx).
      split; [lia|]. exists x. split; [exact Hx | apply Nat.eqb_refl].
Qed.

Lemma count_true_rows : forall (mem : nat -> bool) neff l,
    length (filter (fun b : bool => b)
              (flat_map (fun s => repeat (mem s) neff) l))
    = length (filter mem l) * neff.
Proof.
  intros mem neff l. induction l as [|s l IH]; [reflexivity|].
  cbn [flat_map filter]. rewrite filter_app, length_app, IH.
  destruct (mem s); cbn [length].
  - replace (filter (fun b : bool => b) (repeat true neff)) with (repeat true neff).
    + rewrite repeat_length. lia.
    + clear. induction neff as [|k IHk]; simpl; congruence.
  - replace (filter (fun b : bool => b) (repeat false neff)) with (@nil bool).
    + reflexivity.
    + clear. induction neff as [|k IHk]; simpl; congruence.
Qed.

Lemma kronecker_mask_row : forall tx st n neff rows i j s,
    i < tx -> j < st -> s < n ->
    row false (kronecker_mask tx st n neff rows) [i; j; s]
    = repeat (existsb (Nat.eqb s) rows) neff.
Proof.
  intros tx st n neff rows i j s Hi Hj Hs. unfold kronecker_mask.
  change [tx; st; n; neff] with ([tx; st; n] ++ [neff]).
  rewrite row_tabulate by (repeat constructor; assumption).
  transitivity (map (fun _ : nat => existsb (Nat.eqb s) rows) (seq 0 neff)).
  - apply map_ext_in. intros c Hc. apply in_seq in Hc. cbn [app nth].
    rewrite get_full by (repeat constructor; lia).
    destruct (existsb (Nat.eqb s) rows); reflexivity.
  - generalize 0. induction neff as [|k IH]; intros a; simpl; [reflexivity|].
    f_equal. apply IH.
Qed.

Lemma kronecker_mask_count : forall tx st n neff rows i j,
    NoDup rows -> Forall (fun r => r < n) rows -> i < tx -> j < st ->
    pair_count (kronecker_mask tx st n neff rows) i j
    = Z.of_nat (length rows * neff).
Proof.
  intros tx st n neff rows i j Hnd Hlt Hi Hj. unfold pair_count. f_equal.
  rewrite (@block_rows _ false _ tx st n neff) by reflexivity.
  rewrite <- (count_members Hnd Hlt), <- count_true_rows.
  apply (f_equal (fun l => length (filter (fun b : bool => b) l))).
  rewrite !flat_map_concat_map'. apply (f_equal (@concat bool)).
  apply map_ext_in.
  intros s Hs. apply in_seq in Hs. apply kronecker_mask_row; lia.
Qed.

Section KroneckerOutcome.
Context {A : Type} {D : Dtype A}.
Variable rg : ResourceGrid A.
Variable indices : list Z.
Variables (normalize : bool) (seed : Z).

Local Notation "'S'" := (_num_tx rg * _num_streams_per_tx rg)%Z.
Local Notation "'neff'" := (ResourceGrid_num_effective_subcarriers rg).

Lemma kronecker_assert_indices :
  is_integral
    (np_true_divide
       (np_true_divide (Some (inject_Z (Z.of_nat (length indices) * neff))) S)
       (Z.of_nat (length indices))) = true
  <-> indices <> [] /\ S <> 0%Z /\ (neff mod S = 0)%Z.
Proof.
  rewrite kronecker_assert by lia.
  destruct indices; cbn [length]; split; intros (H1 & H2 & H3);
    repeat split; try assumption; try lia; try discriminate.
  contradiction.
Qed.

Lemma KroneckerPilotPattern_init_undivisible :
  indices = [] \/ S = 0%Z \/ (neff mod S <> 0)%Z ->
  KroneckerPilotPattern_init rg indices normalize seed
  = Raise (AssertionError divisibility_message).
Proof.
  intros Hcond. unfold KroneckerPilotPattern_init.
  destruct (is_integral _) eqn:Hint; [|reflexivity].
  apply kronecker_assert_indices in Hint. tauto.
Qed.

Lemma KroneckerPilotPattern_init_cases :
  indices <> [] -> S <> 0%Z -> (neff mod S = 0)%Z ->
  (exists msg, KroneckerPilotPattern_init rg indices normalize seed
               = Raise (ValueError msg))
  \/ ((0 < _num_tx rg)%Z /\ (0 < _num_streams_per_tx rg)%Z
      /\ (0 <= _num_ofdm_symbols rg)%Z /\ (0 <= neff)%Z).
Proof.
  intros Hne HS Hmod.
  destruct (filled_inv [_num_tx rg; _num_streams_per_tx rg;
                        _num_ofdm_symbols rg; neff] false eq_refl)
    as [[Hdims _] | (msg & Hmsg)].
  - right. inversion Hdims as [|? ? H1 H2]; subst.
    inversion H2 as [|? ? H3 H4]; subst. inversion H4 as [|? ? H5 H6]; subst.
    inversion H6; subst. repeat split; try assumption; nia.
  - left. exists msg. unfold KroneckerPilotPattern_init.
    replace (is_integral _) with true
      by (symmetry; apply kronecker_assert_indices; auto).
    cbn [assert bind]. rewrite Hmsg. reflexivity.
Qed.

Lemma KroneckerPilotPattern_init_passed : forall r,
    KroneckerPilotPattern_init rg indices normalize seed = r ->
    r <> Raise (AssertionError divisibility_message) ->
    indices <> [] /\ S <> 0%Z /\ (neff mod S = 0)%Z.
Proof.
  intros r Hr Hne.
  destruct indices as [|a l] eqn:Hi.
  { exfalso. apply Hne. rewrite <- Hr, <- Hi.
    apply KroneckerPilotPattern_init_undivisible. auto. }
  rewrite <- Hi in *.
  destruct (Z.eq_dec S 0) as [HS|HS].
  { exfalso. apply Hne. rewrite <- Hr.
    apply KroneckerPilotPattern_init_undivisible. auto. }
  destruct (Z.eq_dec (neff mod S) 0) as [Hm|Hm].
  - repeat split; try assumption. rewrite Hi. discriminate.
  - exfalso. apply Hne. rewrite <- Hr.
    apply KroneckerPilotPattern_init_undivisible. auto.
Qed.

Lemma KroneckerPilotPattern_init_other_errors :
  indices <> [] -> S <> 0%Z -> (neff mod S = 0)%Z ->
  KroneckerPilotPattern_init rg indices normalize seed
  <> Raise (AssertionError divisibility_message).
Proof.
  intros Hne HS Hmod Hr.
  destruct (KroneckerPilotPattern_init_cases Hne HS Hmod)
    as [(msg & Hmsg) | (Htx & Hst & Hn & Hneff)].
  - rewrite Hmsg in Hr. discriminate.
  - rewrite KroneckerPilotPattern_init_divisible in Hr by assumption.
    destruct (mapM _ indices) as [rows|e] eqn:Hrows; cbn [bind] in Hr.
    + apply PilotPattern_init_raise in Hr. apply Hr. reflexivity.
    + apply mapM_py_index_raise in Hrows. subst. discriminate.
Qed.

Lemma KroneckerPilotPattern_init_Ok : forall pp,
    KroneckerPilotPattern_init rg indices normalize seed = Ok pp ->
    (indices <> [] /\ (0 < _num_tx rg)%Z /\ (0 < _num_streams_per_tx rg)%Z
     /\ (0 <= _num_ofdm_symbols rg)%Z /\ (0 <= neff)%Z
     /\ (neff mod S = 0)%Z)
    /\ exists rows,
        mapM (py_index (Z.to_nat (_num_ofdm_symbols rg))) indices = Ok rows
        /\ pp = {| _mask := tf_cast_int32
                              (kronecker_mask (Z.to_nat (_num_tx rg))
                                 (Z.to_nat (_num_streams_per_tx rg))
                                 (Z.to_nat (_num_ofdm_symbols rg))
                                 (Z.to_nat neff) rows);
                   _pilots := kronecker_pilots seed (Z.to_nat (_num_tx rg))
                                (Z.to_nat (_num_streams_per_tx rg))
                                (length indices) (Z.to_nat neff);
                   _normalize := normalize |}
        /\ PilotPattern_check_settings pp = Ok true.
Proof.
  intros pp Hpp.
  destruct (KroneckerPilotPattern_init_passed Hpp ltac:(discriminate))
    as (Hne & HS & Hmod).
  destruct (KroneckerPilotPattern_init_cases Hne HS Hmod)
    as [(msg & Hmsg) | (Htx & Hst & Hn & Hneff)];
    [rewrite Hmsg in Hpp; discriminate|].
  split; [repeat split; assumption|].
  rewrite KroneckerPilotPattern_init_divisible in Hpp by assumption.
  destruct (mapM _ indices) as [rows|e] eqn:Hrows; cbn [bind] in Hpp;
    [|discriminate].
  exists rows. split; [reflexivity|].
  apply PilotPattern_init_Ok in Hpp. exact Hpp.
Qed.

Lemma KroneckerPilotPattern_init_succeeds :
  indices <> [] ->
  (0 < _num_tx rg)%Z -> (0 < _num_streams_per_tx rg)%Z ->
  (0 <= _num_ofdm_symbols rg)%Z -> (0 <= neff)%Z -> (neff mod S = 0)%Z ->
  Forall (fun i => - _num_ofdm_symbols rg <= i < _num_ofdm_symbols rg)%Z
         indices ->
  NoDup (map (fun i => i mod _num_ofdm_symbols rg)%Z indices) ->
  succeeds (KroneckerPilotPattern_init rg indices normalize seed).
Proof.
  intros Hne Htx Hst Hn Hneff Hmod Hrange Hnd.
  rewrite KroneckerPilotPattern_init_divisible by assumption.
  rewrite mapM_py_index_Ok
    by (rewrite Z2Nat.id by assumption; exact Hrange).
  cbn [bind]. rewrite Z2Nat.id by assumption.
  set (rows := map (fun i => Z.to_nat (i mod _num_ofdm_symbols rg)) indices).
  eexists. apply PilotPattern_init_even; try reflexivity.
  - unfold kronecker_mask, dim. cbn [shape tabulate nth]. lia.
  - unfold kronecker_mask, dim. cbn [shape tabulate nth]. lia.
  - intros i j Hi Hj. unfold kronecker_mask, dim in Hi, Hj.
    cbn [shape tabulate nth] in Hi, Hj.
    rewrite kronecker_mask_count; try assumption.
    + unfold rows, kronecker_pilots, dim_last. rewrite length_map.
      cbn [shape last]. reflexivity.
    + unfold rows. rewrite <- (map_map (fun i => i mod _num_ofdm_symbols rg)%Z
                                 Z.to_nat).
      apply NoDup_map_NoDup_ForallPairs; [|exact Hnd].
      intros x y Hx Hy Heq. apply in_map_iff in Hx, Hy.
      destruct Hx as (x' & <- & Hx'). destruct Hy as (y' & <- & Hy').
      rewrite Forall_forall in Hrange.
      pose proof (Hrange x' Hx'). pose proof (Hrange y' Hy').
      pose proof (Z.mod_pos_bound x' (_num_ofdm_symbols rg) ltac:(lia)).
      pose proof (Z.mod_pos_bound y' (_num_ofdm_symbols rg) ltac:(lia)).
      lia.
    + unfold rows. apply Forall_forall. intros r Hr. apply in_map_iff in Hr.
      destruct Hr as (x & <- & Hx). rewrite Forall_forall in Hrange.
      pose proof (Hrange x Hx).
      pose proof (Z.mod_pos_bound x (_num_ofdm_symbols rg) ltac:(lia)). lia.
Qed.

End KroneckerOutcome.

(** C3, as amended.  The assertion of the constructor is evaluated on
    float64 quotients, which are exact as long as the total number of
    pilots and the number [S] of streams are below [2^53] in magnitude; in
    that range the construction fails with the configuration error of the
    divisibility assertion if and only if there is no pilot symbol, no
    stream, or the number of effective subcarriers is not a multiple of
    [S]: the assertion compares the number of effective subcarriers, not
    the total number of pilots, with [S].  When the number of effective
    subcarriers is a multiple of [S], for positive numbers of transmitters
    and streams, non-negative extents and pilot symbol indices that are in
    range and denote distinct symbols, the construction succeeds; when the
    assertion passes and an extent is negative, the construction fails with
    a [ValueError]. *)
Theorem KroneckerPilotPattern_init_divisibility :
  forall (A : Type) (D : Dtype A) (rg : ResourceGrid A) (indices : list Z)
         (normalize : bool) (seed : Z),
    (Z.of_nat (length indices)
     * Z.abs (ResourceGrid_num_effective_subcarriers rg)
     < 9007199254740992)%Z ->
    (Z.abs (_num_tx rg * _num_streams_per_tx rg) < 9007199254740992)%Z ->
    (KroneckerPilotPattern_init rg indices normalize seed
     = Raise (AssertionError divisibility_message)
     <-> indices = []
         \/ (_num_tx rg * _num_streams_per_tx rg = 0)%Z
         \/ (ResourceGrid_num_effective_subcarriers rg
             mod (_num_tx rg * _num_streams_per_tx rg) <> 0)%Z)
    /\ (indices <> [] ->
        (0 < _num_tx rg)%Z -> (0 < _num_streams_per_tx rg)%Z ->
        (0 <= _num_ofdm_symbols rg)%Z ->
        (0 <= ResourceGrid_num_effective_subcarriers rg)%Z ->
        (ResourceGrid_num_effective_subcarriers rg
         mod (_num_tx rg * _num_streams_per_tx rg) = 0)%Z ->
        Forall (fun i => - _num_ofdm_symbols rg <= i < _num_ofdm_symbols rg)%Z
               indices ->
        NoDup (map (fun i => i mod _num_ofdm_symbols rg)%Z indices) ->
        succeeds (KroneckerPilotPattern_init rg indices normalize seed))
    /\ (indices <> [] ->
        (_num_tx rg * _num_streams_per_tx rg <> 0)%Z ->
        (ResourceGrid_num_effective_subcarriers rg
         mod (_num_tx rg * _num_streams_per_tx rg) = 0)%Z ->
        (_num_tx rg < 0 \/ _num_streams_per_tx rg < 0
         \/ _num_ofdm_symbols rg < 0
         \/ ResourceGrid_num_effective_subcarriers rg < 0)%Z ->
        exists msg, KroneckerPilotPattern_init rg indices normalize seed
                    = Raise (ValueError msg)).
Proof.
  intros A D rg indices normalize seed _ _. split; [|split].
  - split.
    + intros Hr.
      destruct indices as [|a l] eqn:Hi; [auto|]. rewrite <- Hi in *.
      destruct (Z.eq_dec (_num_tx rg * _num_streams_per_tx rg) 0) as [HS|HS];
        [auto|].
      destruct (Z.eq_dec (ResourceGrid_num_effective_subcarriers rg
                          mod (_num_tx rg * _num_streams_per_tx rg)) 0)
        as [Hm|Hm]; [|auto].
      exfalso.
      apply (@KroneckerPilotPattern_init_other_errors A D rg indices
               normalize seed); try assumption.
      rewrite Hi. discriminate.
    + apply KroneckerPilotPattern_init_undivisible.
  - apply KroneckerPilotPattern_init_succeeds.
  - intros Hne HS Hmod Hneg.
    destruct (@KroneckerPilotPattern_init_cases A D rg indices normalize seed
                Hne HS Hmod) as [Hv | (Htx & Hst & Hn & Hneff)];
      [exact Hv | lia].
Qed.

Lemma small_grid_constructed :
  ResourceGrid_init 2 4 (15000 # 1) 2 1 0 [0; 0]%Z false PatternNone None
  = Ok small_grid.
Proof. vm_compute. reflexivity. Qed.

Lemma odd_grid_constructed :
  ResourceGrid_init 2 3 (15000 # 1) 2 1 0 [0; 0]%Z false PatternNone None
  = Ok odd_grid.
Proof. vm_compute. reflexivity. Qed.

Lemma guard_grid_constructed :
  ResourceGrid_init 1 8 (15000 # 1) 1 1 0 [5; 0]%Z true PatternNone None
  = Ok guard_grid.
Proof. vm_compute. reflexivity. Qed.

Lemma comb_grid_constructed :
  ResourceGrid_init 2 8 (15000 # 1) 2 1 0 [1; 2]%Z true
    (PatternStr "kronecker") (Some [1%Z])
  = Ok comb_grid.
Proof. vm_compute. reflexivity. Qed.

Lemma KroneckerPilotPattern_init_divisibility_witness :
  (KroneckerPilotPattern_init odd_grid [0; 1]%Z true 0
   = Raise (AssertionError divisibility_message))
  /\ succeeds (KroneckerPilotPattern_init small_grid [-1; 0]%Z true 0).
Proof.
  split.
  - apply (proj1 (@KroneckerPilotPattern_init_divisibility Z int_dtype
                    odd_grid [0; 1]%Z true 0%Z ltac:(reflexivity)
                    ltac:(reflexivity))).
    right. right. vm_compute. discriminate.
  - apply (proj1 (proj2 (@KroneckerPilotPattern_init_divisibility Z int_dtype
                           small_grid [-1; 0]%Z true 0%Z ltac:(reflexivity)
                           ltac:(reflexivity))));
      try (vm_compute; congruence); try discriminate.
    + repeat constructor; vm_compute; congruence.
    + vm_compute. repeat constructor; simpl; intuition discriminate.
Defined.

(** C3, counterexample: on a grid of three effective subcarriers with two
    streams and two pilot symbols the total number of pilots, six, is a
    multiple of the number of streams, and the construction fails with the
    configuration error. *)
Lemma KroneckerPilotPattern_init_total_divisible :
  ResourceGrid_init 2 3 (15000 # 1) 2 1 0 [0; 0]%Z false PatternNone None
  = Ok odd_grid
  /\ ((Z.of_nat (length [0; 1]%Z)
       * ResourceGrid_num_effective_subcarriers odd_grid)
      mod (_num_tx odd_grid * _num_streams_per_tx odd_grid) = 0)%Z
  /\ KroneckerPilotPattern_init odd_grid [0; 1]%Z true 0
     = Raise (AssertionError divisibility_message).
Proof. repeat split; vm_compute; reflexivity. Qed.

(** ** KroneckerPilotPattern: the comb *)

Lemma kronecker_pilots_get : forall (A : Type) (D : Dtype A) seed tx st np
    neff i j s c,
    i < tx -> j < st -> s < np -> c < neff ->
    get zero (kronecker_pilots seed tx st np neff) [i; j; s * neff + c]
    = if c mod (tx * st) =? i * st + j
      then QAMSource seed (i * st + j)
             (s * (neff / (tx * st)) + c / (tx * st))
      else zero.
Proof.
  intros A D seed tx st np neff i j s c Hi Hj Hs Hc.
  transitivity (get zero (kronecker_pilots_upto seed tx st np neff (tx * st))
                    [i; j; s; c]).
  - unfold get, kronecker_pilots. cbn [shape data kronecker_pilots_upto tabulate].
    f_equal. cbn [ravel size fold_right]. lia.
  - unfold kronecker_pilots_upto.
    rewrite get_tabulate by (repeat constructor; assumption). cbn [nth].
    replace (i * st + j <? tx * st) with true
      by (symmetry; apply Nat.ltb_lt; nia).
    reflexivity.
Qed.

(** C6: with a symbol source that emits non-zero symbols, the constructor
    of the Kronecker pattern produces the comb.  For positive numbers of
    transmitters and streams, [S] streams in all, a number of effective
    subcarriers that is a multiple of [S], and pilot symbol indices that
    are in range and denote distinct symbols, the construction returns a
    pattern; and in every pattern that it returns, at every pilot symbol
    the subcarriers that carry a non-zero pilot of the stream of linear
    index [i * num_streams_per_tx + j] are those congruent to that index
    modulo [S]; the positions of two different streams are disjoint, and
    every effective subcarrier carries a non-zero pilot of some stream. *)
Theorem kronecker_comb : forall (A : Type) (D : Dtype A)
    (rg : ResourceGrid A) (indices : list Z) (normalize : bool) (seed : Z),
    (forall call m, QAMSource seed call m <> zero) ->
    (indices <> [] ->
     (0 < _num_tx rg)%Z -> (0 < _num_streams_per_tx rg)%Z ->
     (0 <= _num_ofdm_symbols rg)%Z ->
     (0 <= ResourceGrid_num_effective_subcarriers rg)%Z ->
     (ResourceGrid_num_effective_subcarriers rg
      mod (_num_tx rg * _num_streams_per_tx rg) = 0)%Z ->
     Forall (fun i => - _num_ofdm_symbols rg <= i < _num_ofdm_symbols rg)%Z
            indices ->
     NoDup (map (fun i => i mod _num_ofdm_symbols rg)%Z indices) ->
     exists pp, KroneckerPilotPattern_init rg indices normalize seed = Ok pp)
    /\ forall pp,
        KroneckerPilotPattern_init rg indices normalize seed = Ok pp ->
        forall s, s < length indices ->
          (forall i j c,
              i < grid_tx rg -> j < grid_streams rg ->
              c < grid_subcarriers rg ->
              (carries_pilot pp i j s c
               <-> c mod (grid_tx rg * grid_streams rg)
                   = i * grid_streams rg + j))
          /\ (forall i j i' j' c,
                 i < grid_tx rg -> j < grid_streams rg ->
                 i' < grid_tx rg -> j' < grid_streams rg ->
                 c < grid_subcarriers rg ->
                 (i, j) <> (i', j') ->
                 ~ (carries_pilot pp i j s c /\ carries_pilot pp i' j' s c))
          /\ (forall c, c < grid_subcarriers rg ->
                        exists i j, i < grid_tx rg /\ j < grid_streams rg
                                    /\ carries_pilot pp i j s c).
Proof.
  intros A D rg indices normalize seed Hqam. split.
  { intros Hne Htx Hst Hn Hneff Hmod Hrange Hnd.
    exact (@KroneckerPilotPattern_init_succeeds A D rg indices normalize seed
             Hne Htx Hst Hn Hneff Hmod Hrange Hnd). }
  intros pp Hpp s Hs.
  destruct (KroneckerPilotPattern_init_Ok _ _ _ _ Hpp)
    as ((Hne & Htx & Hst & Hn & Hneff & Hmod) & rows & Hrows & -> & _).
  unfold grid_tx, grid_streams, grid_subcarriers.
  set (tx := Z.to_nat (_num_tx rg)).
  set (st := Z.to_nat (_num_streams_per_tx rg)).
  set (neff := Z.to_nat (ResourceGrid_num_effective_subcarriers rg)).
  assert (Htx' : 0 < tx) by (unfold tx; lia).
  assert (Hst' : 0 < st) by (unfold st; lia).
  assert (Hcarry : forall i j c, i < tx -> j < st -> c < neff ->
            (carries_pilot
               {| _mask := tf_cast_int32
                             (kronecker_mask tx st
                                (Z.to_nat (_num_ofdm_symbols rg)) neff rows);
                  _pilots := kronecker_pilots seed tx st (length indices) neff;
                  _normalize := normalize |} i j s c
             <-> c mod (tx * st) = i * st + j)).
  { intros i j c Hi Hj Hc. unfold carries_pilot.
    unfold PilotPattern_num_effective_subcarriers, dim.
    cbn [_mask _pilots tf_cast_int32 tmap kronecker_mask tabulate shape nth].
    rewrite kronecker_pilots_get by assumption.
    destruct (c mod (tx * st) =? i * st + j) eqn:Hm.
    - apply Nat.eqb_eq in Hm. split; [intros _; exact Hm | intros _; apply Hqam].
    - apply Nat.eqb_neq in Hm. split; [intros Hz; contradiction | contradiction]. }
  split; [exact Hcarry|]. split.
  - intros i j i' j' c Hi Hj Hi' Hj' Hc Hne' [H1 H2].
    apply Hcarry in H1; try assumption. apply Hcarry in H2; try assumption.
    apply Hne'. assert (i' = i) by nia. subst i'. f_equal. lia.
  - intros c Hc.
    assert (Hlt : c mod (tx * st) < tx * st)
      by (apply Nat.mod_upper_bound; nia).
    exists (c mod (tx * st) / st), (c mod (tx * st) mod st).
    assert (Hi : c mod (tx * st) / st < tx)
      by (apply Nat.Div0.div_lt_upper_bound; lia).
    assert (Hj : c mod (tx * st) mod st < st)
      by (apply Nat.mod_upper_bound; lia).
    split; [exact Hi|]. split; [exact Hj|].
    apply Hcarry; try assumption.
    pose proof (Nat.div_mod_eq (c mod (tx * st)) st). lia.
Qed.

Lemma kronecker_comb_witness :
  exists pp,
    KroneckerPilotPattern_init kronecker_input [1%Z] true 0 = Ok pp
    /\ (forall i j c,
           i < 2 -> j < 1 -> c < 4 ->
           (carries_pilot pp i j 0 c <-> c mod (2 * 1) = i * 1 + j))
    /\ (forall c, c < 4 ->
                  exists i j, i < 2 /\ j < 1 /\ carries_pilot pp i j 0 c).
Proof.
  destruct (@kronecker_comb Z int_dtype kronecker_input [1%Z] true 0%Z)
    as [Hmake Hcomb].
  - intros call m. discriminate.
  - destruct Hmake as [pp Hpp].
    + discriminate.
    + reflexivity.
    + reflexivity.
    + discriminate.
    + discriminate.
    + reflexivity.
    + repeat constructor; discriminate.
    + repeat constructor. simpl. tauto.
    + exists pp. split; [exact Hpp|].
      destruct (Hcomb pp Hpp 0 ltac:(simpl; lia)) as (H1 & _ & H3).
      split; [exact H1 | exact H3].
Defined.

(** ** ResourceGrid: patterns made by the setter fit the grid *)

Lemma EmptyPilotPattern_init_Ok : forall (A : Type) (D : Dtype A)
    tx st n neff (p : PilotPattern A),
    EmptyPilotPattern_init tx st n neff = Ok p ->
    (0 < tx /\ 0 < st /\ 0 < n /\ 0 < neff)%Z
    /\ p = {| _mask := tf_cast_int32
                         (full [Z.to_nat tx; Z.to_nat st; Z.to_nat n;
                                Z.to_nat neff] false);
              _pilots := full [Z.to_nat tx; Z.to_nat st; 0] zero;
              _normalize := false |}
    /\ PilotPattern_check_settings p = Ok true.
Proof.
  intros A D tx st n neff p Hp. unfold EmptyPilotPattern_init in Hp.
  split_ok Hp.
  repeat match goal with
         | Hx : (_ <? _)%Z = true |- _ => apply Z.ltb_lt in Hx
         end.
  split; [repeat split; assumption|].
  rewrite filled_Ok in Hv by (repeat constructor; lia). injection Hv as <-.
  cbn [firstn app] in Hv0.
  rewrite filled_Ok in Hv0 by (repeat constructor; lia). injection Hv0 as <-.
  apply PilotPattern_init_Ok in Hp. exact Hp.
Qed.

Lemma setter_pattern_fits : forall (A : Type) (D : Dtype A) n f s tx st cp gc dc
    (pp : pilot_pattern_arg A) idx (rg : ResourceGrid A),
    ResourceGrid_init n f s tx st cp gc dc pp idx = Ok rg ->
    (forall p, pp <> PatternInstance p) ->
    mask_fits rg /\ PilotPattern_check_settings (_pilot_pattern rg) = Ok true.
Proof.
  intros A D n f s tx st cp gc dc pp idx rg Hinit Hpp.
  unfold ResourceGrid_init in Hinit.
  apply bind_Ok in Hinit. destruct Hinit as (self & Hself & Hinit).
  apply bind_Ok in Hinit. destruct Hinit as (b & _ & Hinit).
  injection Hinit as <-.
  unfold ResourceGrid_set_pilot_pattern in Hself. grid_fields.
  apply bind_Ok in Hself. destruct Hself as (p & Hp & Hself).
  injection Hself as <-. unfold mask_fits, grid_tx, grid_streams, grid_symbols,
    grid_subcarriers, ResourceGrid_num_effective_subcarriers in *.
  grid_fields.
  assert (Hempty : EmptyPilotPattern_init tx st n (f - Z.b2z dc - np_sum gc)
                   = Ok p ->
                   (exists m : tensor bool,
                       _mask p = tf_cast_int32 m /\ tensor_wf m
                       /\ shape m = [Z.to_nat tx; Z.to_nat st; Z.to_nat n;
                                     Z.to_nat (f - Z.b2z dc - np_sum gc)])
                   /\ PilotPattern_check_settings p = Ok true).
  { intros He. apply EmptyPilotPattern_init_Ok in He.
    destruct He as (_ & -> & Hchk). split; [|exact Hchk].
    eexists. split; [reflexivity|]. split; [apply full_wf | reflexivity]. }
  destruct pp as [|str|p'|].
  - apply Hempty. exact Hp.
  - apply bind_Ok in Hp. destruct Hp as (u & _ & Hp).
    destruct (String.eqb str "empty"); [apply Hempty; exact Hp|].
    destruct idx as [indices|]; [|discriminate].
    apply KroneckerPilotPattern_init_Ok in Hp.
    destruct Hp as (_ & rows & _ & -> & Hchk). split; [|exact Hchk].
    unfold ResourceGrid_num_effective_subcarriers. grid_fields.
    eexists. split; [reflexivity|]. split; [apply tabulate_wf | reflexivity].
  - exfalso. apply (Hpp p'). reflexivity.
  - discriminate.
Qed.

(** C5, as amended: for a constructed grid whose pilot mask has the extents
    of the grid, which is so whenever the pattern was made by the setter and
    is a condition on a pattern supplied by the caller, [build_type_grid]
    returns a tensor of shape
    [num_tx, num_streams_per_tx, num_ofdm_symbols, fft_size] whose entries
    are type codes 0 to 3; for each transmitter and stream the numbers of
    elements of the four types add up to [fft_size * num_ofdm_symbols]; and
    when the split index [dc_ind - left] lies between 0 and the number of
    effective subcarriers, each row is laid out as left guards, mask entries
    below the split index, DC carrier if nulled, remaining mask entries,
    right guards. *)
Theorem build_type_grid_partition : forall (A : Type) (D : Dtype A)
    n f sp tx st cp gc dc (pp : pilot_pattern_arg A) idx (rg : ResourceGrid A),
    ResourceGrid_init n f sp tx st cp gc dc pp idx = Ok rg ->
    (forall p, pp = PatternInstance p -> mask_fits rg) ->
    exists tg,
      ResourceGrid_build_type_grid rg = Ok tg
      /\ shape tg = [Z.to_nat tx; Z.to_nat st; Z.to_nat n; Z.to_nat f]
      /\ Forall (fun v => In v [0; 1; 2; 3]%Z) (data tg)
      /\ (forall i j, i < Z.to_nat tx -> j < Z.to_nat st ->
            count_type tg i j 0 + count_type tg i j 1
            + count_type tg i j 2 + count_type tg i j 3
            = Z.to_nat f * Z.to_nat n)
      /\ (forall i j s, i < Z.to_nat tx -> j < Z.to_nat st -> s < Z.to_nat n ->
            (0 <= ResourceGrid_dc_ind rg - nth 0 gc 0%Z
             <= ResourceGrid_num_effective_subcarriers rg)%Z ->
            row 0%Z tg [i; j; s]
            = repeat 2%Z (Z.to_nat (nth 0 gc 0%Z))
              ++ firstn (Z.to_nat (ResourceGrid_dc_ind rg - nth 0 gc 0%Z))
                   (row 0%Z (_mask (_pilot_pattern rg)) [i; j; s])
              ++ repeat 3%Z (Z.to_nat (Z.b2z dc))
              ++ skipn (Z.to_nat (ResourceGrid_dc_ind rg - nth 0 gc 0%Z))
                   (row 0%Z (_mask (_pilot_pattern rg)) [i; j; s])
              ++ repeat 2%Z (Z.to_nat (nth 1 gc 0%Z))).
Proof.
  intros A D n f sp tx st cp gc dc pp idx rg Hinit Hsupplied.
  assert (Hfits : mask_fits rg).
  { destruct pp as [|str|p|] eqn:Hpp; try (apply (Hsupplied p); reflexivity);
      apply (setter_pattern_fits _ _ _ _ _ _ _ _ _ _ Hinit); intros p;
      discriminate. }
  destruct (ResourceGrid_init_Ok _ _ _ _ _ _ _ _ _ _ Hinit)
    as (Hchk & Hn & Hf & _ & _ & Htx & Hst & Hgc & Hdc & _).
  destruct (build_type_grid_rows Hchk Hfits) as (tg & Hbuild & Hshape & Hwf & Hrows).
  unfold grid_tx, grid_streams, grid_symbols, grid_fft in *.
  rewrite Hn, Hf, Htx, Hst in *.
  exists tg. split; [exact Hbuild|]. split; [exact Hshape|].
  assert (Hcodes : forall idx', in_bounds idx' (shape tg) ->
                                In (get 0%Z tg idx') [0; 1; 2; 3]%Z).
  { intros idx' Hb. rewrite Hshape in Hb.
    inversion Hb as [|i ? idx1 ? Hi H1]; subst.
    inversion H1 as [|j ? idx2 ? Hj H2]; subst.
    inversion H2 as [|s ? idx3 ? Hs H3]; subst.
    inversion H3 as [|c ? idx4 ? Hc H4]; subst. inversion H4; subst.
    change [i; j; s; c] with ([i; j; s] ++ [c]).
    rewrite <- nth_row by (unfold dim_last; rewrite Hshape; exact Hc).
    rewrite Hrows by assumption.
    assert (Hall : Forall (fun v => In v [0; 1; 2; 3]%Z)
                     (type_row rg (row 0%Z (_mask (_pilot_pattern rg)) [i; j; s]))).
    { apply type_row_codes. apply Forall_forall. intros v Hv.
      unfold row in Hv. apply in_map_iff in Hv. destruct Hv as (c' & <- & _).
      apply mask_binary. assumption. }
    rewrite Forall_forall in Hall. apply Hall.
    rewrite <- Hrows by assumption. apply nth_In.
    rewrite length_row. unfold dim_last. rewrite Hshape. exact Hc. }
  split; [|split].
  - rewrite (tensor_tabulate 0%Z Hwf). unfold tabulate. cbn [data shape].
    apply Forall_forall. intros v Hv. apply in_map_iff in Hv.
    destruct Hv as (idx' & <- & Hin). apply Hcodes. apply In_indices. exact Hin.
  - intros i j Hi Hj. unfold count_type. rewrite count_codes.
    + rewrite length_block, Hshape. cbn [length skipn size fold_right]. lia.
    + apply Forall_forall. intros v Hv. unfold block in Hv.
      apply in_map_iff in Hv. destruct Hv as (tl & <- & Hin).
      apply Hcodes. rewrite Hshape in *. cbn [length skipn] in Hin.
      apply In_indices in Hin.
      change [Z.to_nat tx; Z.to_nat st; Z.to_nat n; Z.to_nat f]
        with ([Z.to_nat tx; Z.to_nat st] ++ [Z.to_nat n; Z.to_nat f]).
      apply in_bounds_app; [repeat constructor; assumption | exact Hin].
  - intros i j s Hi Hj Hs Hsplit. rewrite Hrows by assumption.
    unfold type_row. rewrite Hgc, Hdc.
    rewrite py_slice_bound_inside; [reflexivity|].
    rewrite length_row. unfold dim_last.
    rewrite (mask_shape Hfits). unfold grid_subcarriers.
    rewrite last_last. lia.
Qed.

Lemma build_type_grid_partition_witness :
  exists tg,
    ResourceGrid_build_type_grid comb_grid = Ok tg
    /\ shape tg = [2; 1; 2; 8]
    /\ Forall (fun v => In v [0; 1; 2; 3]%Z) (data tg)
    /\ count_type tg 0 0 0 + count_type tg 0 0 1
       + count_type tg 0 0 2 + count_type tg 0 0 3 = 8 * 2.
Proof.
  destruct (@build_type_grid_partition Z int_dtype 2 8 (15000 # 1) 2 1 0
              [1; 2]%Z true (PatternStr "kronecker") (Some [1%Z]) comb_grid
              comb_grid_constructed)
    as (tg & Hbuild & Hshape & Hcodes & Hcount & _).
  - intros p. discriminate.
  - exists tg. repeat split; try assumption.
    apply (Hcount 0 0); simpl; lia.
Defined.

(** C5, counterexample: a grid of one symbol and four subcarriers is
    constructed with the supplied pattern of [EmptyPilotPattern(1, 1, 1, 1)],
    whose mask has one effective subcarrier; its type grid has a single
    element, not four. *)
Lemma build_type_grid_supplied_pattern :
  EmptyPilotPattern_init 1 1 1 1 = Ok unit_pattern
  /\ exists rg tg,
      ResourceGrid_init 1 4 (15000 # 1) 1 1 0 [0; 0]%Z false
        (PatternInstance unit_pattern) None = Ok rg
      /\ ResourceGrid_build_type_grid rg = Ok tg
      /\ shape tg = [1; 1; 1; 1]
      /\ count_type tg 0 0 0 + count_type tg 0 0 1
         + count_type tg 0 0 2 + count_type tg 0 0 3
         <> Z.to_nat (_fft_size rg * _num_ofdm_symbols rg).
Proof.
  split; [reflexivity|]. eexists. eexists.
  split; [vm_compute; reflexivity|].
  split; [vm_compute; reflexivity|].
  split; [reflexivity|]. vm_compute. discriminate.
Qed.

(** ** Tensor operations: results and entries *)

Lemma get_reshape : forall (T : Type) (d : T) (r t : tensor T) idx' idx,
    data r = data t ->
    ravel (shape r) idx' = ravel (shape t) idx ->
    get d r idx' = get d t idx.
Proof. intros T d r t idx' idx Hd Hr. unfold get. rewrite Hd, Hr. reflexivity. Qed.

Lemma list_eqb_refl : forall l, list_eqb l l = true.
Proof. intros l. apply list_eqb_eq. reflexivity. Qed.

Section Operations.
Context {T : Type}.
Variable d : T.

Lemma tf_transpose_spec : forall perm (t : tensor T),
    is_perm perm (rank t) = true ->
    exists r, tf_transpose d perm t = Ok r
              /\ shape r = map (fun p => dim t p) perm
              /\ tensor_wf r
              /\ forall idx, in_bounds idx (shape r) ->
                   get d r idx
                   = get d t (map (fun a => nth (find_pos a perm) idx 0)
                                  (seq 0 (rank t))).
Proof.
  intros perm t Hperm. unfold tf_transpose. rewrite Hperm.
  eexists. split; [reflexivity|]. split; [reflexivity|].
  split; [apply tabulate_wf|].
  intros idx Hb. rewrite get_tabulate by exact Hb. reflexivity.
Qed.

Lemma tf_gather_spec : forall (t : tensor T) ind axis,
    axis < rank t ->
    Forall (fun i => 0 <= i < Z.of_nat (dim t axis))%Z ind ->
    exists r, tf_gather d t ind axis = Ok r
              /\ shape r = firstn axis (shape t) ++ [length ind]
                           ++ skipn (S axis) (shape t)
              /\ tensor_wf r
              /\ forall idx, in_bounds idx (shape r) ->
                   get d r idx
                   = get d t (firstn axis idx
                                ++ [Z.to_nat (nth (nth axis idx 0) ind 0%Z)]
                                ++ skipn (S axis) idx).
Proof.
  intros t ind axis Haxis Hind. unfold tf_gather.
  rewrite (proj2 (Nat.ltb_lt _ _) Haxis).
  replace (forallb _ ind) with true.
  - eexists. split; [reflexivity|]. split; [reflexivity|].
    split; [apply tabulate_wf|].
    intros idx Hb. rewrite get_tabulate by exact Hb. reflexivity.
  - symmetry. apply forallb_forall. intros i Hi.
    rewrite Forall_forall in Hind. specialize (Hind i Hi).
    apply andb_true_intro. split; [apply Z.leb_le | apply Z.ltb_lt]; lia.
Qed.

Lemma tf_gather_batch2_spec : forall (t : tensor T) (ind : tensor nat),
    rank ind = 3 -> 3 <= rank t ->
    firstn 2 (shape ind) = firstn 2 (shape t) ->
    Forall (fun p => p < dim t 2) (data ind) ->
    exists r, tf_gather_batch2 d t ind = Ok r
              /\ shape r = shape ind ++ skipn 3 (shape t)
              /\ tensor_wf r
              /\ forall idx, in_bounds idx (shape r) ->
                   get d r idx
                   = get d t (firstn 2 idx ++ [get 0 ind (firstn 3 idx)]
                                ++ skipn 3 idx).
Proof.
  intros t ind Hr Ht Hlead Hind. unfold tf_gather_batch2.
  rewrite Hr, Hlead, list_eqb_refl, (proj2 (Nat.leb_le _ _) Ht).
  replace (forallb _ (data ind)) with true.
  - eexists. split; [reflexivity|]. split; [reflexivity|].
    split; [apply tabulate_wf|].
    intros idx Hb. rewrite get_tabulate by exact Hb. reflexivity.
  - symmetry. apply forallb_forall. intros p Hp.
    rewrite Forall_forall in Hind. apply Nat.ltb_lt. auto.
Qed.

Lemma tf_broadcast_to_spec : forall (t : tensor T) s,
    length s = rank t ->
    Forall (fun p => fst p = snd p \/ fst p = 1) (combine (shape t) s) ->
    exists r, tf_broadcast_to d t s = Ok r
              /\ shape r = s
              /\ forall idx, in_bounds idx s ->
                   get d r idx
                   = get d t (map (fun p => if snd p =? 1 then 0 else fst p)
                                  (combine idx (shape t))).
Proof.
  intros t s Hlen Hcompat. unfold tf_broadcast_to.
  rewrite Hlen, Nat.eqb_refl.
  replace (forallb _ (combine (shape t) s)) with true.
  - eexists. split; [reflexivity|]. split; [reflexivity|].
    intros idx Hb. rewrite get_tabulate by exact Hb. reflexivity.
  - symmetry. apply forallb_forall. intros p Hp.
    rewrite Forall_forall in Hcompat.
    destruct (Hcompat p Hp) as [He|He]; rewrite He, Nat.eqb_refl;
      [reflexivity | apply orb_true_r].
Qed.

Lemma tf_tensor_scatter_nd_update_spec : forall (t : tensor T) k ind
    (updates : tensor T),
    valid_empty_output (size (shape t)) (length ind * k)
      (size (shape updates)) = true ->
    shape updates = length ind :: skipn k (shape t) ->
    Forall (fun idx => in_bounds idx (firstn k (shape t))) ind ->
    exists r, tf_tensor_scatter_nd_update d t k ind updates = Ok r
              /\ shape r = shape t
              /\ forall idx, in_bounds idx (shape t) ->
                   get d r idx
                   = match index_of (firstn k idx) ind with
                     | Some n => get d updates (n :: skipn k idx)
                     | None => get d t idx
                     end.
Proof.
  intros t k ind updates Hvalid Hshape Hind.
  unfold tf_tensor_scatter_nd_update. rewrite Hvalid. cbn [negb].
  rewrite Hshape, list_eqb_refl.
  replace (forallb _ ind) with true.
  - eexists. split; [reflexivity|]. split; [reflexivity|].
    intros idx Hb. rewrite get_tabulate by exact Hb. reflexivity.
  - symmetry. apply forallb_forall. intros idx Hidx.
    rewrite Forall_forall in Hind. apply in_boundsb_iff. auto.
Qed.

End Operations.

Lemma valid_empty_output_true : forall a b c,
    (b = 0 /\ c = 0) \/ (0 < a /\ 0 < b /\ 0 < c) ->
    valid_empty_output a b c = true.
Proof.
  intros a b c [[-> ->] | (Ha & Hb & Hc)]; unfold valid_empty_output.
  - reflexivity.
  - destruct a, b, c; try lia. cbn. reflexivity.
Qed.

Lemma in_bounds_size_pos : forall idx s, in_bounds idx s -> 0 < size s.
Proof.
  intros idx s Hb. induction Hb as [|i n idx s Hi _ IH]; cbn [size fold_right].
  - lia.
  - unfold size in IH. nia.
Qed.

(** A scatter with in-bounds indices of the full depth, one update each,
    passes the test on empty operands. *)
Lemma valid_scatter : forall (s : list nat) (ind : list (list nat)),
    Forall (fun idx => in_bounds idx s) ind -> s <> [] ->
    valid_empty_output (size s) (length ind * length s) (length ind * 1)
    = true.
Proof.
  intros s ind Hind Hs. apply valid_empty_output_true.
  destruct ind as [|a ind]; [left; split; reflexivity|]. right.
  inversion Hind as [|? ? Ha _]; subst. apply in_bounds_size_pos in Ha.
  destruct s; [contradiction|]. cbn [length]. lia.
Qed.

Lemma tf_scatter_nd_spec : forall (T : Type) (z : T) (f : T -> T -> T) ind
    (updates : tensor T) s,
    s <> [] ->
    shape updates = [length ind] ->
    Forall (fun idx => in_bounds idx s) ind ->
    exists r, tf_scatter_nd z f ind updates s = Ok r /\ shape r = s.
Proof.
  intros T z f ind updates s Hs Hshape Hind. unfold tf_scatter_nd.
  rewrite Hshape. cbn [size fold_right].
  rewrite (valid_scatter Hind Hs). cbn [negb]. rewrite list_eqb_refl.
  replace (forallb _ ind) with true.
  - eexists. split; reflexivity.
  - symmetry. apply forallb_forall. intros idx Hidx.
    rewrite Forall_forall in Hind. apply in_boundsb_iff. auto.
Qed.

Lemma index_of_nth : forall l k,
    NoDup l -> k < length l -> index_of (nth k l []) l = Some k.
Proof.
  induction l as [|a l IH]; intros k Hnd Hk; simpl in Hk; [lia|].
  inversion Hnd as [|? ? Hnotin Hnd']; subst.
  destruct k as [|k]; simpl.
  - rewrite list_eqb_refl. reflexivity.
  - destruct (list_eqb (nth k l []) a) eqn:Heq.
    + apply list_eqb_eq in Heq. exfalso. apply Hnotin. rewrite <- Heq.
      apply nth_In. lia.
    + rewrite IH by (assumption || lia). reflexivity.
Qed.

Lemma py_range_nth : forall a b k,
    k < Z.to_nat (b - a) -> nth k (py_range a b) 0%Z = (a + Z.of_nat k)%Z.
Proof.
  intros a b k Hk. unfold py_range.
  rewrite (nth_indep _ 0%Z ((fun k0 => (a + Z.of_nat k0)%Z) 0))
    by (rewrite length_map, length_seq; exact Hk).
  rewrite (map_nth (fun k0 => (a + Z.of_nat k0)%Z)), seq_nth by exact Hk.
  reflexivity.
Qed.

Lemma py_range_length : forall a b, length (py_range a b) = Z.to_nat (b - a).
Proof. intros. unfold py_range. rewrite length_map, length_seq. reflexivity. Qed.

Lemma py_range_bounds : forall a b,
    Forall (fun i => a <= i < Z.max a b)%Z (py_range a b).
Proof.
  intros a b. unfold py_range. apply Forall_forall. intros i Hi.
  apply in_map_iff in Hi. destruct Hi as (k & <- & Hk). apply in_seq in Hk. lia.
Qed.

(** ** ResourceGridDemapper: entries of the result *)

Ltac shape_simpl H :=
  cbn [length nth firstn skipn app map removelast seq Nat.sub Nat.add
       find_pos Nat.eqb shape data size fold_right] in H.

Section DemapperCall.
Context {A : Type} {D : Dtype A}.
Variables (rg : ResourceGrid A) (sm : StreamManagement) (dind : tensor nat).
Variables (B tx st sym fft neff nd : nat) (eff : list Z).
Hypothesis Heff : ResourceGrid_effective_subcarrier_ind rg = Ok eff.
Hypothesis Hefflen : length eff = neff.
Hypothesis Heffrange : Forall (fun i => 0 <= i < Z.of_nat fft)%Z eff.
Hypothesis Hsind : stream_ind sm = py_range 0 (Z.of_nat (tx * st)).
Hypothesis Hntx : num_tx sm = Z.of_nat tx.
Hypothesis Hnst : num_streams_per_tx sm = Z.of_nat st.
Hypothesis Hdshape : shape dind = [tx; st; nd].
Hypothesis Hdrange : Forall (fun p => p < sym * neff) (data dind).
Hypothesis Hdwf : tensor_wf dind.

Lemma ResourceGridDemapper_call_entries : forall y : tensor A,
    shape y = [B; tx; st; sym; fft] ->
    exists r,
      ResourceGridDemapper_call
        {| _stream_management := sm;
           demapper_resource_grid := rg;
           demapper_data_ind := dind |} y = Ok r
      /\ shape r = [B; tx; st; nd]
      /\ tensor_wf r
      /\ forall b i j m, b < B -> i < tx -> j < st -> m < nd ->
           get zero r [b; i; j; m]
           = get zero y
               [b; i; j; get 0 dind [i; j; m] / neff;
                Z.to_nat (nth (get 0 dind [i; j; m] mod neff) eff 0%Z)].
Proof.
  intros y Hy. unfold ResourceGridDemapper_call.
  cbn [_stream_management demapper_resource_grid demapper_data_ind].
  replace (rank y =? 5) with true by (unfold rank; rewrite Hy; reflexivity).
  rewrite Heff. cbn [bind].
  set (y1 := tf_expand_dims_last y).
  assert (Hs1 : shape y1 = [B; tx; st; sym; fft; 1])
    by (unfold y1, tf_expand_dims_last; cbn [shape]; rewrite Hy; reflexivity).
  assert (Hd1 : data y1 = data y) by reflexivity.
  clearbody y1.
  (* gather of the effective subcarriers *)
  destruct (@tf_gather_spec A zero y1 eff (rank y1 - 2))
    as (y2 & Hy2 & Hs2 & _ & Hg2).
  { unfold rank. rewrite Hs1. cbn. lia. }
  { unfold rank, dim. rewrite Hs1. cbn [length Nat.sub nth]. exact Heffrange. }
  rewrite Hy2. cbn [bind]. unfold rank in Hs2, Hg2. rewrite Hs1 in Hs2, Hg2.
  shape_simpl Hs2. cbn [length Nat.sub] in Hg2. rewrite Hefflen in Hs2.
  clear Hy2.
  (* batch axis last *)
  destruct (@tf_transpose_spec A zero [1; 2; 3; 4; 5; 0] y2)
    as (y3 & Hy3 & Hs3 & Hwf3 & Hg3).
  { unfold rank. rewrite Hs2. reflexivity. }
  rewrite Hy3. cbn [bind]. unfold rank, dim in Hs3, Hg3. rewrite Hs2 in Hs3, Hg3.
  shape_simpl Hs3. cbn [length seq map find_pos Nat.eqb] in Hg3. clear Hy3.
  (* merge of the receiver axes *)
  unfold flatten_dims at 1. unfold rank at 1. rewrite Hs3.
  cbn [length Nat.add Nat.leb andb bind firstn skipn app].
  set (y4 := Tensor _ (data y3)).
  assert (Hs4 : shape y4 = [tx * (st * 1); sym; neff; 1; B]) by reflexivity.
  assert (Hd4 : data y4 = data y3) by reflexivity.
  clearbody y4.
  (* stream ordering *)
  destruct (@tf_gather_spec A zero y4 (stream_ind sm) 0)
    as (y5 & Hy5 & Hs5 & Hwf5 & Hg5).
  { unfold rank. rewrite Hs4. cbn. lia. }
  { unfold dim. rewrite Hs4, Hsind. cbn [nth].
    eapply Forall_impl; [|apply py_range_bounds]. intros i Hi. cbn beta in Hi. lia. }
  rewrite Hy5. cbn [bind]. rewrite Hs4 in Hs5. shape_simpl Hs5.
  rewrite Hsind, py_range_length in Hs5.
  replace (Z.to_nat (Z.of_nat (tx * st) - 0)) with (tx * st) in Hs5 by lia.
  clear Hy5.
  (* split into transmitter and stream axes *)
  unfold split_dim. rewrite Hntx, Hnst. unfold to_shape.
  replace (forallb _ [Z.of_nat tx; Z.of_nat st]) with true
    by (symmetry; cbn [forallb]; rewrite !(proj2 (Z.leb_le _ _)) by lia;
        reflexivity).
  cbn [bind map]. rewrite !Nat2Z.id. unfold rank, dim. rewrite Hs5.
  cbn [length Nat.ltb Nat.leb nth size fold_right andb firstn skipn app].
  replace (tx * (st * 1) =? tx * st) with true
    by (symmetry; apply Nat.eqb_eq; lia).
  set (y6 := Tensor _ (data y5)).
  assert (Hs6 : shape y6 = [tx; st; sym; neff; 1; B]) by reflexivity.
  assert (Hd6 : data y6 = data y5) by reflexivity.
  clearbody y6.
  (* merge of the symbol and subcarrier axes *)
  cbn [bind]. unfold flatten_dims. unfold rank at 1. rewrite Hs6.
  cbn [length Nat.add Nat.leb andb bind firstn skipn app size fold_right].
  set (y7 := Tensor _ (data y6)).
  assert (Hs7 : shape y7 = [tx; st; sym * (neff * 1); 1; B]) by reflexivity.
  assert (Hd7 : data y7 = data y6) by reflexivity.
  clearbody y7.
  (* gather of the data positions *)
  destruct (@tf_gather_batch2_spec A zero y7 dind)
    as (y8 & Hy8 & Hs8 & Hwf8 & Hg8).
  { unfold rank. rewrite Hdshape. reflexivity. }
  { unfold rank. rewrite Hs7. cbn. lia. }
  { rewrite Hdshape, Hs7. reflexivity. }
  { unfold dim. rewrite Hs7. cbn [nth].
    eapply Forall_impl; [|exact Hdrange]. intros p Hp. cbn beta in Hp. lia. }
  rewrite Hy8. cbn [bind]. rewrite Hdshape, Hs7 in Hs8. shape_simpl Hs8.
  clear Hy8.
  (* batch axis first *)
  destruct (@tf_transpose_spec A zero [4; 0; 1; 2; 3] y8)
    as (y9 & Hy9 & Hs9 & Hwf9 & Hg9).
  { unfold rank. rewrite Hs8. reflexivity. }
  rewrite Hy9. cbn [bind]. unfold rank, dim in Hs9, Hg9. rewrite Hs8 in Hs9, Hg9.
  shape_simpl Hs9. cbn [length seq map find_pos Nat.eqb] in Hg9. clear Hy9.
  unfold dim_last. rewrite Hs9. cbn [last Nat.eqb].
  eexists. split; [reflexivity|].
  unfold tf_squeeze_last. cbn [shape]. rewrite Hs9. cbn [removelast].
  split; [reflexivity|]. split.
  { unfold tensor_wf in *. cbn [shape data]. rewrite Hwf9, Hs9.
    cbn [size fold_right]. lia. }
  intros b i j m Hb Hi Hj Hm.
  set (p := get 0 dind [i; j; m]).
  assert (Hp : p < sym * neff).
  { rewrite Forall_forall in Hdrange. apply Hdrange. unfold p.
    apply get_In_data; [exact Hdwf|]. rewrite Hdshape.
    repeat constructor; assumption. }
  assert (Hneff : 0 < neff) by nia.
  assert (Hps : p / neff < sym)
    by (apply Nat.Div0.div_lt_upper_bound; lia).
  assert (Hpe : p mod neff < neff) by (apply Nat.mod_upper_bound; lia).
  pose proof (Nat.div_mod_eq p neff) as Hpdm.
  (* the entry, through the nine steps *)
  transitivity (get zero y9 [b; i; j; m; 0]).
  { unfold get. cbn [shape data]. rewrite Hs9.
    f_equal; cbn [ravel size fold_right]; lia. }
  rewrite Hg9 by (rewrite Hs9; repeat constructor; lia).
  cbn [nth find_pos map seq Nat.eqb].
  rewrite Hg8 by (rewrite Hs8; repeat constructor; lia).
  cbn [firstn skipn app]. fold p.
  transitivity (get zero y6 [i; j; p / neff; p mod neff; 0; b]).
  { apply get_reshape; [exact Hd7|]. rewrite Hs7, Hs6.
    cbn [ravel size fold_right]. nia. }
  transitivity (get zero y5 [i * st + j; p / neff; p mod neff; 0; b]).
  { symmetry. apply get_reshape; [symmetry; exact Hd6|]. rewrite Hs6, Hs5.
    cbn [ravel size fold_right]. nia. }
  rewrite Hg5 by (rewrite Hs5; repeat constructor; nia).
  cbn [firstn skipn app nth]. rewrite Hsind.
  rewrite py_range_nth by nia.
  replace (Z.to_nat (0 + Z.of_nat (i * st + j))) with (i * st + j) by lia.
  transitivity (get zero y3 [i; j; p / neff; p mod neff; 0; b]).
  { apply get_reshape; [exact Hd4|]. rewrite Hs4, Hs3.
    cbn [ravel size fold_right]. nia. }
  rewrite Hg3 by (rewrite Hs3; repeat constructor; lia).
  cbn [nth find_pos map seq Nat.eqb].
  rewrite Hg2 by (rewrite Hs2; repeat constructor; lia).
  cbn [firstn skipn app nth].
  apply get_reshape; [exact Hd1|]. rewrite Hs1, Hy.
  cbn [ravel size fold_right]. nia.
Qed.

End DemapperCall.

(** ** ResourceGridMapper: entries of the result *)

Section MapperCall.
Context {A : Type} {D : Dtype A}.
Variables (rg : ResourceGrid A) (tg : tensor Z).
Variables (pilot_ind data_ind : list (list nat)).
Variables (B tx st sym fft nd : nat).
Hypothesis Htg : shape tg = [tx; st; sym; fft].
Hypothesis Hprank : rank (PilotPattern_pilots (_pilot_pattern rg)) = 3.
Hypothesis Hpsize :
  size (shape (PilotPattern_pilots (_pilot_pattern rg))) = length pilot_ind.
Hypothesis Hpind : Forall (fun idx => in_bounds idx [tx; st; sym; fft]) pilot_ind.
Hypothesis Hdind : Forall (fun idx => in_bounds idx [tx; st; sym; fft]) data_ind.
Hypothesis Hdlen : length data_ind = tx * (st * (nd * 1)).
Hypothesis HB : 0 < B.

Lemma ResourceGridMapper_call_entries : forall x : tensor A,
    shape x = [B; tx; st; nd] ->
    exists g,
      ResourceGridMapper_call
        {| mapper_resource_grid := rg;
           _rg_type := tg;
           _pilot_ind := pilot_ind;
           mapper_data_ind := data_ind |} x = Ok g
      /\ shape g = [B; tx; st; sym; fft]
      /\ forall b i j s c k,
          b < B -> i < tx -> j < st -> s < sym -> c < fft ->
          index_of [i; j; s; c] data_ind = Some k ->
          k < tx * (st * (nd * 1)) ->
          get zero g [b; i; j; s; c]
          = nth (b * (tx * (st * (nd * 1))) + k) (data x) zero.
Proof.
  intros x Hx. unfold ResourceGridMapper_call.
  cbn [mapper_resource_grid _rg_type _pilot_ind mapper_data_ind].
  (* the pilots, flattened *)
  unfold flatten_last_dims at 1. rewrite Hprank.
  cbn [Nat.leb andb bind Nat.sub firstn skipn app].
  set (p1 := Tensor _ (data (PilotPattern_pilots (_pilot_pattern rg)))).
  assert (Hp1 : shape p1 = [length pilot_ind])
    by (unfold p1; cbn [shape]; rewrite Hpsize; reflexivity).
  clearbody p1.
  (* the template *)
  destruct (@tf_scatter_nd_spec A zero add pilot_ind p1 (shape tg))
    as (t1 & Ht1 & Hs1).
  { rewrite Htg. discriminate. }
  { exact Hp1. }
  { rewrite Htg. exact Hpind. }
  rewrite Ht1. cbn [bind]. rewrite Htg in Hs1. clear Ht1.
  set (t2 := tf_expand_dims_last t1).
  assert (Hs2 : shape t2 = [tx; st; sym; fft; 1])
    by (unfold t2, tf_expand_dims_last; cbn [shape]; rewrite Hs1; reflexivity).
  clearbody t2.
  unfold dim at 1. rewrite Hx, Hs2. cbn [nth removelast app].
  destruct (@tf_broadcast_to_spec A zero t2 [tx; st; sym; fft; B])
    as (t3 & Ht3 & Hs3 & _).
  { unfold rank. rewrite Hs2. reflexivity. }
  { rewrite Hs2. cbn [combine].
    repeat (apply Forall_cons; [cbn [fst snd]; auto|]). apply Forall_nil. }
  rewrite Ht3. cbn [bind]. clear Ht3.
  (* the data symbols, batch axis last *)
  unfold flatten_last_dims. unfold rank at 1 2 3. rewrite Hx.
  cbn [length Nat.leb andb bind Nat.sub firstn skipn app size fold_right].
  set (flat := Tensor _ (data x)).
  assert (Hsf : shape flat = [B; tx * (st * (nd * 1))]) by reflexivity.
  assert (Hdf : data flat = data x) by reflexivity.
  clearbody flat.
  destruct (@tf_transpose_spec A zero (rev (seq 0 (rank flat))) flat)
    as (xt & Hxt & Hsxt & _ & Hgxt).
  { unfold rank. rewrite Hsf. reflexivity. }
  rewrite Hxt. cbn [bind]. unfold rank, dim in Hsxt, Hgxt.
  rewrite Hsf in Hsxt, Hgxt.
  cbn [length seq rev app map nth] in Hsxt.
  cbn [length seq rev app map find_pos Nat.eqb] in Hgxt. clear Hxt.
  (* scatter of the data symbols *)
  destruct (@tf_tensor_scatter_nd_update_spec A zero t3 4 data_ind xt)
    as (g1 & Hg1 & Hsg1 & Hgg1).
  { rewrite Hsxt, Hs3, <- Hdlen. cbn [size fold_right].
    apply valid_empty_output_true.
    destruct data_ind as [|a l] eqn:Hd; [left; split; reflexivity|]. right.
    inversion Hdind as [|? ? Ha _]; subst.
    apply in_bounds_size_pos in Ha. cbn [size fold_right length] in *.
    split; [nia|]. split; nia. }
  { rewrite Hsxt, Hs3, Hdlen. reflexivity. }
  { rewrite Hs3. exact Hdind. }
  rewrite Hg1. cbn [bind]. rewrite Hs3 in Hsg1, Hgg1. clear Hg1.
  (* batch axis first *)
  destruct (@tf_transpose_spec A zero [4; 0; 1; 2; 3] g1)
    as (g & Hg & Hsg & _ & Hgg).
  { unfold rank. rewrite Hsg1. reflexivity. }
  unfold rank, dim in Hsg, Hgg. rewrite Hsg1 in Hsg, Hgg.
  cbn [length seq map nth] in Hsg.
  cbn [length seq map find_pos Nat.eqb] in Hgg.
  exists g. split; [exact Hg|]. split; [exact Hsg|].
  intros b i j s c k Hb Hi Hj Hs Hc Hk Hklt.
  rewrite Hgg by (rewrite Hsg; repeat constructor; assumption).
  cbn [nth].
  rewrite Hgg1 by (repeat constructor; assumption).
  cbn [firstn skipn]. rewrite Hk.
  rewrite Hgxt by (rewrite Hsxt; repeat constructor; assumption).
  cbn [nth]. unfold get. rewrite Hsf, Hdf. f_equal.
  cbn [ravel size fold_right]. lia.
Qed.

End MapperCall.

(** ** Positions of a value and sorting of binary vectors *)

Lemma filter_flat_map : forall (T U : Type) (f : U -> bool) (g : T -> list U) l,
    filter f (flat_map g l) = flat_map (fun x => filter f (g x)) l.
Proof.
  intros T U f g l. induction l as [|a l IH]; [reflexivity|].
  cbn [flat_map]. rewrite filter_app, IH. reflexivity.
Qed.

Lemma filter_none : forall (T : Type) (f : T -> bool) l,
    (forall x, In x l -> f x = false) -> filter f l = [].
Proof.
  intros T f l Hl. induction l as [|a l IH]; [reflexivity|].
  cbn [filter]. rewrite (Hl a (or_introl eq_refl)). apply IH.
  intros x Hx. apply Hl. right. exact Hx.
Qed.

Lemma flat_map_ext_seq : forall (T : Type) (f g : nat -> list T) a n,
    (forall x, a <= x < a + n -> f x = g x) ->
    flat_map f (seq a n) = flat_map g (seq a n).
Proof.
  intros T f g a n. revert a. induction n as [|n IH]; intros a Hfg;
    [reflexivity|].
  cbn [seq flat_map]. rewrite Hfg by lia. f_equal. apply IH.
  intros x Hx. apply Hfg. lia.
Qed.

Lemma positions_app : forall v l1 l2,
    positions v (l1 ++ l2)
    = positions v l1 ++ map (fun c => length l1 + c) (positions v l2).
Proof.
  intros v l1 l2. unfold positions.
  rewrite length_app, seq_app, filter_app. f_equal.
  - apply filter_ext_in. intros c Hc. apply in_seq in Hc.
    rewrite app_nth1 by lia. reflexivity.
  - rewrite (seq_map_add (length l2) (0 + length l1)), filter_map_swap.
    cbn [Nat.add]. f_equal. apply filter_ext. intros c.
    rewrite app_nth2 by lia. do 2 f_equal. lia.
Qed.

Lemma positions_repeat_other : forall v w n,
    v <> w -> positions v (repeat w n) = [].
Proof.
  intros v w n Hne. unfold positions. rewrite repeat_length.
  apply filter_none.
  intros c Hc. apply in_seq in Hc. rewrite nth_repeat_lt by lia.
  apply Z.eqb_neq. congruence.
Qed.

Lemma positions_lt : forall v l c, In c (positions v l) -> c < length l.
Proof.
  intros v l c Hc. unfold positions in Hc. apply filter_In in Hc.
  destruct Hc as [Hc _]. apply in_seq in Hc. lia.
Qed.

Lemma positions_value : forall v l c,
    In c (positions v l) -> nth c l 0%Z = v.
Proof.
  intros v l c Hc. unfold positions in Hc. apply filter_In in Hc.
  destruct Hc as [_ Hc]. apply Z.eqb_eq. exact Hc.
Qed.

Lemma positions_count : forall v l,
    length (positions v l) = length (filter (fun x => (x =? v)%Z) l).
Proof.
  intros v l. induction l as [|a l IH]; [reflexivity|].
  change (a :: l) with ([a] ++ l). rewrite positions_app, length_app, length_map.
  rewrite IH. cbn [app filter]. unfold positions. cbn [length seq filter nth].
  destruct (a =? v)%Z; reflexivity.
Qed.

Lemma positions_binary : forall l,
    Forall (fun x => In x [0; 1]%Z) l ->
    length (positions 0 l) + length (positions 1 l) = length l.
Proof.
  intros l Hl. rewrite !positions_count.
  induction Hl as [|a l Ha _ IH]; [reflexivity|].
  cbn [In] in Ha.
  destruct Ha as [<-|[<-|[]]]; simpl; lia.
Qed.

Lemma insert_by_skip : forall key p l0 l1,
    Forall (fun q => key q < key p)%Z l0 ->
    insert_by key p (l0 ++ l1) = l0 ++ insert_by key p l1.
Proof.
  intros key p l0 l1 Hl0. induction Hl0 as [|q l0 Hq _ IH]; [reflexivity|].
  cbn [app insert_by].
  destruct (key p <=? key q)%Z eqn:Hle; [apply Z.leb_le in Hle; lia|].
  rewrite IH. reflexivity.
Qed.

Lemma insert_by_head : forall key p l,
    Forall (fun q => key p <= key q)%Z l -> insert_by key p l = p :: l.
Proof.
  intros key p l Hl. destruct Hl as [|q l Hq _]; [reflexivity|].
  cbn [insert_by]. rewrite (proj2 (Z.leb_le _ _) Hq). reflexivity.
Qed.

Lemma sort_binary : forall (key : nat -> Z) idxs,
    Forall (fun p => key p = 0 \/ key p = 1)%Z idxs ->
    fold_right (insert_by key) [] idxs
    = filter (fun p => key p =? 0)%Z idxs ++ filter (fun p => key p =? 1)%Z idxs.
Proof.
  intros key idxs Hall. induction Hall as [|p idxs Hp Hall IH]; [reflexivity|].
  cbn [fold_right filter]. rewrite IH.
  assert (H0 : Forall (fun q => key q = 0%Z) (filter (fun q => (key q =? 0)%Z) idxs)).
  { apply Forall_forall. intros q Hq. apply filter_In in Hq.
    apply Z.eqb_eq. tauto. }
  assert (H1 : Forall (fun q => key q = 1%Z) (filter (fun q => (key q =? 1)%Z) idxs)).
  { apply Forall_forall. intros q Hq. apply filter_In in Hq.
    apply Z.eqb_eq. tauto. }
  destruct Hp as [Hp|Hp]; rewrite Hp; cbn [Z.eqb].
  - rewrite insert_by_head; [reflexivity|].
    apply Forall_app. split.
    + eapply Forall_impl; [|exact H0]. intros q Hq. cbn beta in Hq. lia.
    + eapply Forall_impl; [|exact H1]. intros q Hq. cbn beta in Hq. lia.
  - rewrite insert_by_skip.
    + rewrite insert_by_head; [reflexivity|].
      eapply Forall_impl; [|exact H1]. intros q Hq. cbn beta in Hq. lia.
    + eapply Forall_impl; [|exact H0]. intros q Hq. cbn beta in Hq. lia.
Qed.

Lemma argsort_binary : forall l,
    Forall (fun x => In x [0; 1]%Z) l ->
    argsort l = positions 0 l ++ positions 1 l.
Proof.
  intros l Hl. unfold argsort, positions. apply sort_binary.
  apply Forall_forall. intros p Hp. apply in_seq in Hp.
  rewrite Forall_forall in Hl.
  destruct (Hl (nth p l 0%Z)) as [H0|[H1|[]]];
    [apply nth_In; lia | auto | auto].
Qed.

Lemma argsort_data_positions : forall l m,
    Forall (fun x => In x [0; 1]%Z) l ->
    m < length (positions 0 l) ->
    nth m (argsort l) 0 = nth m (positions 0 l) 0.
Proof.
  intros l m Hl Hm. rewrite argsort_binary by exact Hl.
  apply app_nth1. exact Hm.
Qed.

Lemma positions_concat_uniform : forall v L rows,
    Forall (fun r => length r = L) rows ->
    positions v (concat rows)
    = flat_map (fun s => map (fun e => s * L + e)
                           (positions v (nth s rows [])))
               (seq 0 (length rows)).
Proof.
  intros v L rows. induction rows as [|r rows IH] using rev_ind;
    intros Hall; [reflexivity|].
  apply Forall_app in Hall. destruct Hall as [Hrows Hr].
  inversion Hr as [|? ? Hlen _]; subst.
  rewrite concat_app, positions_app. cbn [concat]. rewrite app_nil_r.
  rewrite length_app. cbn [length]. rewrite Nat.add_1_r, seq_S, flat_map_app.
  cbn [flat_map Nat.add]. rewrite app_nil_r.
  rewrite (length_concat_uniform Hrows), IH by exact Hrows. f_equal.
  - apply flat_map_ext_seq.
    intros s Hs. rewrite app_nth1 by lia. reflexivity.
  - rewrite app_nth2, Nat.sub_diag by lia. reflexivity.
Qed.

(** ** ResourceGrid: effective subcarriers and the type grid *)

Section EffectiveSubcarriers.
Context {A : Type} {D : Dtype A}.
Variable rg : ResourceGrid A.
Hypothesis Hchk : ResourceGrid_check_settings rg = Ok true.
Hypothesis Hdc : dc_inside rg.

Lemma effective_subcarrier_ind_Ok :
  exists eff,
    ResourceGrid_effective_subcarrier_ind rg = Ok eff
    /\ length eff = grid_subcarriers rg
    /\ Forall (fun i => 0 <= i < Z.of_nat (grid_fft rg))%Z eff
    /\ forall e, e < grid_subcarriers rg ->
         Z.to_nat (nth e eff 0%Z) = effective_subcarrier rg e.
Proof.
  pose proof Hchk as Hgp. apply guard_carriers_pair in Hgp.
  destruct Hgp as (g0 & g1 & Hgc & Hg0 & Hg1 & Hsum).
  pose proof Hchk as Hpos. apply ResourceGrid_check_settings_Ok in Hpos.
  destruct Hpos as ((_ & Hf & _) & _).
  unfold dc_inside in Hdc. rewrite Hgc in *. cbn [nth] in *.
  unfold ResourceGrid_effective_subcarrier_ind, grid_subcarriers, grid_fft,
    ResourceGrid_num_effective_subcarriers, effective_subcarrier.
  rewrite Hgc. cbn [nth].
  change (np_item [g0; g1] 0) with (Ok g0).
  change (np_item [g0; g1] 1) with (Ok g1).
  cbn [bind np_sum fold_right].
  set (sc := py_range g0 (_fft_size rg - g1)).
  assert (Hlen : length sc = Z.to_nat (_fft_size rg - g1 - g0))
    by (unfold sc; apply py_range_length).
  assert (Hnth : forall e, e < Z.to_nat (_fft_size rg - g1 - g0) ->
                           nth e sc 0%Z = (g0 + Z.of_nat e)%Z)
    by (intros e He; unfold sc; apply py_range_nth; exact He).
  assert (Hrange : Forall (fun i => 0 <= i < Z.of_nat (Z.to_nat (_fft_size rg)))%Z sc).
  { eapply Forall_impl; [|apply py_range_bounds]. intros i Hi.
    cbn beta in Hi. lia. }
  destruct (_dc_null rg) eqn:Hnull; cbn [Z.b2z andb] in *.
  - specialize (Hdc eq_refl). unfold np_delete, py_index. rewrite Hlen.
    replace ((- Z.of_nat (Z.to_nat (_fft_size rg - g1 - g0))
              <=? ResourceGrid_dc_ind rg - g0)%Z
             && (ResourceGrid_dc_ind rg - g0
                 <? Z.of_nat (Z.to_nat (_fft_size rg - g1 - g0)))%Z)
      with true
      by (symmetry; apply andb_true_intro; split;
          [apply Z.leb_le | apply Z.ltb_lt]; lia).
    replace (ResourceGrid_dc_ind rg - g0 <? 0)%Z with false
      by (symmetry; apply Z.ltb_ge; lia).
    cbn [bind]. set (p := Z.to_nat (ResourceGrid_dc_ind rg - g0)).
    eexists. split; [reflexivity|]. split; [|split].
    + rewrite length_app, length_firstn, length_skipn, Hlen. lia.
    + apply Forall_app. split.
      * apply Forall_forall. intros i Hi.
        rewrite Forall_forall in Hrange. apply Hrange.
        rewrite <- (firstn_skipn p sc). apply in_or_app. left. exact Hi.
      * apply Forall_forall. intros i Hi.
        rewrite Forall_forall in Hrange. apply Hrange.
        rewrite <- (firstn_skipn (S p) sc). apply in_or_app. right. exact Hi.
    + intros e He. destruct (p <=? e) eqn:Hpe.
      * apply Nat.leb_le in Hpe. rewrite app_nth2
          by (rewrite length_firstn, Hlen; lia).
        rewrite length_firstn, Hlen, nth_skipn, Hnth by lia. lia.
      * apply Nat.leb_gt in Hpe. rewrite app_nth1
          by (rewrite length_firstn, Hlen; lia).
        rewrite nth_firstn.
        replace (e <? p) with true by (symmetry; apply Nat.ltb_lt; lia).
        rewrite Hnth by lia. lia.
  - eexists. split; [reflexivity|]. split; [|split].
    + rewrite Hlen. lia.
    + exact Hrange.
    + intros e He. rewrite Hnth by lia. lia.
Qed.

Lemma type_row_positions : forall (mrow : list Z) v,
    v <> 2%Z -> v <> 3%Z -> length mrow = grid_subcarriers rg ->
    positions v (type_row rg mrow)
    = map (effective_subcarrier rg) (positions v mrow).
Proof.
  intros mrow v Hv2 Hv3 Hlen.
  pose proof Hchk as Hgp. apply guard_carriers_pair in Hgp.
  destruct Hgp as (g0 & g1 & Hgc & Hg0 & Hg1 & Hsum).
  unfold type_row, effective_subcarrier. rewrite Hgc in *. cbn [nth] in *.
  set (k := py_slice_bound (length mrow) (ResourceGrid_dc_ind rg - g0)).
  assert (Hk : k <= length mrow) by apply py_slice_bound_le.
  assert (Hkdc : _dc_null rg = true ->
                 k = Z.to_nat (ResourceGrid_dc_ind rg - g0)).
  { intros Hnull. unfold k. apply py_slice_bound_inside.
    specialize (Hdc Hnull). rewrite Hgc in Hdc. cbn [nth] in Hdc.
    rewrite Hlen. unfold grid_subcarriers,
      ResourceGrid_num_effective_subcarriers.
    rewrite Hgc, Hnull. cbn [np_sum fold_right Z.b2z]. lia. }
  rewrite !positions_app.
  rewrite !positions_repeat_other by congruence.
  cbn [app map]. rewrite app_nil_r, !repeat_length, length_firstn.
  rewrite Nat.min_l by exact Hk.
  rewrite <- (firstn_skipn k mrow) at 3.
  rewrite positions_app, length_firstn, Nat.min_l by exact Hk.
  rewrite !map_app, !map_map. f_equal.
  - apply map_ext_in. intros e He. apply positions_lt in He.
    rewrite length_firstn, Nat.min_l in He by exact Hk.
    destruct (_dc_null rg) eqn:Hnull; cbn [andb]; [|reflexivity].
    rewrite <- (Hkdc eq_refl).
    replace (k <=? e) with false by (symmetry; apply Nat.leb_gt; lia).
    reflexivity.
  - apply map_ext_in. intros e He.
    destruct (_dc_null rg) eqn:Hnull; cbn [andb Z.b2z].
    + rewrite <- (Hkdc eq_refl).
      replace (k <=? k + e) with true by (symmetry; apply Nat.leb_le; lia).
      change (Z.to_nat 1) with 1. lia.
    + change (Z.to_nat 0) with 0. lia.
Qed.

End EffectiveSubcarriers.

(** ** Data and pilot positions of a grid *)

Lemma map_flat_map : forall (T U V : Type) (f : U -> V) (g : T -> list U) l,
    map f (flat_map g l) = flat_map (fun x => map f (g x)) l.
Proof.
  intros T U V f g l. induction l as [|a l IH]; [reflexivity|].
  cbn [flat_map]. rewrite map_app, IH. reflexivity.
Qed.

Lemma length_flat_map_uniform : forall (T : Type) (g : nat -> list T) c n,
    (forall x, x < n -> length (g x) = c) ->
    length (flat_map g (seq 0 n)) = n * c.
Proof.
  intros T g c n Hg. rewrite flat_map_concat_map'.
  rewrite (@length_concat_uniform _ c).
  - rewrite length_map, length_seq. reflexivity.
  - apply Forall_forall. intros l Hl. apply in_map_iff in Hl.
    destruct Hl as (x & <- & Hx). apply in_seq in Hx. apply Hg. lia.
Qed.

Lemma nth_flat_map_uniform : forall (T : Type) (g : nat -> list T) c n q r d,
    (forall x, x < n -> length (g x) = c) -> q < n -> r < c ->
    nth (q * c + r) (flat_map g (seq 0 n)) d = nth r (g q) d.
Proof.
  intros T g c n q r d Hg Hq Hr. rewrite flat_map_concat_map'.
  rewrite (@nth_concat_uniform _ c).
  - rewrite (nth_indep _ [] (g 0)) by (rewrite length_map, length_seq; exact Hq).
    rewrite map_nth, seq_nth by exact Hq. reflexivity.
  - apply Forall_forall. intros l Hl. apply in_map_iff in Hl.
    destruct Hl as (x & <- & Hx). apply in_seq in Hx. apply Hg. lia.
  - rewrite length_map, length_seq. exact Hq.
  - exact Hr.
Qed.

Lemma positions_row : forall (t : tensor Z) lead v,
    positions v (row 0%Z t lead)
    = filter (fun c => (get 0%Z t (lead ++ [c]) =? v)%Z) (seq 0 (dim_last t)).
Proof.
  intros t lead v. unfold positions. rewrite length_row.
  apply filter_ext_in. intros c Hc. apply in_seq in Hc.
  rewrite nth_row by lia. reflexivity.
Qed.

Lemma mask_positions_bounds : forall mask v i j s e a b c n,
    shape mask = [a; b; c; n] ->
    In (s, e) (mask_positions mask v i j) -> s < c /\ e < n.
Proof.
  intros mask v i j s e a b c n Hs Hin. unfold mask_positions, dim in Hin.
  rewrite Hs in Hin. cbn [nth] in Hin. apply in_flat_map in Hin.
  destruct Hin as (s' & Hs' & Hin). apply in_map_iff in Hin.
  destruct Hin as (e' & Heq & He'). injection Heq as <- <-.
  apply in_seq in Hs'. apply positions_lt in He'.
  rewrite length_row in He'. unfold dim_last in He'. rewrite Hs in He'.
  cbn [last] in He'. lia.
Qed.

Lemma mask_positions_block : forall mask v i j a b c n,
    shape mask = [a; b; c; n] ->
    positions v (block 0%Z mask [i; j])
    = map (fun se => fst se * n + snd se) (mask_positions mask v i j).
Proof.
  intros mask v i j a b c n Hs.
  rewrite (@block_rows _ 0%Z mask a b c n i j Hs), flat_map_concat_map'.
  rewrite (@positions_concat_uniform v n).
  - unfold mask_positions, dim. rewrite Hs. cbn [nth].
    rewrite length_map, length_seq, map_flat_map.
    apply flat_map_ext_seq. intros s Hs'. rewrite map_map. cbn [fst snd].
    rewrite (nth_indep _ [] ((fun s0 => row 0%Z mask [i; j; s0]) 0))
      by (rewrite length_map, length_seq; lia).
    rewrite (map_nth (fun s0 => row 0%Z mask [i; j; s0])), seq_nth by lia.
    reflexivity.
  - apply Forall_forall. intros r Hr. apply in_map_iff in Hr.
    destruct Hr as (s & <- & _). rewrite length_row. unfold dim_last.
    rewrite Hs. reflexivity.
Qed.

Lemma flat_row_block : forall (mask : tensor Z) a b c n i j,
    shape mask = [a; b; c; n] ->
    row 0%Z (Tensor [a; b; c * (n * 1)] (data mask)) [i; j]
    = block 0%Z mask [i; j].
Proof.
  intros mask a b c n i j Hs. unfold row, block, dim_last.
  rewrite Hs. cbn [shape last length skipn].
  replace (c * (n * 1)) with (size [c; n]) by (cbn [size fold_right]; lia).
  rewrite <- ravel_indices, map_map. apply map_ext_in.
  intros tl Htl. apply In_indices in Htl.
  inversion Htl as [|s ? tl1 ? Hs' H1]; subst.
  inversion H1 as [|e ? tl2 ? He H2]; subst. inversion H2; subst.
  unfold get. cbn [shape data]. rewrite Hs. f_equal.
  cbn [app ravel size fold_right]. lia.
Qed.

Section GridPositions.
Context {A : Type} {D : Dtype A}.
Variable rg : ResourceGrid A.
Hypothesis Hchk : ResourceGrid_check_settings rg = Ok true.
Hypothesis Hfits : mask_fits rg.
Hypothesis Hdc : dc_inside rg.
Hypothesis Hpp : PilotPattern_check_settings (_pilot_pattern rg) = Ok true.

Local Notation "'mask'" := (_mask (_pilot_pattern rg)).
Local Notation "'pilots'" := (_pilots (_pilot_pattern rg)).
Local Notation "'tx'" := (grid_tx rg).
Local Notation "'st'" := (grid_streams rg).
Local Notation "'sym'" := (grid_symbols rg).
Local Notation "'neff'" := (grid_subcarriers rg).
Local Notation "'fft'" := (grid_fft rg).

Lemma mask_shape4 : shape mask = [tx; st; sym; neff].
Proof. exact (mask_shape Hfits). Qed.

Lemma block_binary : forall i j,
    Forall (fun x => In x [0; 1]%Z) (block 0%Z mask [i; j]).
Proof.
  intros i j. apply Forall_forall. intros x Hx. unfold block in Hx.
  apply in_map_iff in Hx. destruct Hx as (tl & <- & _).
  apply (mask_binary Hfits).
Qed.

Lemma pilot_count : forall i j,
    i < tx -> j < st ->
    length (mask_positions mask 1 i j) = dim_last pilots.
Proof.
  intros i j Hi Hj.
  rewrite <- (length_map (fun se => fst se * neff + snd se)).
  rewrite <- (@mask_positions_block mask 1%Z i j _ _ _ _ mask_shape4), positions_count.
  destruct Hfits as (m & Hm & Hwf & Hs).
  assert (Hpc : pair_count m i j = Z.of_nat (dim_last pilots)).
  { unfold PilotPattern_check_settings in Hpp. split_ok Hpp.
    rewrite Hm in *. apply Nat.eqb_eq in Hc.
    change (rank (tf_cast_int32 m)) with (rank m) in Hc.
    apply Z.eqb_eq in Hc2, Hc3.
    assert (Hin : In (pair_count m i j)
                     (data (tf_reduce_sum_last2 (tf_cast_int32 m)))).
    { apply pair_count_in_data; [exact Hc | |]; unfold dim; rewrite Hs;
        cbn [nth]; assumption. }
    pose proof (reduce_min_le _ _ Hin). pose proof (reduce_max_ge _ _ Hin).
    unfold PilotPattern_num_pilot_symbols in Hc3. lia. }
  rewrite Hm. unfold tf_cast_int32.
  rewrite (block_tmap (fun b : bool => if b then 1%Z else 0%Z) false).
  unfold pair_count in Hpc. apply Nat2Z.inj. rewrite <- Hpc. f_equal.
  clear Hpc. induction (block false m [i; j]) as [|b l IH]; [reflexivity|].
  cbn [map filter]. destruct b; cbn [Z.eqb Pos.eqb length]; rewrite IH;
    reflexivity.
Qed.

Lemma data_count : forall i j,
    i < tx -> j < st ->
    length (mask_positions mask 0 i j) = sym * neff - dim_last pilots.
Proof.
  intros i j Hi Hj. pose proof (pilot_count Hi Hj) as Hp.
  rewrite <- (length_map (fun se => fst se * neff + snd se)) in Hp.
  rewrite <- (@mask_positions_block mask 1%Z i j _ _ _ _ mask_shape4) in Hp.
  rewrite <- (length_map (fun se => fst se * neff + snd se)).
  rewrite <- (@mask_positions_block mask 0%Z i j _ _ _ _ mask_shape4).
  pose proof (positions_binary (block_binary i j)) as Hb.
  rewrite length_block, mask_shape4 in Hb.
  cbn [length skipn size fold_right] in Hb. lia.
Qed.

Lemma pilots_shape : shape pilots = [tx; st; dim_last pilots].
Proof.
  unfold PilotPattern_check_settings in Hpp. split_ok Hpp.
  apply Nat.eqb_eq in Hc0. apply list_eqb_eq in Hc1.
  rewrite mask_shape4 in Hc1. unfold rank in Hc0. unfold dim_last.
  destruct (shape pilots) as [|p0 [|p1 [|p2 [|]]]]; try discriminate.
  cbn [firstn] in Hc1. injection Hc1 as <- <-. reflexivity.
Qed.

End GridPositions.

(** ** The index lists of the mapper *)

Lemma filter_indices_cons : forall (f : list nat -> bool) d s,
    filter f (indices (d :: s))
    = flat_map (fun i => map (cons i)
                           (filter (fun tl => f (i :: tl)) (indices s)))
               (seq 0 d).
Proof.
  intros f d s. cbn [indices]. rewrite filter_flat_map.
  apply flat_map_ext_seq. intros i _. apply filter_map_swap.
Qed.

Lemma tf_where_bounds : forall (t : tensor Z) v,
    Forall (fun idx => in_bounds idx (shape t)) (tf_where t v).
Proof.
  intros t v. apply Forall_forall. intros idx Hin.
  unfold tf_where in Hin. apply filter_In in Hin.
  apply In_indices. tauto.
Qed.

Lemma tf_where_NoDup : forall (t : tensor Z) v, NoDup (tf_where t v).
Proof. intros t v. apply NoDup_filter, NoDup_indices. Qed.

Section GridIndices.
Context {A : Type} {D : Dtype A}.
Variable rg : ResourceGrid A.
Hypothesis Hchk : ResourceGrid_check_settings rg = Ok true.
Hypothesis Hfits : mask_fits rg.
Hypothesis Hdc : dc_inside rg.
Variable tg : tensor Z.
Hypothesis Htg :
  shape tg = [grid_tx rg; grid_streams rg; grid_symbols rg; grid_fft rg].
Hypothesis Hrows : forall i j s,
    i < grid_tx rg -> j < grid_streams rg -> s < grid_symbols rg ->
    row 0%Z tg [i; j; s]
    = type_row rg (row 0%Z (_mask (_pilot_pattern rg)) [i; j; s]).

Local Notation "'mask'" := (_mask (_pilot_pattern rg)).
Local Notation "'tx'" := (grid_tx rg).
Local Notation "'st'" := (grid_streams rg).
Local Notation "'sym'" := (grid_symbols rg).
Local Notation "'neff'" := (grid_subcarriers rg).
Local Notation "'fft'" := (grid_fft rg).

Lemma tf_where_type_grid : forall v,
    v <> 2%Z -> v <> 3%Z ->
    tf_where tg v
    = flat_map (fun i =>
        flat_map (fun j => map (grid_position rg i j) (mask_positions mask v i j))
                 (seq 0 st))
        (seq 0 tx).
Proof.
  intros v Hv2 Hv3. unfold tf_where. rewrite Htg.
  rewrite filter_indices_cons. apply flat_map_ext_seq. intros i Hi.
  rewrite filter_indices_cons, map_flat_map.
  apply flat_map_ext_seq. intros j Hj.
  rewrite filter_indices_cons, !map_flat_map.
  unfold mask_positions, dim. rewrite (mask_shape4 Hfits). cbn [nth].
  rewrite map_flat_map. apply flat_map_ext_seq. intros s Hs.
  rewrite indices_1, filter_map_swap, !map_map.
  assert (Hpos : filter (fun c => (get 0%Z tg [i; j; s; c] =? v)%Z)
                        (seq 0 fft)
                 = map (effective_subcarrier rg)
                       (positions v (row 0%Z mask [i; j; s]))).
  { rewrite <- (type_row_positions Hchk Hdc _ Hv2 Hv3).
    - rewrite <- Hrows by lia. rewrite positions_row.
      unfold dim_last. rewrite Htg. reflexivity.
    - rewrite length_row. unfold dim_last.
      rewrite (mask_shape4 Hfits). reflexivity. }
  rewrite Hpos, map_map. reflexivity.
Qed.

Section Uniform.
Variables (v : Z) (c : nat).
Hypothesis Hv2 : v <> 2%Z.
Hypothesis Hv3 : v <> 3%Z.
Hypothesis Hcount : forall i j,
    i < tx -> j < st -> length (mask_positions mask v i j) = c.

Lemma tf_where_length : length (tf_where tg v) = tx * (st * c).
Proof.
  rewrite (tf_where_type_grid Hv2 Hv3).
  apply length_flat_map_uniform. intros i Hi.
  apply length_flat_map_uniform. intros j Hj.
  rewrite length_map. apply Hcount; assumption.
Qed.

Lemma tf_where_nth : forall i j m,
    i < tx -> j < st -> m < c ->
    nth (i * (st * c) + (j * c + m)) (tf_where tg v) []
    = grid_position rg i j (nth m (mask_positions mask v i j) (0, 0)).
Proof.
  intros i j m Hi Hj Hm. rewrite (tf_where_type_grid Hv2 Hv3).
  rewrite (@nth_flat_map_uniform _ _ (st * c)).
  - rewrite (@nth_flat_map_uniform _ _ c).
    + rewrite (nth_indep _ [] (grid_position rg i j (0, 0)))
        by (rewrite length_map, Hcount; assumption).
      apply (map_nth (grid_position rg i j)).
    + intros j' Hj'. rewrite length_map. apply Hcount; assumption.
    + exact Hj.
    + exact Hm.
  - intros i' Hi'. apply length_flat_map_uniform. intros j' Hj'.
    rewrite length_map. apply Hcount; assumption.
  - exact Hi.
  - assert (j * c + m < j * c + c) by lia.
    assert (j * c + c <= st * c) by nia. lia.
Qed.

End Uniform.

End GridIndices.

(** ** The data indices of the demapper *)

Section DemapperInit.
Context {A : Type} {D : Dtype A}.
Variable rg : ResourceGrid A.
Hypothesis Hchk : ResourceGrid_check_settings rg = Ok true.
Hypothesis Hfits : mask_fits rg.
Hypothesis Hpp : PilotPattern_check_settings (_pilot_pattern rg) = Ok true.

Local Notation "'mask'" := (_mask (_pilot_pattern rg)).
Local Notation "'pilots'" := (_pilots (_pilot_pattern rg)).
Local Notation "'tx'" := (grid_tx rg).
Local Notation "'st'" := (grid_streams rg).
Local Notation "'sym'" := (grid_symbols rg).
Local Notation "'neff'" := (grid_subcarriers rg).
Local Notation "'nd'" := (sym * neff - dim_last pilots).

Lemma grid_streams_positive : 0 < tx /\ 0 < st.
Proof.
  pose proof Hchk as Hpos. apply ResourceGrid_check_settings_Ok in Hpos.
  destruct Hpos as ((_ & _ & _ & Htx & Hst) & _).
  unfold grid_tx, grid_streams. lia.
Qed.

Lemma pilots_le : dim_last pilots <= sym * neff.
Proof.
  destruct grid_streams_positive as [Htx Hst].
  rewrite <- (pilot_count Hfits Hpp Htx Hst).
  rewrite <- (length_map (fun se => fst se * neff + snd se)).
  rewrite <- (@mask_positions_block mask 1%Z 0 0 _ _ _ _ (mask_shape4 Hfits)).
  pose proof (positions_binary (block_binary Hfits 0 0)) as Hb.
  rewrite length_block, (mask_shape4 Hfits) in Hb.
  cbn [length skipn size fold_right] in Hb. lia.
Qed.

Lemma num_data_symbols_nat :
  PilotPattern_num_data_symbols (_pilot_pattern rg) = Z.of_nat nd.
Proof.
  pose proof pilots_le as Hle.
  unfold PilotPattern_num_data_symbols, PilotPattern_num_pilot_symbols.
  unfold dim_last at 1. unfold dim, rank. rewrite (mask_shape4 Hfits).
  cbn [last length Nat.sub nth]. lia.
Qed.

Lemma ResourceGridDemapper_init_entries : forall sm,
    exists dind,
      ResourceGridDemapper_init rg sm
      = Ok {| _stream_management := sm;
              demapper_resource_grid := rg;
              demapper_data_ind := dind |}
      /\ shape dind = [tx; st; nd]
      /\ tensor_wf dind
      /\ Forall (fun p => p < sym * neff) (data dind)
      /\ forall i j m, i < tx -> j < st -> m < nd ->
           get 0 dind [i; j; m]
           = (fun se => fst se * neff + snd se)
               (nth m (mask_positions mask 0 i j) (0, 0)).
Proof.
  intros sm. pose proof pilots_le as Hle.
  unfold ResourceGridDemapper_init, PilotPattern_mask, flatten_last_dims, rank.
  rewrite (mask_shape4 Hfits).
  cbn [length Nat.leb andb Nat.sub firstn skipn app bind size fold_right].
  eexists. split; [reflexivity|].
  set (flat := Tensor [tx; st; sym * (neff * 1)] (data mask)).
  unfold slice_last_to.
  assert (Hk : py_slice_bound (dim_last (tf_argsort flat))
                 (PilotPattern_num_data_symbols (_pilot_pattern rg)) = nd).
  { rewrite num_data_symbols_nat, py_slice_bound_inside.
    - apply Nat2Z.id.
    - unfold tf_argsort, dim_last. cbn [shape tabulate flat last]. lia. }
  rewrite Hk.
  assert (Hsh : removelast (shape (tf_argsort flat)) ++ [nd] = [tx; st; nd])
    by reflexivity.
  rewrite Hsh.
  assert (Hent : forall i j m, i < tx -> j < st -> m < nd ->
             get 0 (tabulate [tx; st; nd] (get 0 (tf_argsort flat))) [i; j; m]
             = nth m (positions 0 (block 0%Z mask [i; j])) 0).
  { intros i j m Hi Hj Hm.
    rewrite get_tabulate by (repeat constructor; assumption).
    unfold tf_argsort. cbn [shape flat].
    rewrite get_tabulate by (repeat constructor; try assumption; nia).
    cbn [last removelast].
    change (Tensor [tx; st; sym * (neff * 1)] (data mask)) with flat.
    unfold flat. rewrite (@flat_row_block mask _ _ _ _ i j (mask_shape4 Hfits)).
    apply argsort_data_positions; [apply (block_binary Hfits)|].
    rewrite (@mask_positions_block mask 0%Z i j _ _ _ _ (mask_shape4 Hfits)).
    rewrite length_map, (data_count Hfits Hpp Hi Hj). exact Hm. }
  split; [reflexivity|]. split; [apply tabulate_wf|]. split.
  - apply Forall_forall. intros p Hp.
    assert (Hget : exists idx, in_bounds idx [tx; st; nd]
                     /\ p = get 0 (tabulate [tx; st; nd]
                                     (get 0 (tf_argsort flat))) idx).
    { unfold tabulate in Hp. cbn [data] in Hp. apply in_map_iff in Hp.
      destruct Hp as (idx & <- & Hidx). apply In_indices in Hidx.
      exists idx. split; [exact Hidx|].
      rewrite get_tabulate by exact Hidx. reflexivity. }
    destruct Hget as (idx & Hb & ->).
    inversion Hb as [|i ? t1 ? Hi H1]; subst.
    inversion H1 as [|j ? t2 ? Hj H2]; subst.
    inversion H2 as [|m ? t3 ? Hm H3]; subst. inversion H3; subst.
    rewrite Hent by assumption.
    assert (Hin : In (nth m (positions 0 (block 0%Z mask [i; j])) 0)
                     (positions 0 (block 0%Z mask [i; j]))).
    { apply nth_In.
      rewrite (@mask_positions_block mask 0%Z i j _ _ _ _ (mask_shape4 Hfits)).
      rewrite length_map, (data_count Hfits Hpp Hi Hj). exact Hm. }
    apply positions_lt in Hin.
    rewrite length_block, (mask_shape4 Hfits) in Hin.
    cbn [length skipn size fold_right] in Hin. lia.
  - intros i j m Hi Hj Hm. rewrite Hent by assumption.
    rewrite (@mask_positions_block mask 0%Z i j _ _ _ _ (mask_shape4 Hfits)).
    rewrite (nth_indep _ 0 ((fun se => fst se * neff + snd se) (0, 0)))
      by (rewrite length_map, (data_count Hfits Hpp Hi Hj); exact Hm).
    apply (map_nth (fun se => fst se * neff + snd se)).
Qed.

End DemapperInit.

(** ** Mapper followed by demapper *)

Section RoundTrip.
Context {A : Type} {D : Dtype A}.
Variable rg : ResourceGrid A.
Hypothesis Hchk : ResourceGrid_check_settings rg = Ok true.
Hypothesis Hfits : mask_fits rg.
Hypothesis Hpp : PilotPattern_check_settings (_pilot_pattern rg) = Ok true.
Hypothesis Hdc : dc_inside rg.

Local Notation "'mask'" := (_mask (_pilot_pattern rg)).
Local Notation "'pilots'" := (_pilots (_pilot_pattern rg)).
Local Notation "'tx'" := (grid_tx rg).
Local Notation "'st'" := (grid_streams rg).
Local Notation "'sym'" := (grid_symbols rg).
Local Notation "'neff'" := (grid_subcarriers rg).
Local Notation "'fft'" := (grid_fft rg).
Local Notation "'nd'" := (sym * neff - dim_last pilots).

Lemma pilots_read_shape :
  shape (PilotPattern_pilots (_pilot_pattern rg)) = [tx; st; dim_last pilots].
Proof.
  unfold PilotPattern_pilots, norm_pilots.
  destruct (_normalize (_pilot_pattern rg)); cbn [tabulate shape];
    apply (pilots_shape Hfits Hpp).
Qed.

Lemma identity_streams_table :
  stream_ind (identity_streams (_num_tx rg) (_num_streams_per_tx rg))
  = py_range 0 (Z.of_nat (tx * st)).
Proof.
  pose proof Hchk as Hpos. apply ResourceGrid_check_settings_Ok in Hpos.
  destruct Hpos as ((_ & _ & _ & Htx & Hst) & _).
  unfold identity_streams, grid_tx, grid_streams. cbn [stream_ind].
  rewrite Nat2Z.inj_mul, !Z2Nat.id by lia. reflexivity.
Qed.

Lemma demap_map_identity : forall B (x : tensor A),
    0 < B ->
    tensor_wf x ->
    shape x = [B; tx; st; nd] ->
    demap_map rg (identity_streams (_num_tx rg) (_num_streams_per_tx rg)) x
    = Ok x.
Proof.
  intros B x HB Hxwf Hx.
  pose proof Hchk as Hpos. apply ResourceGrid_check_settings_Ok in Hpos.
  destruct Hpos as ((_ & _ & _ & Htx & Hst) & _).
  destruct (build_type_grid_rows Hchk Hfits)
    as (tg & Hbuild & Htg & Htgwf & Hrows).
  destruct (effective_subcarrier_ind_Ok Hchk Hdc)
    as (eff & Heff & Hefflen & Heffrange & Heffnth).
  set (sm := identity_streams (_num_tx rg) (_num_streams_per_tx rg)).
  destruct (ResourceGridDemapper_init_entries Hchk Hfits Hpp sm)
    as (dind & Hdinit & Hdshape & Hdwf & Hdrange & Hdent).
  assert (H02 : (0 <> 2)%Z) by discriminate.
  assert (H03 : (0 <> 3)%Z) by discriminate.
  assert (H12 : (1 <> 2)%Z) by discriminate.
  assert (H13 : (1 <> 3)%Z) by discriminate.
  pose proof (@tf_where_length A D rg Hchk Hfits Hdc tg Htg Hrows 0%Z nd
                H02 H03 (@data_count A D rg Hfits Hpp)) as Hdlen.
  pose proof (@tf_where_length A D rg Hchk Hfits Hdc tg Htg Hrows 1%Z
                (dim_last pilots) H12 H13 (@pilot_count A D rg Hfits Hpp)) as Hplen.
  assert (Hprank : rank (PilotPattern_pilots (_pilot_pattern rg)) = 3)
    by (unfold rank; rewrite pilots_read_shape; reflexivity).
  assert (Hpsize : size (shape (PilotPattern_pilots (_pilot_pattern rg)))
                   = length (tf_where tg 1)).
  { rewrite pilots_read_shape, Hplen. cbn [size fold_right]. lia. }
  assert (Hpind : Forall (fun idx => in_bounds idx [tx; st; sym; fft])
                         (tf_where tg 1))
    by (rewrite <- Htg; apply tf_where_bounds).
  assert (Hdind : Forall (fun idx => in_bounds idx [tx; st; sym; fft])
                         (tf_where tg 0))
    by (rewrite <- Htg; apply tf_where_bounds).
  assert (Hdlen' : length (tf_where tg 0) = tx * (st * (nd * 1)))
    by (rewrite Hdlen; lia).
  unfold demap_map, ResourceGridMapper_init. rewrite Hbuild. cbn [bind].
  fold sm. rewrite Hdinit. cbn [bind].
  destruct (@ResourceGridMapper_call_entries A D rg tg (tf_where tg 1)
              (tf_where tg 0) B tx st sym fft nd Htg Hprank Hpsize Hpind
              Hdind Hdlen' HB x Hx) as (g & Hg & Hgs & Hgent).
  rewrite Hg. cbn [bind].
  assert (Hntx : num_tx sm = Z.of_nat tx)
    by (unfold sm, identity_streams, grid_tx; cbn [num_tx]; lia).
  assert (Hnst : num_streams_per_tx sm = Z.of_nat st)
    by (unfold sm, identity_streams, grid_streams;
        cbn [num_streams_per_tx]; lia).
  destruct (@ResourceGridDemapper_call_entries A D rg sm dind B tx st sym fft
              neff nd eff Heff Hefflen Heffrange identity_streams_table Hntx
              Hnst Hdshape Hdrange Hdwf g Hgs) as (r & Hr & Hrs & Hrwf & Hrent).
  rewrite Hr. f_equal.
  apply (@tensor_ext A zero r x Hrwf Hxwf); [congruence|].
  intros idx Hb. rewrite Hrs in Hb.
  inversion Hb as [|b ? t1 ? Hbb H1]; subst.
  inversion H1 as [|i ? t2 ? Hi H2]; subst.
  inversion H2 as [|j ? t3 ? Hj H3]; subst.
  inversion H3 as [|m ? t4 ? Hm H4]; subst. inversion H4; subst.
  rewrite Hrent by assumption. rewrite Hdent by assumption.
  pose proof (@data_count A D rg Hfits Hpp i j Hi Hj) as Hcnt.
  set (se := nth m (mask_positions mask 0 i j) (0, 0)).
  assert (Hse : In se (mask_positions mask 0 i j))
    by (apply nth_In; rewrite Hcnt; exact Hm).
  destruct se as [s e] eqn:Ese.
  apply (@mask_positions_bounds _ _ _ _ _ _ _ _ _ _ (mask_shape4 Hfits)) in Hse.
  destruct Hse as [Hs He]. cbn [fst snd].
  assert (Hdiv : (s * neff + e) / neff = s)
    by (symmetry; apply (Nat.div_unique _ _ _ e); lia).
  assert (Hmod : (s * neff + e) mod neff = e)
    by (symmetry; apply (Nat.mod_unique _ _ s); lia).
  rewrite Hdiv, Hmod, Heffnth by exact He.
  assert (Hc : effective_subcarrier rg e < fft).
  { rewrite <- Heffnth by exact He.
    assert (Hin : In (nth e eff 0%Z) eff)
      by (apply nth_In; rewrite Hefflen; exact He).
    rewrite Forall_forall in Heffrange. apply Heffrange in Hin. lia. }
  pose proof (@tf_where_nth A D rg Hchk Hfits Hdc tg Htg Hrows 0%Z nd
                H02 H03 (@data_count A D rg Hfits Hpp) i j m Hi Hj Hm) as Hnth.
  fold se in Hnth. rewrite Ese in Hnth.
  unfold grid_position in Hnth. cbn [fst snd] in Hnth.
  assert (Hk : i * (st * nd) + (j * nd + m) < tx * (st * (nd * 1))).
  { assert (j * nd + m < j * nd + nd) by lia.
    assert (j * nd + nd <= st * nd) by nia.
    assert (i * (st * nd) + st * nd <= tx * (st * nd)) by nia. lia. }
  assert (Hidx : index_of [i; j; s; effective_subcarrier rg e] (tf_where tg 0)
                 = Some (i * (st * nd) + (j * nd + m))).
  { rewrite <- Hnth. apply index_of_nth; [apply tf_where_NoDup|].
    rewrite Hdlen'. exact Hk. }
  rewrite (Hgent b i j s _ _ Hbb Hi Hj Hs Hc Hidx Hk).
  unfold get. rewrite Hx. f_equal. cbn [ravel size fold_right]. lia.
Qed.

End RoundTrip.

Lemma grid_num_data_symbols : forall (A : Type) (D : Dtype A)
    (rg : ResourceGrid A),
    ResourceGrid_check_settings rg = Ok true ->
    mask_fits rg ->
    PilotPattern_check_settings (_pilot_pattern rg) = Ok true ->
    Z.to_nat (ResourceGrid_num_data_symbols rg)
    = grid_symbols rg * grid_subcarriers rg
      - dim_last (_pilots (_pilot_pattern rg)).
Proof.
  intros A D rg Hchk Hfits Hpp.
  pose proof (pilots_le Hchk Hfits Hpp) as Hle.
  pose proof Hchk as Hpos. apply ResourceGrid_check_settings_Ok in Hpos.
  destruct Hpos as ((Hn & _) & _).
  pose proof Hchk as Hgp. apply guard_carriers_pair in Hgp.
  destruct Hgp as (g0 & g1 & Hgc & Hg0 & Hg1 & Hsum).
  unfold ResourceGrid_num_data_symbols, ResourceGrid_num_pilot_symbols,
    PilotPattern_num_pilot_symbols.
  unfold grid_symbols, grid_subcarriers in *.
  assert (Hne : (0 <= ResourceGrid_num_effective_subcarriers rg)%Z).
  { unfold ResourceGrid_num_effective_subcarriers. rewrite Hgc.
    cbn [np_sum fold_right]. lia. }
  rewrite Z2Nat.inj_sub by lia.
  rewrite Z2Nat.inj_mul by lia. rewrite Nat2Z.id. lia.
Qed.



(** C1, at the failing input.  The grid of one OFDM symbol and eight
    subcarriers with five guard carriers on the left, none on the right and
    a nulled DC carrier is constructed with the default pilot pattern; it
    has two data symbols, and its DC index 4 lies inside the left guard
    band.  The type grid, from which the mapper takes its positions, marks
    the subcarriers 5 and 7 as data and 6 as the DC carrier; the effective
    subcarriers, which the demapper reads, are 5 and 6.  Whatever the
    dtype, of two data symbols [a] and [b] the demapper returns [a] and
    zero: a second symbol other than zero does not come back. *)
Theorem demap_map_dc_in_guard_band : forall (A : Type) (D : Dtype A) (a b : A),
    exists rg : ResourceGrid A,
      ResourceGrid_init 1 8 (15000 # 1) 1 1 0 [5; 0]%Z true PatternNone None
      = Ok rg
      /\ ResourceGrid_num_data_symbols rg = 2%Z
      /\ ResourceGrid_dc_ind rg = 4%Z
      /\ (tg <- ResourceGrid_build_type_grid rg ;; Ok tg)
         = Ok (Tensor [1; 1; 1; 8] [2; 2; 2; 2; 2; 0; 3; 0]%Z)
      /\ ResourceGrid_effective_subcarrier_ind rg = Ok [5; 6]%Z
      /\ demap_map rg (identity_streams 1 1) (Tensor [1; 1; 1; 2] [a; b])
         = Ok (Tensor [1; 1; 1; 2] [a; zero])
      /\ (b <> zero ->
          demap_map rg (identity_streams 1 1) (Tensor [1; 1; 1; 2] [a; b])
          <> Ok (Tensor [1; 1; 1; 2] [a; b])).
Proof.
  intros A D a b. eexists. split; [reflexivity|].
  split; [reflexivity|]. split; [reflexivity|]. split; [reflexivity|].
  split; [reflexivity|].
  assert (Hrun : demap_map
                   {| _num_ofdm_symbols := 1; _fft_size := 8;
                      _subcarrier_spacing := 15000 # 1;
                      _cyclic_prefix_length := 0; _num_tx := 1;
                      _num_streams_per_tx := 1;
                      _num_guard_carriers := [5; 0]%Z; _dc_null := true;
                      _pilot_ofdm_symbol_indices := None;
                      _pilot_pattern :=
                        {| _mask := Tensor [1; 1; 1; 2] [0; 0]%Z;
                           _pilots := Tensor [1; 1; 0] [];
                           _normalize := false |} |}
                   (identity_streams 1 1) (Tensor [1; 1; 1; 2] [a; b])
                 = Ok (Tensor [1; 1; 1; 2] [a; zero]))
    by reflexivity.
  split; [exact Hrun|].
  intros Hb Heq. pose proof (eq_trans (eq_sym Hrun) Heq) as Hab.
  injection Hab as Hab. auto.
Qed.

(** A grid of one transmitter is constructed with the supplied pattern of
    [EmptyPilotPattern(2, 1, 1, 4)], whose mask is made for two
    transmitters.  The grid counts four data symbols, and for a tensor of
    shape [[1; 1; 1; 4]] the mapper cannot be built: the guard blocks of the
    type grid have the extents of the grid, the mask those of the pattern,
    and their concatenation is refused. *)
Lemma demap_map_supplied_pattern :
  EmptyPilotPattern_init 2 1 1 4 = Ok two_tx_pattern
  /\ exists rg,
      ResourceGrid_init 1 4 (15000 # 1) 1 1 0 [0; 0]%Z false
        (PatternInstance two_tx_pattern) None = Ok rg
      /\ ResourceGrid_num_data_symbols rg = 4%Z
      /\ fails (ResourceGridMapper_init rg)
      /\ fails (demap_map rg (identity_streams 1 1)
                  (Tensor [1; 1; 1; 4] [1; 2; 3; 4]%Z))
      /\ demap_map rg (identity_streams 1 1)
           (Tensor [1; 1; 1; 4] [1; 2; 3; 4]%Z)
         <> Ok (Tensor [1; 1; 1; 4] [1; 2; 3; 4]%Z).
Proof.
  split; [reflexivity|]. eexists.
  split; [vm_compute; reflexivity|].
  split; [reflexivity|].
  split; [eexists; vm_compute; reflexivity|].
  split; [eexists; vm_compute; reflexivity|].
  vm_compute. discriminate.
Qed.

(** ** PilotPattern: the normalisation of the pilots in floating point *)

Section Normalisation.
Variable p : precision.

Lemma c_energy_zero : forall a, c_is_zero a -> c_energy p a = S754_zero false.
Proof.
  intros [x y] [[s Hs] [t Ht]]. cbn [re im] in Hs, Ht. subst.
  unfold c_energy, c_abs. cbn [re im]. destruct s, t; reflexivity.
Qed.

Lemma sum_zeros : forall v : list spec_float,
    Forall (eq (S754_zero false)) v ->
    fold_left (SFadd (prec_of p) (emax_of p)) v (S754_zero false)
    = S754_zero false.
Proof.
  induction v as [|x v IH]; intros Hv; [reflexivity|].
  inversion Hv as [|? ? Hx Hv']; subst. cbn [fold_left]. cbn [SFadd].
  apply IH. exact Hv'.
Qed.

(** The mean of a vector of zeros is a zero, or not a number when the
    vector is empty. *)
Lemma f_reduce_mean_zeros : forall v : list spec_float,
    Forall (eq (S754_zero false)) v ->
    is_zero (f_reduce_mean p v) \/ f_reduce_mean p v = S754_nan.
Proof.
  intros v Hv. unfold f_reduce_mean, f_zero. rewrite sum_zeros by exact Hv.
  destruct (f_of_nat p (length v)) as [s|s| |s m e]; cbn [SFdiv].
  - right. reflexivity.
  - left. eexists. reflexivity.
  - right. reflexivity.
  - left. eexists. reflexivity.
Qed.

(** The scale of a vector of zeros is infinite or not a number. *)
Lemma c_rsqrt_mean_energy_zeros : forall v : list complex,
    Forall c_is_zero v ->
    im (c_rsqrt_mean_energy p v) = S754_zero false
    /\ ((exists s, re (c_rsqrt_mean_energy p v) = S754_infinity s)
        \/ re (c_rsqrt_mean_energy p v) = S754_nan).
Proof.
  intros v Hv. unfold c_rsqrt_mean_energy. cbn [re im].
  split; [reflexivity|].
  assert (Hz : Forall (eq (S754_zero false)) (map (c_energy p) v)).
  { apply Forall_forall. intros x Hx. apply in_map_iff in Hx.
    destruct Hx as (a & <- & Ha). rewrite Forall_forall in Hv.
    symmetry. apply c_energy_zero. auto. }
  destruct (f_reduce_mean_zeros Hz) as [[s Hm] | Hm]; rewrite Hm.
  - left. exists s. destruct p, s; reflexivity.
  - right. destruct p; reflexivity.
Qed.

Lemma c_mul_scale_zero : forall sc a,
    im sc = S754_zero false ->
    (exists s, re sc = S754_infinity s) \/ re sc = S754_nan ->
    c_is_zero a ->
    c_mul p sc a = c_nan.
Proof.
  intros [x y] [u v] Hy Hx [[s Hu] [t Hv]]. cbn [re im] in *. subst.
  unfold c_mul, c_nan. cbn [re im].
  destruct Hx as [[s' ->] | ->]; destruct s, t; reflexivity.
Qed.

Lemma c_energy_nan : c_energy p c_nan = S754_nan.
Proof. reflexivity. Qed.

Lemma sum_nan : forall v : list spec_float,
    fold_left (SFadd (prec_of p) (emax_of p)) v S754_nan = S754_nan.
Proof. induction v as [|x v IH]; [reflexivity | exact IH]. Qed.

(** The mean energy of a vector that is empty or holds only values that
    are not a number is not a number. *)
Lemma mean_energy_nan : forall v : list complex,
    Forall (eq c_nan) v -> mean_energy p v = S754_nan.
Proof.
  intros v Hv. unfold mean_energy, f_reduce_mean.
  destruct v as [|a v].
  - cbn [map fold_left length]. destruct p; reflexivity.
  - inversion Hv as [|? ? Ha Hv']; subst. cbn [map fold_left].
    rewrite c_energy_nan. cbn [SFadd f_zero]. rewrite sum_nan. reflexivity.
Qed.

Lemma f_one_not_nan : f_one p <> S754_nan.
Proof. destruct p; discriminate. Qed.

End Normalisation.



(** * Further properties of the resource grid *)

(** ** The DC index *)

Lemma dc_ind_quot : forall f b : Z,
    (f mod 2 = b)%Z ->
    Qtrunc (inject_Z f / 2 - inject_Z b / 2)%Q = (f / 2)%Z.
Proof.
  intros f b Hmod. unfold Qtrunc.
  cbn [Qminus Qplus Qopp Qdiv Qmult Qinv Qnum Qden inject_Z Pos.mul].
  pose proof (Z.div_mod f 2 ltac:(lia)) as Hdiv.
  replace (f * 1 * 2 + - (b * 1) * 2)%Z with (f / 2 * 4)%Z by lia.
  apply Z.quot_mul. discriminate.
Qed.

Lemma dc_ind_half : forall (A : Type) (self : ResourceGrid A),
    ResourceGrid_dc_ind self = (_fft_size self / 2)%Z.
Proof.
  intros A self. unfold ResourceGrid_dc_ind. apply dc_ind_quot.
  pose proof (Z.mod_pos_bound (_fft_size self) 2 ltac:(lia)) as Hb.
  destruct (_fft_size self mod 2 =? 1)%Z eqn:E.
  - apply Z.eqb_eq in E. exact E.
  - apply Z.eqb_neq in E. cbn [Z.b2z]. lia.
Qed.

(** For an FFT size below [2^53] in magnitude, where the float64
    operations of the property are exact, the DC index is [fft_size/2] for
    an even and [(fft_size-1)/2] for an odd size, as the docstring of
    [dc_ind] says; for a positive size it is a subcarrier of the grid. *)
Theorem ResourceGrid_dc_ind_value : forall (A : Type) (self : ResourceGrid A),
    (Z.abs (_fft_size self) < 9007199254740992)%Z ->
    (Z.even (_fft_size self) = true ->
     (2 * ResourceGrid_dc_ind self = _fft_size self)%Z)
    /\ (Z.odd (_fft_size self) = true ->
        (2 * ResourceGrid_dc_ind self = _fft_size self - 1)%Z)
    /\ ((0 < _fft_size self)%Z ->
        (0 <= ResourceGrid_dc_ind self < _fft_size self)%Z).
Proof.
  intros A self _. rewrite dc_ind_half.
  pose proof (Z.div_mod (_fft_size self) 2 ltac:(lia)) as Hdiv.
  pose proof (Z.mod_pos_bound (_fft_size self) 2 ltac:(lia)) as Hb.
  repeat split.
  - intros He. rewrite Zeven_mod in He. apply Z.eqb_eq in He. lia.
  - intros Ho. rewrite Zodd_mod in Ho. apply Z.eqb_eq in Ho. lia.
  - lia.
  - lia.
Qed.

Lemma ResourceGrid_dc_ind_value_witness :
  (2 * ResourceGrid_dc_ind comb_grid = 8)%Z
  /\ (2 * ResourceGrid_dc_ind odd_grid = 3 - 1)%Z.
Proof.
  split.
  - apply (proj1 (@ResourceGrid_dc_ind_value Z comb_grid ltac:(reflexivity))).
    reflexivity.
  - apply (proj1 (proj2 (@ResourceGrid_dc_ind_value Z odd_grid
                           ltac:(reflexivity)))).
    reflexivity.
Defined.

(** ** EmptyPilotPattern *)

Lemma map_constant : forall (T U : Type) (f : T -> U) (v : U) l,
    (forall x, In x l -> f x = v) -> map f l = repeat v (length l).
Proof.
  intros T U f v l Hf. induction l as [|a l IH]; [reflexivity|].
  cbn [map length repeat]. rewrite Hf by (left; reflexivity).
  f_equal. apply IH. intros x Hx. apply Hf. right. exact Hx.
Qed.

Lemma block_full : forall (T : Type) (d : T) ls rest v lead,
    in_bounds lead ls ->
    block d (full (ls ++ rest) v) lead = repeat v (size rest).
Proof.
  intros T d ls rest v lead Hb. unfold block. cbn [shape full].
  assert (Hlen : length lead = length ls) by (eapply Forall2_length; exact Hb).
  rewrite Hlen, skipn_app, skipn_all, Nat.sub_diag. cbn [skipn app].
  rewrite <- (length_indices rest). apply map_constant.
  intros tl Htl. apply get_full. apply in_bounds_app; [exact Hb|].
  apply In_indices. exact Htl.
Qed.

Lemma pair_count_full_false : forall a b c n i j,
    i < a -> j < b -> pair_count (full [a; b; c; n] false) i j = 0%Z.
Proof.
  intros a b c n i j Hi Hj. unfold pair_count.
  change [a; b; c; n] with ([a; b] ++ [c; n]).
  rewrite block_full by (repeat constructor; assumption).
  induction (size [c; n]) as [|k IH]; [reflexivity|]. exact IH.
Qed.

Lemma EmptyPilotPattern_init_positive : forall (A : Type) (D : Dtype A)
    (tx st n neff : Z),
    (0 < tx)%Z -> (0 < st)%Z -> (0 < n)%Z -> (0 < neff)%Z ->
    EmptyPilotPattern_init tx st n neff
    = Ok {| _mask := tf_cast_int32
                       (full [Z.to_nat tx; Z.to_nat st; Z.to_nat n;
                              Z.to_nat neff] false);
            _pilots := full [Z.to_nat tx; Z.to_nat st; 0] zero;
            _normalize := false |}.
Proof.
  intros A D tx st n neff Htx Hst Hn Hneff. unfold EmptyPilotPattern_init.
  apply Z.ltb_lt in Htx, Hst, Hn, Hneff.
  rewrite Htx, Hst, Hn, Hneff. cbn [assert bind].
  apply Z.ltb_lt in Htx, Hst, Hn, Hneff.
  rewrite filled_Ok by (repeat constructor; lia). cbn [bind firstn app].
  rewrite filled_Ok by (repeat constructor; lia). cbn [bind map].
  change (Z.to_nat 0) with 0.
  apply PilotPattern_init_even; try reflexivity.
  - unfold dim. cbn [shape full nth]. lia.
  - unfold dim. cbn [shape full nth]. lia.
  - intros i j Hi Hj. unfold dim in Hi, Hj. cbn [shape full nth] in Hi, Hj.
    apply pair_count_full_false; assumption.
Qed.

(** [EmptyPilotPattern(num_tx, num_streams_per_tx, num_ofdm_symbols,
    num_effective_subcarriers)] is constructed exactly when the four
    extents are positive, and fails with an assertion otherwise.  The
    pattern it makes has no pilot: its mask is zero everywhere, it stores
    no pilot symbol, and every stream has [num_ofdm_symbols *
    num_effective_subcarriers] data symbols. *)
Theorem EmptyPilotPattern_init_spec : forall (A : Type) (D : Dtype A)
    (tx st n neff : Z),
    (succeeds (EmptyPilotPattern_init tx st n neff)
     <-> (0 < tx /\ 0 < st /\ 0 < n /\ 0 < neff)%Z)
    /\ (~ (0 < tx /\ 0 < st /\ 0 < n /\ 0 < neff)%Z ->
        exists msg, EmptyPilotPattern_init tx st n neff
                    = Raise (AssertionError msg))
    /\ (forall p, EmptyPilotPattern_init tx st n neff = Ok p ->
          shape (_mask p) = [Z.to_nat tx; Z.to_nat st; Z.to_nat n;
                             Z.to_nat neff]
          /\ Forall (eq 0%Z) (data (_mask p))
          /\ data (_pilots p) = []
          /\ PilotPattern_num_pilot_symbols p = 0%Z
          /\ PilotPattern_num_data_symbols p = (n * neff)%Z
          /\ PilotPattern_pilots p = _pilots p).
Proof.
  intros A D tx st n neff. split; [|split].
  - split.
    + intros (p & Hp). apply EmptyPilotPattern_init_Ok in Hp. tauto.
    + intros (Htx & Hst & Hn & Hneff). eexists.
      apply EmptyPilotPattern_init_positive; assumption.
  - intros Hneg. unfold EmptyPilotPattern_init.
    destruct (0 <? tx)%Z eqn:E1; [|eexists; reflexivity].
    destruct (0 <? st)%Z eqn:E2; [|eexists; reflexivity].
    destruct (0 <? n)%Z eqn:E3; [|eexists; reflexivity].
    destruct (0 <? neff)%Z eqn:E4; [|eexists; reflexivity].
    apply Z.ltb_lt in E1, E2, E3, E4. tauto.
  - intros p Hp. apply EmptyPilotPattern_init_Ok in Hp.
    destruct Hp as ((Htx & Hst & Hn & Hneff) & -> & _).
    unfold PilotPattern_num_data_symbols, PilotPattern_num_pilot_symbols,
      PilotPattern_pilots, dim_last, dim, rank.
    cbn [_mask _pilots _normalize tf_cast_int32 tmap full shape data last
         length Nat.sub nth size fold_right repeat].
    repeat split; try reflexivity.
    + apply Forall_forall. intros x Hx. apply in_map_iff in Hx.
      destruct Hx as (b & <- & Hb). apply repeat_spec in Hb. subst b.
      reflexivity.
    + replace (Z.to_nat tx * (Z.to_nat st * (0 * 1))) with 0 by lia.
      reflexivity.
    + lia.
Qed.

(** ** Construction of a resource grid *)


(** The [pilot_pattern] argument is examined before the geometry: whatever
    the other arguments are, a string other than "kronecker" and "empty"
    fails with the assertion "Unknown pilot pattern", "kronecker" without
    pilot symbol indices fails with an assertion, and a value that is
    neither [None], a string nor a [PilotPattern] raises [ValueError]. *)
Theorem ResourceGrid_init_pattern_errors : forall (A : Type) (D : Dtype A)
    n f s tx st cp gc dc idx,
    (forall name,
        name <> "kronecker"%string -> name <> "empty"%string ->
        ResourceGrid_init (A := A) n f s tx st cp gc dc (PatternStr name) idx
        = Raise (AssertionError "Unknown pilot pattern"))
    /\ ResourceGrid_init (A := A) n f s tx st cp gc dc
         (PatternStr "kronecker") None
       = Raise (AssertionError "You must provide pilot_ofdm_symbol_indices.")
    /\ ResourceGrid_init (A := A) n f s tx st cp gc dc PatternOther idx
       = Raise (ValueError "Unsupported pilot_pattern").
Proof.
  intros A D n f s tx st cp gc dc idx. repeat split.
  intros name Hk He. unfold ResourceGrid_init, ResourceGrid_set_pilot_pattern.
  apply String.eqb_neq in Hk, He. rewrite Hk, He. reflexivity.
Qed.

(** ** Counting resource elements *)

Lemma tf_cast_int32_scalar_id : forall n : Z,
    (- 2147483648 <= n < 2147483648)%Z -> tf_cast_int32_scalar n = n.
Proof.
  intros n Hn. unfold tf_cast_int32_scalar.
  rewrite Z.mod_small by lia. lia.
Qed.



(** ** The effective subcarriers *)

Lemma effective_subcarrier_value : forall (A : Type) (D : Dtype A)
    (rg : ResourceGrid A) (eff : list Z) e,
    Forall (fun i => 0 <= i < Z.of_nat (grid_fft rg))%Z eff ->
    e < length eff ->
    Z.to_nat (nth e eff 0%Z) = effective_subcarrier rg e ->
    nth e eff 0%Z = Z.of_nat (effective_subcarrier rg e).
Proof.
  intros A D rg eff e Hrange He Hnth.
  assert (Hin : In (nth e eff 0%Z) eff) by (apply nth_In; exact He).
  rewrite Forall_forall in Hrange. apply Hrange in Hin. lia.
Qed.



Lemma In_py_range : forall a b c,
    In c (py_range a b) <-> (a <= c < b)%Z.
Proof.
  intros a b c. unfold py_range. rewrite in_map_iff. split.
  - intros (k & <- & Hk). apply in_seq in Hk. lia.
  - intros Hc. exists (Z.to_nat (c - a)). split; [lia|].
    apply in_seq. lia.
Qed.

Lemma NoDup_py_range : forall a b, NoDup (py_range a b).
Proof.
  intros a b. unfold py_range.
  apply NoDup_map_NoDup_ForallPairs; [|apply seq_NoDup].
  intros x y _ _ Hxy. lia.
Qed.

Lemma In_delete_nth : forall (T : Type) (d : T) (l : list T) p c,
    NoDup l -> p < length l ->
    (In c (firstn p l ++ skipn (S p) l) <-> In c l /\ c <> nth p l d).
Proof.
  intros T d l p c. revert p. induction l as [|a l IH]; intros p Hnd Hp;
    cbn [length] in Hp; [lia|].
  inversion Hnd as [|? ? Hnotin Hnd']; subst.
  destruct p as [|p].
  - cbn [firstn skipn app nth]. split.
    + intros Hin. split; [right; exact Hin|]. intros ->. contradiction.
    + intros ([Heq | Hin] & Hne); [congruence | exact Hin].
  - cbn [firstn skipn app nth]. specialize (IH p Hnd' ltac:(lia)). split.
    + intros [<- | Hin].
      * split; [left; reflexivity|]. intros Heq. apply Hnotin.
        rewrite Heq. apply nth_In. lia.
      * apply IH in Hin. destruct Hin as [Hin Hne].
        split; [right; exact Hin | exact Hne].
    + intros ([<- | Hin] & Hne); [left; reflexivity|].
      right. apply IH. split; assumption.
Qed.



(** ** RemoveNulledSubcarriers *)

Lemma effective_subcarrier_ind_window : forall (A : Type) (D : Dtype A)
    (rg : ResourceGrid A) eff,
    ResourceGrid_check_settings rg = Ok true ->
    ResourceGrid_effective_subcarrier_ind rg = Ok eff ->
    Z.of_nat (length eff) = ResourceGrid_num_effective_subcarriers rg
    /\ Forall (fun i => 0 <= i < _fft_size rg)%Z eff.
Proof.
  intros A D rg eff Hchk Heff.
  pose proof Hchk as Hgp. apply guard_carriers_pair in Hgp.
  destruct Hgp as (g0 & g1 & Hgc & Hg0 & Hg1 & Hsum).
  unfold ResourceGrid_effective_subcarrier_ind in Heff.
  unfold ResourceGrid_num_effective_subcarriers.
  rewrite Hgc in *. cbn [np_sum fold_right].
  change (np_item [g0; g1] 0) with (Ok g0) in Heff.
  change (np_item [g0; g1] 1) with (Ok g1) in Heff.
  cbn [bind] in Heff.
  set (sc := py_range g0 (_fft_size rg - g1)) in *.
  assert (Hlen : length sc = Z.to_nat (_fft_size rg - g1 - g0))
    by (unfold sc; apply py_range_length).
  assert (Hrange : Forall (fun i => 0 <= i < _fft_size rg)%Z sc).
  { apply Forall_forall. intros i Hi. apply In_py_range in Hi. lia. }
  destruct (_dc_null rg); cbn [Z.b2z] in *.
  - unfold np_delete in Heff. apply bind_Ok in Heff.
    destruct Heff as (p & Hp & Heff). injection Heff as <-.
    unfold py_index in Hp.
    destruct ((- Z.of_nat (length sc) <=? _)%Z && _) eqn:E; [|discriminate].
    injection Hp as <-. apply andb_prop in E. destruct E as [E1 E2].
    apply Z.leb_le in E1. apply Z.ltb_lt in E2.
    set (p := Z.to_nat _). assert (Hp : p < length sc).
    { unfold p. destruct (_ <? 0)%Z eqn:E3;
        [apply Z.ltb_lt in E3 | apply Z.ltb_ge in E3]; lia. }
    split.
    + change (match sc with [] => [] | _ :: l => skipn p l end)
        with (skipn (S p) sc).
      rewrite length_app, length_firstn, length_skipn. lia.
    + change (match sc with [] => [] | _ :: l => skipn p l end)
        with (skipn (S p) sc).
      rewrite <- (firstn_skipn p sc) in Hrange.
      apply Forall_app in Hrange. destruct Hrange as [H1 H2].
      apply Forall_app. split; [exact H1|].
      rewrite Forall_forall in H2 |- *. intros i Hi. apply H2.
      change (S p) with (1 + p) in Hi. rewrite <- skipn_skipn in Hi.
      rewrite <- (firstn_skipn 1 (skipn p sc)). apply in_or_app. right.
      exact Hi.
  - injection Heff as <-. split; [lia | exact Hrange].
Qed.

Lemma RemoveNulledSubcarriers_call_entries : forall (A : Type) (D : Dtype A)
    (rg : ResourceGrid A) (eff : list Z) (lead : list nat) (x : tensor A),
    ResourceGrid_check_settings rg = Ok true ->
    ResourceGrid_effective_subcarrier_ind rg = Ok eff ->
    shape x = lead ++ [Z.to_nat (_fft_size rg)] ->
    exists y,
      RemoveNulledSubcarriers_call {| _sc_ind := eff |} x = Ok y
      /\ shape y
         = lead ++ [Z.to_nat (ResourceGrid_num_effective_subcarriers rg)]
      /\ tensor_wf y
      /\ forall i e,
          in_bounds i lead ->
          e < Z.to_nat (ResourceGrid_num_effective_subcarriers rg) ->
          get zero y (i ++ [e])
          = get zero x (i ++ [Z.to_nat (nth e eff 0%Z)]).
Proof.
  intros A D rg eff lead x Hchk Heff Hx.
  destruct (@effective_subcarrier_ind_window A D rg eff Hchk Heff)
    as [Hlen Hrange].
  unfold RemoveNulledSubcarriers_call. cbn [_sc_ind].
  assert (Hrank : rank x - 1 = length lead).
  { unfold rank. rewrite Hx, length_app. cbn [length]. lia. }
  rewrite Hrank.
  destruct (@tf_gather_spec A zero x eff (length lead))
    as (y & Hy & Hsy & Hwf & Hget).
  { unfold rank. rewrite Hx, length_app. cbn [length]. lia. }
  { unfold dim. rewrite Hx, app_nth2, Nat.sub_diag by lia. cbn [nth].
    eapply Forall_impl; [|exact Hrange]. intros i Hi. cbn beta in Hi. lia. }
  exists y. split; [exact Hy|].
  assert (Hshape : shape y = lead ++ [length eff]).
  { rewrite Hsy, Hx, firstn_app, Nat.sub_diag, firstn_all, skipn_app.
    cbn [firstn app]. rewrite app_nil_r.
    rewrite skipn_all2 by lia.
    replace (S (length lead) - length lead) with 1 by lia. reflexivity. }
  assert (Hn : length eff
               = Z.to_nat (ResourceGrid_num_effective_subcarriers rg)) by lia.
  split; [rewrite Hshape, Hn; reflexivity|]. split; [exact Hwf|].
  intros i e Hi He.
  assert (Hli : length i = length lead) by (eapply Forall2_length; exact Hi).
  rewrite Hget.
  - rewrite firstn_app, Hli, Nat.sub_diag, <- Hli, firstn_all.
    cbn [firstn]. rewrite app_nil_r, app_nth2, Nat.sub_diag by lia.
    cbn [nth]. rewrite skipn_all2 by (rewrite length_app; cbn [length]; lia).
    reflexivity.
  - rewrite Hshape. apply in_bounds_app; [exact Hi|].
    apply in_bounds_1. lia.
Qed.



(** ** The type grid, counted and read entry by entry *)

Lemma filter_repeat : forall (T : Type) (f : T -> bool) x n,
    filter f (repeat x n) = if f x then repeat x n else [].
Proof.
  intros T f x n. induction n as [|n IH]; cbn [repeat filter].
  - destruct (f x); reflexivity.
  - rewrite IH. destruct (f x); reflexivity.
Qed.

Lemma length_flat_map_sum : forall (T U : Type) (g : T -> list U) l,
    length (flat_map g l) = list_sum (map (fun x => length (g x)) l).
Proof.
  intros T U g l. induction l as [|a l IH]; [reflexivity|].
  cbn [flat_map map list_sum fold_right]. rewrite length_app, IH.
  reflexivity.
Qed.

Lemma list_sum_constant : forall (T : Type) (g : T -> nat) c l,
    (forall x, In x l -> g x = c) -> list_sum (map g l) = length l * c.
Proof.
  intros T g c l Hg. induction l as [|a l IH]; [reflexivity|].
  cbn [map list_sum fold_right length]. rewrite Hg by (left; reflexivity).
  change (fold_right Nat.add 0 (map g l)) with (list_sum (map g l)).
  rewrite IH by (intros x Hx; apply Hg; right; exact Hx). lia.
Qed.

Lemma list_sum_add : forall (T : Type) (g h : T -> nat) l,
    list_sum (map (fun x => g x + h x) l)
    = list_sum (map g l) + list_sum (map h l).
Proof.
  intros T g h l. induction l as [|a l IH]; [reflexivity|].
  cbn [map list_sum fold_right].
  change (fold_right Nat.add 0 (map (fun x => g x + h x) l))
    with (list_sum (map (fun x => g x + h x) l)).
  change (fold_right Nat.add 0 (map g l)) with (list_sum (map g l)).
  change (fold_right Nat.add 0 (map h l)) with (list_sum (map h l)).
  rewrite IH. lia.
Qed.

Lemma list_sum_ext : forall (T : Type) (g h : T -> nat) l,
    (forall x, In x l -> g x = h x) ->
    list_sum (map g l) = list_sum (map h l).
Proof.
  intros T g h l Hgh. f_equal. apply map_ext_in. exact Hgh.
Qed.

(** The codes of one row of the type grid: the guards, the DC carrier, and
    what the row of the mask holds. *)
Lemma count_type_row : forall (A : Type) (D : Dtype A) (rg : ResourceGrid A)
    (mrow : list Z) v,
    length (filter (Z.eqb v) (type_row rg mrow))
    = (if (v =? 2)%Z
       then Z.to_nat (nth 0 (_num_guard_carriers rg) 0%Z)
            + Z.to_nat (nth 1 (_num_guard_carriers rg) 0%Z)
       else 0)
      + (if (v =? 3)%Z then Z.to_nat (Z.b2z (_dc_null rg)) else 0)
      + length (filter (Z.eqb v) mrow).
Proof.
  intros A D rg mrow v. unfold type_row.
  set (k := py_slice_bound (length mrow) _).
  rewrite !filter_app, !length_app, !filter_repeat.
  rewrite <- (firstn_skipn k mrow) at 3. rewrite filter_app, length_app.
  destruct (v =? 2)%Z; destruct (v =? 3)%Z; rewrite ?repeat_length;
    cbn [length]; lia.
Qed.

Lemma filter_eqb_binary : forall (l : list Z) v,
    Forall (fun x => In x [0; 1]%Z) l -> v <> 0%Z -> v <> 1%Z ->
    filter (Z.eqb v) l = [].
Proof.
  intros l v Hl H0 H1. apply filter_none. intros x Hx.
  rewrite Forall_forall in Hl. apply Hl in Hx. apply Z.eqb_neq.
  cbn [In] in Hx. lia.
Qed.

Lemma count_positions : forall (l : list Z) v,
    length (filter (Z.eqb v) l) = length (positions v l).
Proof.
  intros l v. rewrite positions_count. f_equal. apply filter_ext.
  intros x. apply Z.eqb_sym.
Qed.

Section TypeGridCounts.
Context {A : Type} {D : Dtype A}.
Variable rg : ResourceGrid A.
Hypothesis Hchk : ResourceGrid_check_settings rg = Ok true.
Hypothesis Hfits : mask_fits rg.
Variable tg : tensor Z.
Hypothesis Htg :
  shape tg = [grid_tx rg; grid_streams rg; grid_symbols rg; grid_fft rg].
Hypothesis Hrows : forall i j s,
    i < grid_tx rg -> j < grid_streams rg -> s < grid_symbols rg ->
    row 0%Z tg [i; j; s]
    = type_row rg (row 0%Z (_mask (_pilot_pattern rg)) [i; j; s]).

Lemma count_type_block : forall i j v,
    i < grid_tx rg -> j < grid_streams rg ->
    count_type tg i j v
    = grid_symbols rg
      * ((if (v =? 2)%Z
          then Z.to_nat (nth 0 (_num_guard_carriers rg) 0%Z)
               + Z.to_nat (nth 1 (_num_guard_carriers rg) 0%Z)
          else 0)
         + (if (v =? 3)%Z then Z.to_nat (Z.b2z (_dc_null rg)) else 0))
      + length (filter (Z.eqb v) (block 0%Z (_mask (_pilot_pattern rg)) [i; j])).
Proof.
  intros i j v Hi Hj. unfold count_type.
  rewrite (@block_rows Z 0%Z tg _ _ _ _ i j Htg).
  rewrite (@block_rows Z 0%Z (_mask (_pilot_pattern rg)) _ _ _ _ i j
             (mask_shape4 Hfits)).
  rewrite !filter_flat_map, !length_flat_map_sum.
  rewrite (@list_sum_ext _ _
             (fun s => ((if (v =? 2)%Z
                         then Z.to_nat (nth 0 (_num_guard_carriers rg) 0%Z)
                              + Z.to_nat (nth 1 (_num_guard_carriers rg) 0%Z)
                         else 0)
                        + (if (v =? 3)%Z
                           then Z.to_nat (Z.b2z (_dc_null rg)) else 0))
                       + length (filter (Z.eqb v)
                                   (row 0%Z (_mask (_pilot_pattern rg))
                                        [i; j; s])))).
  - rewrite list_sum_add. f_equal.
    rewrite (@list_sum_constant _ _ _ _ (fun x _ => eq_refl)).
    rewrite length_seq. reflexivity.
  - intros s Hs. apply in_seq in Hs. rewrite Hrows by lia.
    apply count_type_row.
Qed.

End TypeGridCounts.

Lemma constructed_pattern_fits : forall (A : Type) (D : Dtype A)
    n f s tx st cp gc dc (pp : pilot_pattern_arg A) idx (rg : ResourceGrid A),
    ResourceGrid_init n f s tx st cp gc dc pp idx = Ok rg ->
    (forall p, pp = PatternInstance p ->
       mask_fits rg
       /\ PilotPattern_check_settings (_pilot_pattern rg) = Ok true) ->
    mask_fits rg /\ PilotPattern_check_settings (_pilot_pattern rg) = Ok true.
Proof.
  intros A D n f s tx st cp gc dc pp idx rg Hinit Hsup.
  destruct pp as [| name | p |];
    try (apply (Hsup p); reflexivity);
    (eapply setter_pattern_fits; [exact Hinit | intros p; discriminate]).
Qed.

Lemma mask_count : forall (A : Type) (D : Dtype A) (rg : ResourceGrid A)
    v i j,
    mask_fits rg ->
    length (filter (Z.eqb v) (block 0%Z (_mask (_pilot_pattern rg)) [i; j]))
    = length (mask_positions (_mask (_pilot_pattern rg)) v i j).
Proof.
  intros A D rg v i j Hfits. rewrite count_positions.
  rewrite (@mask_positions_block (_mask (_pilot_pattern rg)) v i j _ _ _ _
             (mask_shape4 Hfits)).
  apply length_map.
Qed.

(** In the type grid of a constructed grid (whose pattern, if supplied by
    the caller, has the extents of the grid and passes its own check) every
    transmitter and stream has [num_data_symbols] data elements,
    [num_pilot_symbols] pilot elements, one guard element per guard carrier
    and symbol, and one DC element per symbol if the DC carrier is nulled;
    [num_zero_symbols] is the number of guard and DC elements together,
    reduced to 32 bits. *)
Theorem build_type_grid_counts : forall (A : Type) (D : Dtype A)
    n f s tx st cp gc dc (pp : pilot_pattern_arg A) idx (rg : ResourceGrid A),
    ResourceGrid_init n f s tx st cp gc dc pp idx = Ok rg ->
    (forall p, pp = PatternInstance p ->
       mask_fits rg
       /\ PilotPattern_check_settings (_pilot_pattern rg) = Ok true) ->
    exists tg,
      ResourceGrid_build_type_grid rg = Ok tg
      /\ forall i j, i < grid_tx rg -> j < grid_streams rg ->
           Z.of_nat (count_type tg i j 0) = ResourceGrid_num_data_symbols rg
           /\ Z.of_nat (count_type tg i j 1)
              = ResourceGrid_num_pilot_symbols rg
           /\ Z.of_nat (count_type tg i j 2) = (np_sum gc * n)%Z
           /\ Z.of_nat (count_type tg i j 3) = (Z.b2z dc * n)%Z
           /\ ResourceGrid_num_zero_symbols rg
              = tf_cast_int32_scalar
                  (Z.of_nat (count_type tg i j 2 + count_type tg i j 3)).
Proof.
  intros A D n f s tx st cp gc dc pp idx rg Hinit Hsup.
  destruct (@constructed_pattern_fits A D n f s tx st cp gc dc pp idx rg
              Hinit Hsup) as [Hfits Hpp].
  apply ResourceGrid_init_Ok in Hinit.
  destruct Hinit as (Hchk & Hn & Hf & _ & _ & _ & _ & Hgc & Hdc & _).
  destruct (build_type_grid_rows Hchk Hfits)
    as (tg & Hbuild & Htg & _ & Hrows).
  pose proof Hchk as Hgp. apply guard_carriers_pair in Hgp.
  destruct Hgp as (g0 & g1 & Hgc' & Hg0 & Hg1 & Hsum).
  pose proof Hchk as Hpos. apply ResourceGrid_check_settings_Ok in Hpos.
  destruct Hpos as ((Hn' & _) & _).
  pose proof (pilots_le Hchk Hfits Hpp) as Hle.
  pose proof (grid_num_data_symbols Hchk Hfits Hpp) as Hnd.
  assert (Hnd0 : (0 <= ResourceGrid_num_data_symbols rg)%Z).
  { unfold ResourceGrid_num_data_symbols, ResourceGrid_num_pilot_symbols,
      PilotPattern_num_pilot_symbols.
    unfold grid_symbols, grid_subcarriers in Hle.
    assert (Hne : (0 <= ResourceGrid_num_effective_subcarriers rg)%Z).
    { unfold ResourceGrid_num_effective_subcarriers. rewrite Hgc'.
      cbn [np_sum fold_right]. lia. }
    apply Nat2Z.inj_le in Hle. rewrite Nat2Z.inj_mul, !Z2Nat.id in Hle by lia.
    lia. }
  exists tg. split; [exact Hbuild|]. intros i j Hi Hj.
  rewrite !(@count_type_block A D rg Hfits tg Htg Hrows) by assumption.
  rewrite (@filter_eqb_binary (block 0%Z (_mask (_pilot_pattern rg)) [i; j])
             2%Z) by (try apply (block_binary Hfits); discriminate).
  rewrite (@filter_eqb_binary (block 0%Z (_mask (_pilot_pattern rg)) [i; j])
             3%Z) by (try apply (block_binary Hfits); discriminate).
  rewrite !(@mask_count A D rg) by exact Hfits.
  rewrite (@data_count A D rg Hfits Hpp i j Hi Hj).
  rewrite (@pilot_count A D rg Hfits Hpp i j Hi Hj).
  cbn [Z.eqb Pos.eqb length].
  unfold ResourceGrid_num_zero_symbols, ResourceGrid_num_pilot_symbols,
    PilotPattern_num_pilot_symbols, ResourceGrid_num_effective_subcarriers.
  rewrite <- Hgc, <- Hdc, <- Hn, Hgc'. cbn [nth np_sum fold_right].
  unfold grid_symbols.
  assert (Hb : (0 <= Z.b2z (_dc_null rg))%Z)
    by (destruct (_dc_null rg); cbn [Z.b2z]; lia).
  unfold grid_symbols in Hnd. rewrite <- Hnd.
  split; [lia|]. split; [lia|]. split; [nia|]. split; [nia|].
  f_equal. nia.
Qed.

Lemma build_type_grid_counts_witness :
  exists tg,
    ResourceGrid_build_type_grid comb_grid = Ok tg
    /\ Z.of_nat (count_type tg 0 0 0) = ResourceGrid_num_data_symbols comb_grid
    /\ Z.of_nat (count_type tg 0 0 1)
       = ResourceGrid_num_pilot_symbols comb_grid.
Proof.
  destruct (@build_type_grid_counts Z int_dtype 2 8 (15000 # 1) 2 1 0
              [1; 2]%Z true (PatternStr "kronecker") (Some [1%Z]) comb_grid
              comb_grid_constructed) as (tg & Hbuild & Hcount).
  - intros p. discriminate.
  - exists tg. split; [exact Hbuild|].
    destruct (Hcount 0 0) as (H0 & H1 & _); [vm_compute; lia ..|].
    split; assumption.
Defined.

Lemma nth_app_repeat : forall (T : Type) (P : list T) x r c d,
    length P <= c -> c < length P + r -> nth c (P ++ repeat x r) d = x.
Proof.
  intros T P x r c d Hle Hlt. rewrite app_nth2 by exact Hle.
  apply nth_repeat_lt. lia.
Qed.

Lemma type_row_length : forall (A : Type) (D : Dtype A) (rg : ResourceGrid A)
    (mrow : list Z),
    length (type_row rg mrow)
    = Z.to_nat (nth 0 (_num_guard_carriers rg) 0%Z) + length mrow
      + Z.to_nat (Z.b2z (_dc_null rg))
      + Z.to_nat (nth 1 (_num_guard_carriers rg) 0%Z).
Proof.
  intros A D rg mrow. unfold type_row.
  set (k := py_slice_bound (length mrow) _).
  rewrite !length_app, !repeat_length.
  rewrite <- (firstn_skipn k mrow) at 3. rewrite length_app. lia.
Qed.

Lemma type_row_guards : forall (A : Type) (D : Dtype A) (rg : ResourceGrid A)
    (mrow : list Z) c,
    c < Z.to_nat (nth 0 (_num_guard_carriers rg) 0%Z)
    \/ (Z.to_nat (nth 0 (_num_guard_carriers rg) 0%Z) + length mrow
        + Z.to_nat (Z.b2z (_dc_null rg)) <= c
        < length (type_row rg mrow)) ->
    nth c (type_row rg mrow) 0%Z = 2%Z.
Proof.
  intros A D rg mrow c Hc. pose proof (@type_row_length A D rg mrow) as Hlen.
  unfold type_row in *. set (k := py_slice_bound (length mrow) _) in *.
  destruct Hc as [Hc | Hc].
  - rewrite app_nth1 by (rewrite repeat_length; exact Hc).
    apply nth_repeat_lt. exact Hc.
  - rewrite !app_assoc in *. rewrite length_app, repeat_length in Hlen, Hc.
    apply nth_app_repeat; lia.
Qed.

Lemma type_row_dc : forall (A : Type) (D : Dtype A) (rg : ResourceGrid A)
    (mrow : list Z),
    _dc_null rg = true ->
    (0 <= ResourceGrid_dc_ind rg - nth 0 (_num_guard_carriers rg) 0
     <= Z.of_nat (length mrow))%Z ->
    (0 <= nth 0 (_num_guard_carriers rg) 0)%Z ->
    nth (Z.to_nat (ResourceGrid_dc_ind rg)) (type_row rg mrow) 0%Z = 3%Z.
Proof.
  intros A D rg mrow Hnull Hk Hg0. unfold type_row.
  rewrite py_slice_bound_inside by exact Hk. rewrite Hnull.
  rewrite app_assoc.
  rewrite app_nth2;
    rewrite length_app, repeat_length, length_firstn; [|lia].
  replace (Z.to_nat (ResourceGrid_dc_ind rg) - _) with 0 by lia.
  reflexivity.
Qed.

Lemma type_row_mask : forall (A : Type) (D : Dtype A) (rg : ResourceGrid A)
    (mrow : list Z) e,
    ResourceGrid_check_settings rg = Ok true ->
    dc_inside rg ->
    Forall (fun v => In v [0; 1]%Z) mrow ->
    length mrow = grid_subcarriers rg ->
    e < grid_subcarriers rg ->
    nth (effective_subcarrier rg e) (type_row rg mrow) 0%Z = nth e mrow 0%Z.
Proof.
  intros A D rg mrow e Hchk Hdc Hbin Hlen He.
  set (v := nth e mrow 0%Z).
  assert (Hv : In v [0; 1]%Z).
  { rewrite Forall_forall in Hbin. apply Hbin. apply nth_In. lia. }
  assert (Hpos : In e (positions v mrow)).
  { unfold positions. apply filter_In. split; [apply in_seq; lia|].
    apply Z.eqb_eq. reflexivity. }
  apply (in_map (effective_subcarrier rg)) in Hpos.
  rewrite <- (type_row_positions Hchk Hdc) in Hpos;
    [| cbn [In] in Hv; lia | cbn [In] in Hv; lia | exact Hlen].
  apply positions_value in Hpos. exact Hpos.
Qed.

(** The type grid of a constructed grid (whose pattern, if supplied by the
    caller, has a mask with the extents of the grid), entry by entry: the
    subcarriers below the left guard count and from [fft_size] minus the
    right guard count on are guards; and if the DC carrier, when nulled,
    lies between the guard bands, the DC index has code 3 and the [e]-th
    effective subcarrier has the code that the mask holds at [e]. *)
Theorem build_type_grid_entries : forall (A : Type) (D : Dtype A)
    n f sp tx st cp gc dc (pp : pilot_pattern_arg A) idx (rg : ResourceGrid A),
    ResourceGrid_init n f sp tx st cp gc dc pp idx = Ok rg ->
    (forall p, pp = PatternInstance p -> mask_fits rg) ->
    exists tg,
      ResourceGrid_build_type_grid rg = Ok tg
      /\ forall i j s,
          i < grid_tx rg -> j < grid_streams rg -> s < grid_symbols rg ->
          (forall c, c < grid_fft rg ->
                     (Z.of_nat c < nth 0 gc 0
                      \/ f - nth 1 gc 0 <= Z.of_nat c)%Z ->
                     get 0%Z tg [i; j; s; c] = 2%Z)
          /\ (dc_inside rg ->
              (dc = true ->
               get 0%Z tg [i; j; s; Z.to_nat (ResourceGrid_dc_ind rg)] = 3%Z)
              /\ forall e, e < grid_subcarriers rg ->
                   get 0%Z tg [i; j; s; effective_subcarrier rg e]
                   = get 0%Z (_mask (_pilot_pattern rg)) [i; j; s; e]).
Proof.
  intros A D n f sp tx st cp gc dc pp idx rg Hinit Hsup.
  assert (Hfits : mask_fits rg).
  { destruct pp as [| name | p |];
      try (apply (Hsup p); reflexivity);
      (eapply setter_pattern_fits; [exact Hinit | intros p; discriminate]). }
  apply ResourceGrid_init_Ok in Hinit.
  destruct Hinit as (Hchk & _ & Hf & _ & _ & _ & _ & Hgc & Hdc & _).
  destruct (build_type_grid_rows Hchk Hfits)
    as (tg & Hbuild & Htg & _ & Hrows).
  pose proof Hchk as Hgp. apply guard_carriers_pair in Hgp.
  destruct Hgp as (g0 & g1 & Hgc' & Hg0 & Hg1 & Hsum).
  pose proof Hchk as Hpos. apply ResourceGrid_check_settings_Ok in Hpos.
  destruct Hpos as ((_ & Hf' & _) & _).
  assert (Hb : (0 <= Z.b2z (_dc_null rg) <= 1)%Z)
    by (destruct (_dc_null rg); cbn [Z.b2z]; lia).
  assert (Hneff : grid_subcarriers rg
                  = Z.to_nat (_fft_size rg - Z.b2z (_dc_null rg) - (g0 + g1))).
  { unfold grid_subcarriers, ResourceGrid_num_effective_subcarriers.
    rewrite Hgc'. cbn [np_sum fold_right]. f_equal. lia. }
  exists tg. split; [exact Hbuild|]. intros i j s Hi Hj Hs.
  set (mrow := row 0%Z (_mask (_pilot_pattern rg)) [i; j; s]).
  assert (Hmlen : length mrow = grid_subcarriers rg).
  { unfold mrow. rewrite length_row. unfold dim_last.
    rewrite (mask_shape4 Hfits). reflexivity. }
  assert (Hlast : dim_last tg = grid_fft rg)
    by (unfold dim_last; rewrite Htg; reflexivity).
  assert (Hget : forall c, c < grid_fft rg ->
             get 0%Z tg [i; j; s; c] = nth c (type_row rg mrow) 0%Z).
  { intros c Hc. unfold mrow. rewrite <- Hrows by assumption.
    rewrite nth_row by (rewrite Hlast; exact Hc). reflexivity. }
  pose proof (@type_row_length A D rg mrow) as Hlen.
  rewrite Hgc', Hmlen, Hneff in Hlen. cbn [nth] in Hlen.
  split.
  - intros c Hc Hguard. rewrite Hget by exact Hc.
    rewrite <- Hgc, Hgc' in Hguard. cbn [nth] in Hguard.
    unfold grid_fft in Hc.
    apply type_row_guards. rewrite Hgc', Hmlen, Hneff, Hlen. cbn [nth]. lia.
  - intros Hin. pose proof Hin as Hin'. unfold dc_inside in Hin'.
    rewrite Hgc' in Hin'. cbn [nth] in Hin'. split.
    + intros Hnull. rewrite <- Hdc in Hnull. specialize (Hin' Hnull).
      rewrite Hget by (unfold grid_fft; lia).
      apply type_row_dc; [exact Hnull | | rewrite Hgc'; exact Hg0].
      rewrite Hgc', Hmlen, Hneff. cbn [nth]. lia.
    + intros e He.
      destruct (effective_subcarrier_ind_Ok Hchk Hin)
        as (eff & _ & Hefflen & Heffrange & Heffnth).
      assert (Hc : effective_subcarrier rg e < grid_fft rg).
      { rewrite <- Heffnth by exact He.
        assert (Hmem : In (nth e eff 0%Z) eff)
          by (apply nth_In; rewrite Hefflen; exact He).
        rewrite Forall_forall in Heffrange. apply Heffrange in Hmem. lia. }
      rewrite Hget by exact Hc.
      rewrite type_row_mask; try assumption.
      * unfold mrow. apply nth_row. unfold dim_last.
        rewrite (mask_shape4 Hfits). exact He.
      * apply Forall_forall. intros v Hv. unfold mrow, row in Hv.
        apply in_map_iff in Hv. destruct Hv as (c & <- & _).
        apply (mask_binary Hfits).
Qed.

Lemma build_type_grid_entries_witness :
  exists tg,
    ResourceGrid_build_type_grid comb_grid = Ok tg
    /\ get 0%Z tg [0; 0; 0; 0] = 2%Z
    /\ get 0%Z tg [0; 0; 0; 4] = 3%Z.
Proof.
  destruct (@build_type_grid_entries Z int_dtype 2 8 (15000 # 1) 2 1 0
              [1; 2]%Z true (PatternStr "kronecker") (Some [1%Z]) comb_grid
              comb_grid_constructed) as (tg & Hbuild & Hent).
  - intros p. discriminate.
  - exists tg. split; [exact Hbuild|].
    destruct (Hent 0 0 0) as (Hguard & Hdc); [vm_compute; lia ..|].
    split.
    + apply Hguard; [vm_compute; lia | left; reflexivity].
    + apply Hdc; [|reflexivity]. intros _. vm_compute.
      split; [discriminate | reflexivity].
Defined.

(** ** The index lists of the mapper, counted *)

Lemma tf_where_stream_count : forall (tg : tensor Z) v a b c n cnt,
    shape tg = [a; b; c; n] ->
    (forall i j, i < a -> j < b -> count_type tg i j v = cnt) ->
    length (tf_where tg v) = a * (b * cnt).
Proof.
  intros tg v a b c n cnt Hs Hcnt. unfold tf_where. rewrite Hs.
  rewrite filter_indices_cons. apply length_flat_map_uniform. intros i Hi.
  rewrite length_map, filter_indices_cons.
  apply length_flat_map_uniform. intros j Hj. rewrite length_map.
  rewrite <- (Hcnt i j Hi Hj). unfold count_type, block.
  rewrite Hs. cbn [length skipn]. rewrite filter_map_swap, length_map.
  f_equal. apply filter_ext. intros tl. apply Z.eqb_sym.
Qed.

Lemma tf_where_disjoint : forall (tg : tensor Z) v w idx,
    v <> w -> In idx (tf_where tg v) -> ~ In idx (tf_where tg w).
Proof.
  intros tg v w idx Hvw Hv Hw. unfold tf_where in Hv, Hw.
  apply filter_In in Hv, Hw. destruct Hv as [_ Hv]. destruct Hw as [_ Hw].
  apply Z.eqb_eq in Hv, Hw. congruence.
Qed.

Section StreamCounts.
Context {A : Type} {D : Dtype A}.
Variable rg : ResourceGrid A.
Hypothesis Hchk : ResourceGrid_check_settings rg = Ok true.
Hypothesis Hfits : mask_fits rg.
Hypothesis Hpp : PilotPattern_check_settings (_pilot_pattern rg) = Ok true.
Variable tg : tensor Z.
Hypothesis Htg :
  shape tg = [grid_tx rg; grid_streams rg; grid_symbols rg; grid_fft rg].
Hypothesis Hrows : forall i j s,
    i < grid_tx rg -> j < grid_streams rg -> s < grid_symbols rg ->
    row 0%Z tg [i; j; s]
    = type_row rg (row 0%Z (_mask (_pilot_pattern rg)) [i; j; s]).

Lemma count_type_data : forall i j,
    i < grid_tx rg -> j < grid_streams rg ->
    count_type tg i j 0
    = grid_symbols rg * grid_subcarriers rg
      - dim_last (_pilots (_pilot_pattern rg)).
Proof.
  intros i j Hi Hj.
  rewrite (@count_type_block A D rg Hfits tg Htg Hrows) by assumption.
  rewrite (@mask_count A D rg) by exact Hfits.
  rewrite (@data_count A D rg Hfits Hpp i j Hi Hj).
  cbn [Z.eqb]. lia.
Qed.

Lemma count_type_pilot : forall i j,
    i < grid_tx rg -> j < grid_streams rg ->
    count_type tg i j 1 = dim_last (_pilots (_pilot_pattern rg)).
Proof.
  intros i j Hi Hj.
  rewrite (@count_type_block A D rg Hfits tg Htg Hrows) by assumption.
  rewrite (@mask_count A D rg) by exact Hfits.
  rewrite (@pilot_count A D rg Hfits Hpp i j Hi Hj).
  cbn [Z.eqb Pos.eqb]. lia.
Qed.

End StreamCounts.

(** The mapper of a constructed grid (whose pattern, if supplied by the
    caller, has the extents of the grid and passes its own check) can be
    built.  Its list of data positions has [num_data_symbols] entries for
    every transmitter and stream, its list of pilot positions
    [num_pilot_symbols]; neither list repeats a position, the two have no
    position in common, and all positions are inside the grid. *)
Theorem ResourceGridMapper_init_indices : forall (A : Type) (D : Dtype A)
    n f s tx st cp gc dc (pp : pilot_pattern_arg A) idx (rg : ResourceGrid A),
    ResourceGrid_init n f s tx st cp gc dc pp idx = Ok rg ->
    (forall p, pp = PatternInstance p ->
       mask_fits rg
       /\ PilotPattern_check_settings (_pilot_pattern rg) = Ok true) ->
    exists m,
      ResourceGridMapper_init rg = Ok m
      /\ mapper_resource_grid m = rg
      /\ Z.of_nat (length (mapper_data_ind m))
         = (tx * st * ResourceGrid_num_data_symbols rg)%Z
      /\ Z.of_nat (length (_pilot_ind m))
         = (tx * st * ResourceGrid_num_pilot_symbols rg)%Z
      /\ NoDup (mapper_data_ind m) /\ NoDup (_pilot_ind m)
      /\ (forall pos, In pos (mapper_data_ind m) -> ~ In pos (_pilot_ind m))
      /\ Forall (fun pos => in_bounds pos [Z.to_nat tx; Z.to_nat st;
                                           Z.to_nat n; Z.to_nat f])
                (mapper_data_ind m ++ _pilot_ind m).
Proof.
  intros A D n f s tx st cp gc dc pp idx rg Hinit Hsup.
  destruct (@constructed_pattern_fits A D n f s tx st cp gc dc pp idx rg
              Hinit Hsup) as [Hfits Hpp].
  apply ResourceGrid_init_Ok in Hinit.
  destruct Hinit as (Hchk & Hn & Hf & _ & _ & Htx & Hst & _).
  destruct (build_type_grid_rows Hchk Hfits)
    as (tg & Hbuild & Htg & _ & Hrows).
  pose proof Hchk as Hpos. apply ResourceGrid_check_settings_Ok in Hpos.
  destruct Hpos as ((_ & _ & _ & Htx' & Hst') & _).
  pose proof (@pilots_le A D rg Hchk Hfits Hpp) as Hle.
  pose proof (@grid_num_data_symbols A D rg Hchk Hfits Hpp) as Hnd.
  unfold ResourceGridMapper_init. rewrite Hbuild. cbn [bind].
  eexists. split; [reflexivity|].
  cbn [mapper_resource_grid mapper_data_ind _pilot_ind].
  split; [reflexivity|].
  rewrite (@tf_where_stream_count tg 0%Z _ _ _ _ _ Htg
             (@count_type_data A D rg Hfits Hpp tg Htg Hrows)).
  rewrite (@tf_where_stream_count tg 1%Z _ _ _ _ _ Htg
             (@count_type_pilot A D rg Hfits Hpp tg Htg Hrows)).
  rewrite <- Hnd. unfold grid_tx, grid_streams.
  unfold ResourceGrid_num_pilot_symbols, PilotPattern_num_pilot_symbols.
  assert (Hnd0 : (0 <= ResourceGrid_num_data_symbols rg)%Z).
  { destruct (Z_le_gt_dec 0 (ResourceGrid_num_data_symbols rg)) as [|Hneg];
      [assumption|].
    unfold ResourceGrid_num_data_symbols, ResourceGrid_num_pilot_symbols,
      PilotPattern_num_pilot_symbols in Hneg.
    unfold grid_symbols, grid_subcarriers in Hle.
    pose proof Hchk as Hgp. apply guard_carriers_pair in Hgp.
    destruct Hgp as (g0 & g1 & Hgc' & Hg0 & Hg1 & Hsum).
    apply ResourceGrid_check_settings_Ok in Hchk.
    destruct Hchk as ((Hn' & _) & _).
    assert (Hne : (0 <= ResourceGrid_num_effective_subcarriers rg)%Z).
    { unfold ResourceGrid_num_effective_subcarriers. rewrite Hgc'.
      cbn [np_sum fold_right]. lia. }
    apply Nat2Z.inj_le in Hle. rewrite Nat2Z.inj_mul, !Z2Nat.id in Hle by lia.
    lia. }
  rewrite <- Htx, <- Hst, <- Hn, <- Hf.
  repeat split.
  - rewrite !Nat2Z.inj_mul, !Z2Nat.id by lia. lia.
  - rewrite !Nat2Z.inj_mul, !Z2Nat.id by lia. lia.
  - apply tf_where_NoDup.
  - apply tf_where_NoDup.
  - intros pos. apply tf_where_disjoint. discriminate.
  - apply Forall_app. split;
      (eapply Forall_impl; [|apply tf_where_bounds]);
      intros pos Hb; cbn beta in Hb; rewrite Htg in Hb; exact Hb.
Qed.

Lemma ResourceGridMapper_init_indices_witness :
  exists m,
    ResourceGridMapper_init comb_grid = Ok m
    /\ Z.of_nat (length (mapper_data_ind m))
       = (2 * 1 * ResourceGrid_num_data_symbols comb_grid)%Z.
Proof.
  destruct (@ResourceGridMapper_init_indices Z int_dtype 2 8 (15000 # 1)
              2 1 0 [1; 2]%Z true (PatternStr "kronecker") (Some [1%Z])
              comb_grid comb_grid_constructed) as (m & Hm & _ & Hlen & _).
  - intros p. discriminate.
  - exists m. split; assumption.
Defined.

(** ** The demapper on an arbitrary grid *)

Section DemapperReads.
Context {A : Type} {D : Dtype A}.
Variable rg : ResourceGrid A.
Hypothesis Hchk : ResourceGrid_check_settings rg = Ok true.
Hypothesis Hfits : mask_fits rg.
Hypothesis Hpp : PilotPattern_check_settings (_pilot_pattern rg) = Ok true.
Hypothesis Hdc : dc_inside rg.

Local Notation "'mask'" := (_mask (_pilot_pattern rg)).
Local Notation "'pilots'" := (_pilots (_pilot_pattern rg)).
Local Notation "'tx'" := (grid_tx rg).
Local Notation "'st'" := (grid_streams rg).
Local Notation "'sym'" := (grid_symbols rg).
Local Notation "'neff'" := (grid_subcarriers rg).
Local Notation "'fft'" := (grid_fft rg).
Local Notation "'nd'" := (sym * neff - dim_last pilots).

Lemma demapper_reads : forall B (y : tensor A),
    shape y = [B; tx; st; sym; fft] ->
    exists dm r,
      ResourceGridDemapper_init rg
        (identity_streams (_num_tx rg) (_num_streams_per_tx rg)) = Ok dm
      /\ ResourceGridDemapper_call dm y = Ok r
      /\ shape r = [B; tx; st; nd]
      /\ tensor_wf r
      /\ forall b i j m, b < B -> i < tx -> j < st -> m < nd ->
           In (nth m (mask_positions mask 0 i j) (0, 0))
              (mask_positions mask 0 i j)
           /\ get zero r [b; i; j; m]
              = get zero y
                  (b :: grid_position rg i j
                          (nth m (mask_positions mask 0 i j) (0, 0))).
Proof.
  intros B y Hy.
  pose proof Hchk as Hpos. apply ResourceGrid_check_settings_Ok in Hpos.
  destruct Hpos as ((_ & _ & _ & Htx & Hst) & _).
  destruct (effective_subcarrier_ind_Ok Hchk Hdc)
    as (eff & Heff & Hefflen & Heffrange & Heffnth).
  set (sm := identity_streams (_num_tx rg) (_num_streams_per_tx rg)).
  destruct (ResourceGridDemapper_init_entries Hchk Hfits Hpp sm)
    as (dind & Hdinit & Hdshape & Hdwf & Hdrange & Hdent).
  assert (Hntx : num_tx sm = Z.of_nat tx)
    by (unfold sm, identity_streams, grid_tx; cbn [num_tx]; lia).
  assert (Hnst : num_streams_per_tx sm = Z.of_nat st)
    by (unfold sm, identity_streams, grid_streams;
        cbn [num_streams_per_tx]; lia).
  destruct (@ResourceGridDemapper_call_entries A D rg sm dind B tx st sym fft
              neff nd eff Heff Hefflen Heffrange
              (@identity_streams_table A rg Hchk) Hntx Hnst Hdshape Hdrange Hdwf
              y Hy) as (r & Hr & Hrs & Hrwf & Hrent).
  eexists. exists r. split; [exact Hdinit|]. split; [exact Hr|].
  split; [exact Hrs|]. split; [exact Hrwf|].
  intros b i j m Hb Hi Hj Hm.
  pose proof (@data_count A D rg Hfits Hpp i j Hi Hj) as Hcnt.
  assert (Hse : In (nth m (mask_positions mask 0 i j) (0, 0))
                   (mask_positions mask 0 i j))
    by (apply nth_In; rewrite Hcnt; exact Hm).
  split; [exact Hse|].
  rewrite Hrent by assumption. rewrite Hdent by assumption.
  destruct (nth m (mask_positions mask 0 i j) (0, 0)) as [s e].
  apply (@mask_positions_bounds _ _ _ _ _ _ _ _ _ _ (mask_shape4 Hfits)) in Hse.
  destruct Hse as [Hs He]. cbn [fst snd]. unfold grid_position.
  cbn [fst snd].
  assert (Hdiv : (s * neff + e) / neff = s)
    by (symmetry; apply (Nat.div_unique _ _ _ e); lia).
  assert (Hmod : (s * neff + e) mod neff = e)
    by (symmetry; apply (Nat.mod_unique _ _ s); lia).
  rewrite Hdiv, Hmod, Heffnth by exact He. reflexivity.
Qed.

End DemapperReads.



(** ** The mapper: pilots and empty resource elements *)

Lemma index_of_None : forall idx l, ~ In idx l -> index_of idx l = None.
Proof.
  intros idx l. induction l as [|a l IH]; intros Hnot; [reflexivity|].
  cbn [index_of]. destruct (list_eqb idx a) eqn:E.
  - apply list_eqb_eq in E. subst a. exfalso. apply Hnot. left. reflexivity.
  - rewrite IH; [reflexivity|]. intros Hin. apply Hnot. right. exact Hin.
Qed.

Lemma filter_combine_none : forall (T : Type) idx (ind : list (list nat))
    (l : list T),
    ~ In idx ind ->
    filter (fun p => list_eqb idx (fst p)) (combine ind l) = [].
Proof.
  intros T idx ind l Hnot. apply filter_none. intros [a u] Hin.
  apply in_combine_l in Hin. cbn [fst].
  destruct (list_eqb idx a) eqn:E; [|reflexivity].
  apply list_eqb_eq in E. subst a. contradiction.
Qed.

Lemma filter_combine_one : forall (T : Type) (d : T) (ind : list (list nat))
    (l : list T) q,
    NoDup ind -> q < length ind -> length l = length ind ->
    filter (fun p => list_eqb (nth q ind []) (fst p)) (combine ind l)
    = [(nth q ind [], nth q l d)].
Proof.
  intros T d ind. induction ind as [|a ind IH]; intros l q Hnd Hq Hlen;
    cbn [length] in Hq; [lia|].
  destruct l as [|u l]; [discriminate|]. cbn [length] in Hlen.
  inversion Hnd as [|? ? Hnotin Hnd']; subst.
  destruct q as [|q]; cbn [nth combine filter fst].
  - rewrite list_eqb_refl. f_equal. apply filter_combine_none. exact Hnotin.
  - destruct (list_eqb (nth q ind []) a) eqn:E.
    + apply list_eqb_eq in E. exfalso. apply Hnotin. rewrite <- E.
      apply nth_In. lia.
    + apply IH; [exact Hnd' | lia | lia].
Qed.

Lemma tf_scatter_nd_entries : forall (T : Type) (z : T) (f : T -> T -> T)
    (ind : list (list nat)) (updates : tensor T) (s : list nat),
    s <> [] ->
    shape updates = [length ind] ->
    Forall (fun idx => in_bounds idx s) ind ->
    exists r,
      tf_scatter_nd z f ind updates s = Ok r
      /\ shape r = s
      /\ forall idx, in_bounds idx s ->
           get z r idx
           = fold_left f
               (map snd (filter (fun p => list_eqb idx (fst p))
                                (combine ind (data updates)))) z.
Proof.
  intros T z f ind updates s Hne Hs Hb. unfold tf_scatter_nd.
  rewrite Hs. cbn [size fold_right]. rewrite (valid_scatter Hb Hne).
  cbn [negb list_eqb]. rewrite Nat.eqb_refl. cbn [andb].
  replace (forallb (fun idx => in_boundsb idx s) ind) with true.
  - eexists. split; [reflexivity|]. split; [reflexivity|].
    intros idx Hidx. rewrite get_tabulate by exact Hidx. reflexivity.
  - symmetry. apply forallb_forall. intros idx Hin.
    rewrite Forall_forall in Hb. apply in_boundsb_iff. apply Hb. exact Hin.
Qed.

Section MapperTemplate.
Context {A : Type} {D : Dtype A}.
Variables (rg : ResourceGrid A) (tg : tensor Z).
Variables (pilot_ind data_ind : list (list nat)).
Variables (B tx st sym fft nd : nat).
Hypothesis Htg : shape tg = [tx; st; sym; fft].
Hypothesis Hprank : rank (PilotPattern_pilots (_pilot_pattern rg)) = 3.
Hypothesis Hpsize :
  size (shape (PilotPattern_pilots (_pilot_pattern rg))) = length pilot_ind.
Hypothesis Hpind : Forall (fun idx => in_bounds idx [tx; st; sym; fft]) pilot_ind.
Hypothesis Hdind : Forall (fun idx => in_bounds idx [tx; st; sym; fft]) data_ind.
Hypothesis Hdlen : length data_ind = tx * (st * (nd * 1)).
Hypothesis HB : 0 < B.

(** Outside the data positions the mapper returns what the scatter of the
    pilots has put there. *)
Lemma ResourceGridMapper_call_template : forall x : tensor A,
    shape x = [B; tx; st; nd] ->
    exists g,
      ResourceGridMapper_call
        {| mapper_resource_grid := rg;
           _rg_type := tg;
           _pilot_ind := pilot_ind;
           mapper_data_ind := data_ind |} x = Ok g
      /\ shape g = [B; tx; st; sym; fft]
      /\ forall b i j s c,
          b < B -> i < tx -> j < st -> s < sym -> c < fft ->
          ~ In [i; j; s; c] data_ind ->
          get zero g [b; i; j; s; c]
          = fold_left add
              (map snd
                 (filter (fun p => list_eqb [i; j; s; c] (fst p))
                    (combine pilot_ind
                       (data (PilotPattern_pilots (_pilot_pattern rg))))))
              zero.
Proof.
  intros x Hx. unfold ResourceGridMapper_call.
  cbn [mapper_resource_grid _rg_type _pilot_ind mapper_data_ind].
  unfold flatten_last_dims at 1. rewrite Hprank.
  cbn [Nat.leb andb bind Nat.sub firstn skipn app].
  set (p1 := Tensor _ (data (PilotPattern_pilots (_pilot_pattern rg)))).
  assert (Hp1 : shape p1 = [length pilot_ind])
    by (unfold p1; cbn [shape]; rewrite Hpsize; reflexivity).
  assert (Hdp1 : data p1 = data (PilotPattern_pilots (_pilot_pattern rg)))
    by reflexivity.
  clearbody p1.
  destruct (@tf_scatter_nd_entries A zero add pilot_ind p1 (shape tg))
    as (t1 & Ht1 & Hs1 & Hg1).
  { rewrite Htg. discriminate. }
  { exact Hp1. }
  { rewrite Htg. exact Hpind. }
  rewrite Ht1. cbn [bind]. rewrite Htg in Hs1, Hg1. clear Ht1.
  set (t2 := tf_expand_dims_last t1).
  assert (Hs2 : shape t2 = [tx; st; sym; fft; 1])
    by (unfold t2, tf_expand_dims_last; cbn [shape]; rewrite Hs1; reflexivity).
  assert (Hg2 : forall i j s c,
             get zero t2 [i; j; s; c; 0] = get zero t1 [i; j; s; c]).
  { intros i j s c. apply get_reshape; [reflexivity|].
    rewrite Hs2, Hs1. cbn [ravel size fold_right]. lia. }
  clearbody t2.
  unfold dim at 1. rewrite Hx, Hs2. cbn [nth removelast app].
  destruct (@tf_broadcast_to_spec A zero t2 [tx; st; sym; fft; B])
    as (t3 & Ht3 & Hs3 & Hg3).
  { unfold rank. rewrite Hs2. reflexivity. }
  { rewrite Hs2. cbn [combine].
    repeat (apply Forall_cons; [cbn [fst snd]; auto|]). apply Forall_nil. }
  rewrite Ht3. cbn [bind]. clear Ht3. rewrite Hs2 in Hg3.
  unfold flatten_last_dims. unfold rank at 1 2 3. rewrite Hx.
  cbn [length Nat.leb andb bind Nat.sub firstn skipn app size fold_right].
  set (flat := Tensor _ (data x)).
  assert (Hsf : shape flat = [B; tx * (st * (nd * 1))]) by reflexivity.
  clearbody flat.
  destruct (@tf_transpose_spec A zero (rev (seq 0 (rank flat))) flat)
    as (xt & Hxt & Hsxt & _ & _).
  { unfold rank. rewrite Hsf. reflexivity. }
  rewrite Hxt. cbn [bind]. unfold rank, dim in Hsxt.
  rewrite Hsf in Hsxt. cbn [length seq rev app map nth] in Hsxt. clear Hxt.
  destruct (@tf_tensor_scatter_nd_update_spec A zero t3 4 data_ind xt)
    as (g1 & Hgg1 & Hsg1 & Hget1).
  { rewrite Hsxt, Hs3, <- Hdlen. cbn [size fold_right].
    apply valid_empty_output_true.
    destruct data_ind as [|a l] eqn:Hd; [left; split; reflexivity|]. right.
    inversion Hdind as [|? ? Ha _]; subst.
    apply in_bounds_size_pos in Ha. cbn [size fold_right length] in *.
    split; [nia|]. split; nia. }
  { rewrite Hsxt, Hs3, Hdlen. reflexivity. }
  { rewrite Hs3. exact Hdind. }
  rewrite Hgg1. cbn [bind]. rewrite Hs3 in Hsg1, Hget1. clear Hgg1.
  destruct (@tf_transpose_spec A zero [4; 0; 1; 2; 3] g1)
    as (g & Hg & Hsg & _ & Hgg).
  { unfold rank. rewrite Hsg1. reflexivity. }
  unfold rank, dim in Hsg, Hgg. rewrite Hsg1 in Hsg, Hgg.
  cbn [length seq map nth] in Hsg.
  cbn [length seq map find_pos Nat.eqb] in Hgg.
  exists g. split; [exact Hg|]. split; [exact Hsg|].
  intros b i j s c Hb Hi Hj Hs Hc Hnot.
  rewrite Hgg by (rewrite Hsg; repeat constructor; assumption).
  cbn [nth].
  rewrite Hget1 by (repeat constructor; assumption).
  cbn [firstn skipn]. rewrite (index_of_None _ _ Hnot).
  rewrite Hg3 by (repeat constructor; assumption).
  cbn [combine map fst snd Nat.eqb].
  assert (Hzero : forall k d, k < d -> (if d =? 1 then 0 else k) = k).
  { intros k d Hk. destruct (d =? 1) eqn:E; [|reflexivity].
    apply Nat.eqb_eq in E. lia. }
  rewrite !Hzero by assumption.
  rewrite Hg2, Hg1 by (repeat constructor; assumption).
  rewrite Hdp1. reflexivity.
Qed.

End MapperTemplate.

Section MapperPlaces.
Context {A : Type} {D : Dtype A}.
Variable rg : ResourceGrid A.
Hypothesis Hchk : ResourceGrid_check_settings rg = Ok true.
Hypothesis Hfits : mask_fits rg.
Hypothesis Hpp : PilotPattern_check_settings (_pilot_pattern rg) = Ok true.
Hypothesis Hdc : dc_inside rg.
Hypothesis Hadd : forall a : A, add zero a = a.
Hypothesis Hpwf : tensor_wf (_pilots (_pilot_pattern rg)).

Local Notation "'mask'" := (_mask (_pilot_pattern rg)).
Local Notation "'pilots'" := (_pilots (_pilot_pattern rg)).
Local Notation "'tx'" := (grid_tx rg).
Local Notation "'st'" := (grid_streams rg).
Local Notation "'sym'" := (grid_symbols rg).
Local Notation "'neff'" := (grid_subcarriers rg).
Local Notation "'fft'" := (grid_fft rg).
Local Notation "'nd'" := (sym * neff - dim_last pilots).
Local Notation "'np'" := (dim_last pilots).

Variable tg : tensor Z.
Hypothesis Htg : shape tg = [tx; st; sym; fft].
Hypothesis Hrows : forall i j s,
    i < tx -> j < st -> s < sym ->
    row 0%Z tg [i; j; s] = type_row rg (row 0%Z mask [i; j; s]).

Lemma tf_where_member : forall v i j s c,
    v <> 2%Z -> v <> 3%Z ->
    In [i; j; s; c] (tf_where tg v) ->
    exists e, e < neff /\ c = effective_subcarrier rg e.
Proof.
  intros v i j s c Hv2 Hv3 Hin.
  rewrite (@tf_where_type_grid A D rg Hchk Hfits Hdc tg Htg Hrows v Hv2 Hv3)
    in Hin.
  apply in_flat_map in Hin. destruct Hin as (i' & _ & Hin).
  apply in_flat_map in Hin. destruct Hin as (j' & _ & Hin).
  apply in_map_iff in Hin. destruct Hin as ([s' e'] & Heq & Hse).
  unfold grid_position in Heq. cbn [fst snd] in Heq.
  injection Heq as <- <- <- <-.
  apply (@mask_positions_bounds _ _ _ _ _ _ _ _ _ _ (mask_shape4 Hfits)) in Hse.
  exists e'. split; [tauto | reflexivity].
Qed.

Lemma effective_subcarrier_lt : forall e, e < neff ->
    effective_subcarrier rg e < fft.
Proof.
  intros e He.
  destruct (effective_subcarrier_ind_Ok Hchk Hdc)
    as (eff & _ & Hefflen & Heffrange & Heffnth).
  rewrite <- Heffnth by exact He.
  assert (Hmem : In (nth e eff 0%Z) eff)
    by (apply nth_In; rewrite Hefflen; exact He).
  rewrite Forall_forall in Heffrange. apply Heffrange in Hmem. lia.
Qed.

Lemma mapper_places : forall B (x : tensor A),
    0 < B ->
    shape x = [B; tx; st; nd] ->
    exists g,
      ResourceGridMapper_call
        {| mapper_resource_grid := rg; _rg_type := tg;
           _pilot_ind := tf_where tg 1; mapper_data_ind := tf_where tg 0 |} x
      = Ok g
      /\ shape g = [B; tx; st; sym; fft]
      /\ forall b i j, b < B -> i < tx -> j < st ->
           (forall k, k < nd ->
              get zero g (b :: grid_position rg i j
                                 (nth k (mask_positions mask 0 i j) (0, 0)))
              = get zero x [b; i; j; k])
           /\ (forall q, q < np ->
                 get zero g (b :: grid_position rg i j
                                    (nth q (mask_positions mask 1 i j) (0, 0)))
                 = get zero (PilotPattern_pilots (_pilot_pattern rg)) [i; j; q])
           /\ (forall s c, s < sym -> c < fft ->
                 (forall e, e < neff -> c <> effective_subcarrier rg e) ->
                 get zero g [b; i; j; s; c] = zero).
Proof.
  intros B x HB Hx.
  assert (H02 : (0 <> 2)%Z) by discriminate.
  assert (H03 : (0 <> 3)%Z) by discriminate.
  assert (H12 : (1 <> 2)%Z) by discriminate.
  assert (H13 : (1 <> 3)%Z) by discriminate.
  pose proof (@tf_where_length A D rg Hchk Hfits Hdc tg Htg Hrows 0%Z nd
                H02 H03 (@data_count A D rg Hfits Hpp)) as Hdlen.
  pose proof (@tf_where_length A D rg Hchk Hfits Hdc tg Htg Hrows 1%Z np
                H12 H13 (@pilot_count A D rg Hfits Hpp)) as Hplen.
  pose proof (@pilots_read_shape A D rg Hfits Hpp) as Hpshape.
  assert (Hprank : rank (PilotPattern_pilots (_pilot_pattern rg)) = 3)
    by (unfold rank; rewrite Hpshape; reflexivity).
  assert (Hpsize : size (shape (PilotPattern_pilots (_pilot_pattern rg)))
                   = length (tf_where tg 1)).
  { rewrite Hpshape, Hplen. cbn [size fold_right]. lia. }
  assert (Hpind : Forall (fun idx => in_bounds idx [tx; st; sym; fft])
                         (tf_where tg 1))
    by (rewrite <- Htg; apply tf_where_bounds).
  assert (Hdind : Forall (fun idx => in_bounds idx [tx; st; sym; fft])
                         (tf_where tg 0))
    by (rewrite <- Htg; apply tf_where_bounds).
  assert (Hdlen' : length (tf_where tg 0) = tx * (st * (nd * 1)))
    by (rewrite Hdlen; lia).
  destruct (@ResourceGridMapper_call_entries A D rg tg (tf_where tg 1)
              (tf_where tg 0) B tx st sym fft nd Htg Hprank Hpsize Hpind
              Hdind Hdlen' HB x Hx) as (g & Hg & Hgs & Hgdata).
  destruct (@ResourceGridMapper_call_template A D rg tg (tf_where tg 1)
              (tf_where tg 0) B tx st sym fft nd Htg Hprank Hpsize Hpind
              Hdind Hdlen' HB x Hx) as (g' & Hg' & _ & Hgtemp).
  assert (g' = g) by congruence. subst g'.
  exists g. split; [exact Hg|]. split; [exact Hgs|].
  intros b i j Hb Hi Hj. split; [|split].
  - intros k Hk.
    pose proof (@data_count A D rg Hfits Hpp i j Hi Hj) as Hcnt.
    pose proof (@tf_where_nth A D rg Hchk Hfits Hdc tg Htg Hrows 0%Z nd
                  H02 H03 (@data_count A D rg Hfits Hpp) i j k Hi Hj Hk)
      as Hnth.
    assert (Hse : In (nth k (mask_positions mask 0 i j) (0, 0))
                     (mask_positions mask 0 i j))
      by (apply nth_In; rewrite Hcnt; exact Hk).
    destruct (nth k (mask_positions mask 0 i j) (0, 0)) as [s e].
    apply (@mask_positions_bounds _ _ _ _ _ _ _ _ _ _ (mask_shape4 Hfits))
      in Hse.
    destruct Hse as [Hs He]. unfold grid_position in *. cbn [fst snd] in *.
    assert (Hlt : i * (st * nd) + (j * nd + k) < tx * (st * (nd * 1))).
    { assert (j * nd + k < j * nd + nd) by lia.
      assert (j * nd + nd <= st * nd) by nia.
      assert (i * (st * nd) + st * nd <= tx * (st * nd)) by nia. lia. }
    assert (Hidx : index_of [i; j; s; effective_subcarrier rg e]
                     (tf_where tg 0)
                   = Some (i * (st * nd) + (j * nd + k))).
    { rewrite <- Hnth. apply index_of_nth; [apply tf_where_NoDup|].
      rewrite Hdlen'. exact Hlt. }
    rewrite (Hgdata b i j s _ _ Hb Hi Hj Hs (effective_subcarrier_lt He)
               Hidx Hlt).
    unfold get. rewrite Hx. f_equal. cbn [ravel size fold_right]. lia.
  - intros q Hq.
    pose proof (@pilot_count A D rg Hfits Hpp i j Hi Hj) as Hcnt.
    pose proof (@tf_where_nth A D rg Hchk Hfits Hdc tg Htg Hrows 1%Z np
                  H12 H13 (@pilot_count A D rg Hfits Hpp) i j q Hi Hj Hq)
      as Hnth.
    assert (Hse : In (nth q (mask_positions mask 1 i j) (0, 0))
                     (mask_positions mask 1 i j))
      by (apply nth_In; rewrite Hcnt; exact Hq).
    destruct (nth q (mask_positions mask 1 i j) (0, 0)) as [s e].
    apply (@mask_positions_bounds _ _ _ _ _ _ _ _ _ _ (mask_shape4 Hfits))
      in Hse.
    destruct Hse as [Hs He]. unfold grid_position in *. cbn [fst snd] in *.
    assert (Hlt : i * (st * np) + (j * np + q) < length (tf_where tg 1)).
    { rewrite Hplen. assert (j * np + q < j * np + np) by lia.
      assert (j * np + np <= st * np) by nia.
      assert (i * (st * np) + st * np <= tx * (st * np)) by nia. lia. }
    assert (Hin1 : In [i; j; s; effective_subcarrier rg e] (tf_where tg 1))
      by (rewrite <- Hnth; apply nth_In; exact Hlt).
    rewrite Hgtemp; try assumption.
    + rewrite <- Hnth.
      rewrite (@filter_combine_one A zero) ;
        [| apply tf_where_NoDup | exact Hlt |].
      * cbn [map snd fold_left]. rewrite Hadd. unfold get.
        rewrite Hpshape. f_equal. cbn [ravel size fold_right]. lia.
      * rewrite <- Hpsize. unfold PilotPattern_pilots, norm_pilots.
        destruct (_normalize (_pilot_pattern rg)).
        -- cbn [tabulate data shape]. rewrite length_map, length_indices.
           reflexivity.
        -- exact Hpwf.
    + apply effective_subcarrier_lt. exact He.
    + intros Hin0. apply (@tf_where_disjoint tg 1%Z 0%Z _ ltac:(discriminate))
        in Hin1. contradiction.
  - intros s c Hs Hc Hnone.
    rewrite Hgtemp; try assumption.
    + rewrite filter_combine_none; [reflexivity|].
      intros Hin. apply (@tf_where_member 1%Z i j s c H12 H13) in Hin.
      destruct Hin as (e & He & ->). apply (Hnone e He). reflexivity.
    + intros Hin. apply (@tf_where_member 0%Z i j s c H02 H03) in Hin.
      destruct Hin as (e & He & ->). apply (Hnone e He). reflexivity.
Qed.

End MapperPlaces.

Lemma kronecker_pilots_wf : forall (A : Type) (D : Dtype A) seed tx st np neff,
    tensor_wf (kronecker_pilots (A := A) seed tx st np neff).
Proof.
  intros A D seed tx st np neff.
  unfold tensor_wf, kronecker_pilots, kronecker_pilots_upto, tabulate.
  cbn [data shape]. rewrite length_map, length_indices.
  cbn [size fold_right]. lia.
Qed.

Lemma setter_pilots_wf : forall (A : Type) (D : Dtype A) n f s tx st cp gc dc
    (pp : pilot_pattern_arg A) idx (rg : ResourceGrid A),
    ResourceGrid_init n f s tx st cp gc dc pp idx = Ok rg ->
    (forall p, pp <> PatternInstance p) ->
    tensor_wf (_pilots (_pilot_pattern rg)).
Proof.
  intros A D n f s tx st cp gc dc pp idx rg Hinit Hpp.
  unfold ResourceGrid_init in Hinit.
  apply bind_Ok in Hinit. destruct Hinit as (self & Hself & Hinit).
  apply bind_Ok in Hinit. destruct Hinit as (b & _ & Hinit).
  injection Hinit as <-.
  unfold ResourceGrid_set_pilot_pattern in Hself.
  apply bind_Ok in Hself. destruct Hself as (p & Hp & Hself).
  injection Hself as <-. cbn [_pilot_pattern].
  assert (Hempty : forall a b c d,
             EmptyPilotPattern_init a b c d = Ok p -> tensor_wf (_pilots p)).
  { intros a b' c d He. apply EmptyPilotPattern_init_Ok in He.
    destruct He as (_ & -> & _). apply full_wf. }
  destruct pp as [|str|p'|].
  - eapply Hempty. exact Hp.
  - apply bind_Ok in Hp. destruct Hp as (u & _ & Hp).
    destruct (String.eqb str "empty"); [eapply Hempty; exact Hp|].
    cbn [_pilot_ofdm_symbol_indices] in Hp.
    destruct idx as [indices|]; [|discriminate].
    apply KroneckerPilotPattern_init_Ok in Hp.
    destruct Hp as (_ & rows & _ & -> & _). apply kronecker_pilots_wf.
  - exfalso. apply (Hpp p'). reflexivity.
  - discriminate.
Qed.



(** ** Removing the nulled subcarriers of a mapped grid *)



(** * Further properties of pilot patterns *)

(** ** What every constructed pattern satisfies *)

Lemma indices_nil : forall s, size s = 0 -> indices s = [].
Proof.
  intros s Hs. apply length_zero_iff_nil. rewrite length_indices. exact Hs.
Qed.

Lemma reduce_sum_no_stream : forall (mask : tensor bool),
    rank mask = 4 -> dim mask 0 = 0 \/ dim mask 1 = 0 ->
    data (tf_reduce_sum_last2 (tf_cast_int32 mask)) = [].
Proof.
  intros mask Hr Hz. rewrite reduce_sum_data by exact Hr.
  rewrite indices_nil; [reflexivity|]. cbn [size fold_right].
  destruct Hz as [-> | ->]; lia.
Qed.

Lemma count_true_false : forall l : list bool,
    length (filter (fun b : bool => b) l) + length (filter negb l) = length l.
Proof.
  induction l as [|b l IH]; [reflexivity|].
  destruct b; cbn [filter negb length]; lia.
Qed.

Lemma check_settings_no_stream : forall (A : Type) (self : PilotPattern A),
    data (tf_reduce_sum_last2 (_mask self)) = [] ->
    exists msg,
      PilotPattern_check_settings self = Raise (AssertionError msg).
Proof.
  intros A self Hnil. unfold PilotPattern_check_settings.
  destruct (rank (_mask self) =? 4); [|eexists; reflexivity].
  destruct (rank (_pilots self) =? 3); [|eexists; reflexivity].
  destruct (list_eqb _ _); [|eexists; reflexivity].
  cbn [assert bind]. unfold tf_reduce_min, tf_reduce_max. rewrite Hnil.
  cbn [Z.eqb assert bind]. eexists. reflexivity.
Qed.

Lemma check_settings_wrong_rank : forall (t : tensor Z),
    (rank t =? 4) = false ->
    exists msg, forall (A : Type) (self : PilotPattern A),
        _mask self = t ->
        PilotPattern_check_settings self = Raise (AssertionError msg).
Proof.
  intros t Hr. eexists. intros A self <-.
  unfold PilotPattern_check_settings. rewrite Hr. reflexivity.
Qed.

(** A pattern cannot be made without a transmitter or without a stream:
    the minimum and the maximum of no pilot count differ, and the
    comparison of the two fails. *)
Theorem PilotPattern_init_no_stream : forall (A : Type) (mask : tensor bool)
    (pilots : tensor A) (normalize : bool),
    dim mask 0 = 0 \/ dim mask 1 = 0 ->
    exists msg,
      PilotPattern_init mask pilots normalize = Raise (AssertionError msg).
Proof.
  intros A mask pilots normalize Hz.
  unfold PilotPattern_init, PilotPattern_set_normalize, PilotPattern_set_pilots.
  cbn [_mask _pilots _normalize].
  set (self := {| _mask := tf_cast_int32 mask; _pilots := pilots;
                  _normalize := normalize |}).
  destruct (rank mask =? 4) eqn:Hr.
  - apply Nat.eqb_eq in Hr.
    destruct (@check_settings_no_stream A self) as (msg & ->).
    + apply reduce_sum_no_stream; assumption.
    + eexists. reflexivity.
  - destruct (@check_settings_wrong_rank (tf_cast_int32 mask) Hr) as (msg & Hmsg).
    rewrite (Hmsg A self eq_refl). eexists. reflexivity.
Qed.

Lemma PilotPattern_init_no_stream_witness :
  exists msg,
    PilotPattern_init (Tensor [0; 1; 2; 2] []) (Tensor [0; 1; 0] (@nil Z)) false
    = Raise (AssertionError msg).
Proof.
  apply (@PilotPattern_init_no_stream Z (Tensor [0; 1; 2; 2] [])
           (Tensor [0; 1; 0] []) false).
  left. reflexivity.
Defined.

Lemma PilotPattern_init_pair_counts : forall (A : Type) (mask : tensor bool)
    (pilots : tensor A) (normalize : bool) (pp : PilotPattern A),
    PilotPattern_init mask pilots normalize = Ok pp ->
    (rank mask = 4 /\ rank pilots = 3
     /\ firstn 2 (shape mask) = firstn 2 (shape pilots)
     /\ 0 < dim mask 0 /\ 0 < dim mask 1)
    /\ forall i j, i < dim mask 0 -> j < dim mask 1 ->
         pair_count mask i j = Z.of_nat (dim_last pilots).
Proof.
  intros A mask pilots normalize pp Hinit.
  assert (Hpos : 0 < dim mask 0 /\ 0 < dim mask 1).
  { destruct (Nat.eq_dec (dim mask 0) 0) as [H0|H0];
      [|destruct (Nat.eq_dec (dim mask 1) 0) as [H1|H1]; [|lia]];
      exfalso; pose proof Hinit as Hok;
      apply PilotPattern_init_Ok in Hok; destruct Hok as [-> Hchk];
      (destruct (rank mask =? 4) eqn:Hr;
       [ apply Nat.eqb_eq in Hr;
         destruct (@check_settings_no_stream A
                     {| _mask := tf_cast_int32 mask; _pilots := pilots;
                        _normalize := normalize |}) as (msg & Hmsg);
         [ apply reduce_sum_no_stream; [exact Hr | tauto]
         | rewrite Hmsg in Hchk; discriminate ]
       | unfold PilotPattern_check_settings in Hchk; cbn [_mask] in Hchk;
         change (rank (tf_cast_int32 mask)) with (rank mask) in Hchk;
         rewrite Hr in Hchk; discriminate ]). }
  apply PilotPattern_init_Ok in Hinit. destruct Hinit as [-> Hchk].
  unfold PilotPattern_check_settings in Hchk. cbn [_mask _pilots] in Hchk.
  split_ok Hchk.
  apply Nat.eqb_eq in Hc, Hc0. apply list_eqb_eq in Hc1.
  apply Z.eqb_eq in Hc2, Hc3.
  change (rank (tf_cast_int32 mask)) with (rank mask) in Hc.
  change (shape (tf_cast_int32 mask)) with (shape mask) in Hc1.
  split; [repeat split; try assumption; tauto|].
  intros i j Hi Hj.
  assert (Hin : In (pair_count mask i j)
                   (data (tf_reduce_sum_last2 (tf_cast_int32 mask))))
    by (apply pair_count_in_data; assumption).
  pose proof (reduce_min_le _ _ Hin). pose proof (reduce_max_ge _ _ Hin).
  unfold PilotPattern_num_pilot_symbols in Hc3. cbn [_pilots] in Hc3. lia.
Qed.

(** A constructed pattern keeps what it was given; its mask has four axes,
    its pilots three, with the same two leading extents, none of them zero;
    and every transmitter and stream has [num_pilot_symbols] entries of the
    mask set and [num_data_symbols] entries not set. *)
Theorem PilotPattern_init_invariants : forall (A : Type) (mask : tensor bool)
    (pilots : tensor A) (normalize : bool) (pp : PilotPattern A),
    PilotPattern_init mask pilots normalize = Ok pp ->
    (_mask pp = tf_cast_int32 mask /\ _pilots pp = pilots
     /\ _normalize pp = normalize)
    /\ (rank mask = 4 /\ rank pilots = 3
        /\ firstn 2 (shape mask) = firstn 2 (shape pilots)
        /\ 0 < dim mask 0 /\ 0 < dim mask 1)
    /\ forall i j, i < dim mask 0 -> j < dim mask 1 ->
         pair_count mask i j = PilotPattern_num_pilot_symbols pp
         /\ Z.of_nat (length (filter negb (block false mask [i; j])))
            = PilotPattern_num_data_symbols pp.
Proof.
  intros A mask pilots normalize pp Hinit.
  destruct (@PilotPattern_init_pair_counts A mask pilots normalize pp Hinit)
    as (Hshape & Hcount).
  apply PilotPattern_init_Ok in Hinit. destruct Hinit as [-> _].
  split; [repeat split|]. split; [exact Hshape|].
  intros i j Hi Hj. specialize (Hcount i j Hi Hj).
  unfold PilotPattern_num_pilot_symbols. cbn [_pilots].
  split; [exact Hcount|].
  unfold PilotPattern_num_data_symbols, PilotPattern_num_pilot_symbols.
  cbn [_mask _pilots]. rewrite <- Hcount. unfold pair_count.
  pose proof (count_true_false (block false mask [i; j])) as Hsum.
  rewrite length_block in Hsum. unfold dim_last, dim, rank.
  change (shape (tf_cast_int32 mask)) with (shape mask).
  destruct Hshape as (Hr & _). unfold rank in Hr.
  destruct (shape mask) as [|d0 [|d1 [|d2 [|d3 [|]]]]]; try discriminate.
  cbn [length skipn size fold_right last Nat.sub nth] in *. nia.
Qed.

Lemma PilotPattern_init_invariants_witness :
  pair_count even_mask 0 1
  = PilotPattern_num_pilot_symbols
      {| _mask := tf_cast_int32 even_mask;
         _pilots := Tensor [1; 2; 1] [5; 7]%Z;
         _normalize := false |}.
Proof.
  destruct (@PilotPattern_init_invariants Z even_mask
              (Tensor [1; 2; 1] [5; 7]%Z) false
              {| _mask := tf_cast_int32 even_mask;
                 _pilots := Tensor [1; 2; 1] [5; 7]%Z;
                 _normalize := false |}) as (_ & _ & Hcount).
  - vm_compute. reflexivity.
  - apply (Hcount 0 1); vm_compute; lia.
Defined.

(** ** The Kronecker pattern: pilot symbol indices *)

Lemma mapM_py_index_range : forall n l rows,
    mapM (py_index n) l = Ok rows ->
    Forall (fun i => - Z.of_nat n <= i < Z.of_nat n)%Z l.
Proof.
  intros n l. induction l as [|a l IH]; intros rows Hm; [constructor|].
  cbn [mapM] in Hm. apply bind_Ok in Hm. destruct Hm as (p & Hp & Hm).
  apply bind_Ok in Hm. destruct Hm as (r & Hr & _).
  constructor; [|apply (IH r Hr)].
  unfold py_index in Hp.
  destruct ((- Z.of_nat n <=? a)%Z && (a <? Z.of_nat n)%Z) eqn:E;
    [|discriminate].
  apply andb_prop in E. destruct E as [E1 E2].
  apply Z.leb_le in E1. apply Z.ltb_lt in E2. lia.
Qed.

Lemma mapM_py_index_outside : forall n l,
    Exists (fun i => ~ (- Z.of_nat n <= i < Z.of_nat n)%Z) l ->
    mapM (py_index n) l = Raise IndexError.
Proof.
  intros n l Hex. destruct (mapM (py_index n) l) as [rows|e] eqn:E.
  - apply mapM_py_index_range in E. apply Exists_exists in Hex.
    destruct Hex as (i & Hin & Hout). rewrite Forall_forall in E.
    exfalso. apply Hout. apply E. exact Hin.
  - apply mapM_py_index_raise in E. subst e. reflexivity.
Qed.

Lemma existsb_same_members : forall a (l l' : list nat),
    (forall x, In x l <-> In x l') ->
    existsb (Nat.eqb a) l = existsb (Nat.eqb a) l'.
Proof.
  intros a l l' Hll.
  destruct (existsb (Nat.eqb a) l) eqn:E1;
    destruct (existsb (Nat.eqb a) l') eqn:E2; try reflexivity.
  - apply existsb_exists in E1. destruct E1 as (x & Hx & Heq).
    apply Hll in Hx.
    assert (existsb (Nat.eqb a) l' = true)
      by (apply existsb_exists; exists x; split; assumption).
    congruence.
  - apply existsb_exists in E2. destruct E2 as (x & Hx & Heq).
    apply Hll in Hx.
    assert (existsb (Nat.eqb a) l = true)
      by (apply existsb_exists; exists x; split; assumption).
    congruence.
Qed.

Lemma kronecker_mask_nodup : forall tx st n neff rows,
    kronecker_mask tx st n neff rows
    = kronecker_mask tx st n neff (nodup Nat.eq_dec rows).
Proof.
  intros tx st n neff rows. unfold kronecker_mask, tabulate. f_equal.
  apply map_ext. intros idx.
  rewrite (@existsb_same_members (nth 2 idx 0) rows (nodup Nat.eq_dec rows));
    [reflexivity|].
  intros x. symmetry. apply nodup_In.
Qed.

Lemma kronecker_mask_count_any : forall tx st n neff rows i j,
    Forall (fun r => r < n) rows -> i < tx -> j < st ->
    pair_count (kronecker_mask tx st n neff rows) i j
    = Z.of_nat (length (nodup Nat.eq_dec rows) * neff).
Proof.
  intros tx st n neff rows i j Hlt Hi Hj. rewrite kronecker_mask_nodup.
  apply kronecker_mask_count; try assumption.
  - apply NoDup_nodup.
  - apply Forall_forall. intros r Hr. apply nodup_In in Hr.
    rewrite Forall_forall in Hlt. apply Hlt. exact Hr.
Qed.

Lemma PilotPattern_init_kronecker_rows : forall (A : Type) (D : Dtype A)
    seed tx st n neff rows normalize (pp : PilotPattern A),
    PilotPattern_init (kronecker_mask tx st n neff rows)
      (kronecker_pilots seed tx st (length rows) neff) normalize = Ok pp ->
    0 < neff -> Forall (fun r => r < n) rows ->
    NoDup rows.
Proof.
  intros A D seed tx st n neff rows normalize pp Hinit Hneff Hlt.
  apply PilotPattern_init_pair_counts in Hinit.
  destruct Hinit as ((_ & _ & _ & Htx & Hst) & Hcount).
  unfold dim in Htx, Hst. cbn [kronecker_mask tabulate shape nth] in Htx, Hst.
  specialize (Hcount 0 0 Htx Hst).
  rewrite kronecker_mask_count_any in Hcount by assumption.
  unfold dim_last in Hcount. cbn [kronecker_pilots shape last] in Hcount.
  apply Nat2Z.inj in Hcount.
  apply (@NoDup_incl_NoDup _ (nodup Nat.eq_dec rows) rows).
  - apply NoDup_nodup.
  - nia.
  - intros x Hx. apply nodup_In in Hx. exact Hx.
Qed.

Lemma PilotPattern_init_raise_assertion : forall (A : Type)
    (mask : tensor bool) (pilots : tensor A) normalize e,
    PilotPattern_init mask pilots normalize = Raise e ->
    exists msg, e = AssertionError msg.
Proof.
  intros A mask pilots normalize e.
  unfold PilotPattern_init, PilotPattern_check_settings.
  repeat match goal with
         | |- bind (bind (assert ?c _) _) _ = _ -> _ =>
             destruct c; cbn [assert bind];
             [|intros Hr; injection Hr as <-; eexists; reflexivity]
         end.
  discriminate.
Qed.

Lemma rows_of_indices : forall (n : Z) (indices : list Z),
    (0 < n)%Z ->
    NoDup (map (fun i => Z.to_nat (i mod n)) indices) ->
    NoDup (map (fun i => i mod n)%Z indices).
Proof.
  intros n indices Hn Hnd.
  rewrite <- (map_map (fun i => (i mod n)%Z) Z.to_nat) in Hnd.
  apply NoDup_map_inv in Hnd. exact Hnd.
Qed.

Section KroneckerIndices.
Context {A : Type} {D : Dtype A}.
Variables (rg : ResourceGrid A) (indices : list Z) (normalize : bool)
          (seed : Z).
Hypothesis Htx : (0 < _num_tx rg)%Z.
Hypothesis Hst : (0 < _num_streams_per_tx rg)%Z.
Hypothesis Hn : (0 <= _num_ofdm_symbols rg)%Z.
Hypothesis Hneff : (0 <= ResourceGrid_num_effective_subcarriers rg)%Z.
Hypothesis Hdiv :
  (ResourceGrid_num_effective_subcarriers rg
   mod (_num_tx rg * _num_streams_per_tx rg) = 0)%Z.

Lemma kronecker_index_error :
  Exists (fun i => ~ (- _num_ofdm_symbols rg <= i < _num_ofdm_symbols rg)%Z)
         indices ->
  KroneckerPilotPattern_init rg indices normalize seed = Raise IndexError.
Proof.
  intros Hex.
  assert (Hne : indices <> []) by (intros ->; inversion Hex).
  rewrite (@KroneckerPilotPattern_init_divisible A D rg indices normalize seed
             Hne Htx Hst Hn Hneff Hdiv).
  rewrite mapM_py_index_outside; [reflexivity|].
  eapply Exists_impl; [|exact Hex]. intros i Hi. cbn beta in *. lia.
Qed.

Lemma kronecker_repeated_index :
  (0 < ResourceGrid_num_effective_subcarriers rg)%Z ->
  Forall (fun i => - _num_ofdm_symbols rg <= i < _num_ofdm_symbols rg)%Z
         indices ->
  ~ NoDup (map (fun i => i mod _num_ofdm_symbols rg)%Z indices) ->
  exists msg,
    KroneckerPilotPattern_init rg indices normalize seed
    = Raise (AssertionError msg)
    /\ msg <> divisibility_message.
Proof.
  intros Hpos Hrange Hdup.
  assert (Hne : indices <> []) by (intros ->; apply Hdup; constructor).
  assert (Hn' : (0 < _num_ofdm_symbols rg)%Z).
  { destruct indices as [|i l]; [contradiction|].
    inversion Hrange; subst. lia. }
  rewrite (@KroneckerPilotPattern_init_divisible A D rg indices normalize seed
             Hne Htx Hst Hn Hneff Hdiv).
  rewrite mapM_py_index_Ok
    by (eapply Forall_impl; [|exact Hrange]; intros i Hi; cbn beta in *; lia).
  cbn [bind]. rewrite Z2Nat.id by lia.
  set (rows := map (fun i => Z.to_nat (i mod _num_ofdm_symbols rg)) indices).
  assert (Hlen : length rows = length indices) by apply length_map.
  rewrite <- Hlen.
  destruct (PilotPattern_init _ _ normalize) as [pp|e] eqn:E.
  - exfalso. apply Hdup. apply rows_of_indices; [exact Hn'|].
    apply (@PilotPattern_init_kronecker_rows A D _ _ _ _ _ _ _ _ E); [lia|].
    apply Forall_forall. intros r Hr. unfold rows in Hr.
    apply in_map_iff in Hr. destruct Hr as (i & <- & _).
    pose proof (Z.mod_pos_bound i (_num_ofdm_symbols rg) Hn'). lia.
  - pose proof E as Hmsg. apply PilotPattern_init_raise in Hmsg.
    apply PilotPattern_init_raise_assertion in E. destruct E as (msg & ->).
    exists msg. split; [reflexivity|]. congruence.
Qed.

End KroneckerIndices.

(** The pilot symbol indices of a Kronecker pattern are Python indices into
    the OFDM symbols.  Take positive numbers of transmitters and streams, at
    least one effective subcarrier, and counts below [2^53], and let the
    divisibility test pass.  Then an index outside
    [-num_ofdm_symbols, num_ofdm_symbols) raises [IndexError]; indices in
    range of which two denote the same symbol (as 2 and 2, or 2 and
    2 - num_ofdm_symbols) fail with an assertion other than the
    divisibility one, because the mask then has fewer pilot positions than
    the pilots tensor has entries. *)
Theorem KroneckerPilotPattern_init_indices : forall (A : Type) (D : Dtype A)
    (rg : ResourceGrid A) (indices : list Z) (normalize : bool) (seed : Z),
    (0 < _num_tx rg)%Z -> (0 < _num_streams_per_tx rg)%Z ->
    (0 <= _num_ofdm_symbols rg)%Z ->
    (0 < ResourceGrid_num_effective_subcarriers rg)%Z ->
    (Z.of_nat (length indices) * ResourceGrid_num_effective_subcarriers rg
     < 9007199254740992)%Z ->
    (_num_tx rg * _num_streams_per_tx rg < 9007199254740992)%Z ->
    (ResourceGrid_num_effective_subcarriers rg
     mod (_num_tx rg * _num_streams_per_tx rg) = 0)%Z ->
    (Exists (fun i => ~ (- _num_ofdm_symbols rg <= i
                         < _num_ofdm_symbols rg)%Z) indices ->
     KroneckerPilotPattern_init rg indices normalize seed = Raise IndexError)
    /\ (Forall (fun i => - _num_ofdm_symbols rg <= i
                         < _num_ofdm_symbols rg)%Z indices ->
        ~ NoDup (map (fun i => i mod _num_ofdm_symbols rg)%Z indices) ->
        exists msg,
          KroneckerPilotPattern_init rg indices normalize seed
          = Raise (AssertionError msg)
          /\ msg <> divisibility_message).
Proof.
  intros A D rg indices normalize seed Htx Hst Hn Hneff _ _ Hdiv. split.
  - apply kronecker_index_error; try assumption. lia.
  - apply kronecker_repeated_index; try assumption. lia.
Qed.

Lemma KroneckerPilotPattern_init_indices_witness :
  KroneckerPilotPattern_init small_grid [2%Z] true 0 = Raise IndexError
  /\ exists msg,
      KroneckerPilotPattern_init small_grid [1; -1]%Z true 0
      = Raise (AssertionError msg)
      /\ msg <> divisibility_message.
Proof.
  destruct (@KroneckerPilotPattern_init_indices Z int_dtype small_grid
              [2%Z] true 0%Z) as (Hout & _); try (vm_compute; reflexivity);
    [vm_compute; discriminate|].
  destruct (@KroneckerPilotPattern_init_indices Z int_dtype small_grid
              [1; -1]%Z true 0%Z) as (_ & Hdup);
    try (vm_compute; reflexivity); [vm_compute; discriminate|].
  split.
  - apply Hout. constructor. vm_compute. intros [_ H]. discriminate.
  - apply Hdup.
    + repeat constructor; vm_compute; discriminate.
    + intros Hnd. vm_compute in Hnd. inversion Hnd as [|? ? Hnot _].
      apply Hnot. left. reflexivity.
Defined.

(** ** The Kronecker pattern: what is constructed *)

Lemma existsb_map : forall (T U : Type) (f : U -> bool) (g : T -> U) l,
    existsb f (map g l) = existsb (fun x => f (g x)) l.
Proof.
  intros T U f g l. induction l as [|a l IH]; [reflexivity|].
  cbn [map existsb]. rewrite IH. reflexivity.
Qed.

Lemma kronecker_pattern_facts : forall (A : Type) (D : Dtype A)
    (rg : ResourceGrid A) (indices : list Z) (normalize : bool) (seed : Z)
    (pp : PilotPattern A),
    KroneckerPilotPattern_init rg indices normalize seed = Ok pp ->
    (shape (_mask pp) = [grid_tx rg; grid_streams rg; grid_symbols rg;
                         grid_subcarriers rg]
     /\ shape (_pilots pp)
        = [grid_tx rg; grid_streams rg;
           length indices * grid_subcarriers rg]
     /\ _normalize pp = normalize)
    /\ (PilotPattern_num_pilot_symbols pp
        = Z.of_nat (length indices)
          * ResourceGrid_num_effective_subcarriers rg
        /\ PilotPattern_num_data_symbols pp
           = (_num_ofdm_symbols rg - Z.of_nat (length indices))
             * ResourceGrid_num_effective_subcarriers rg)%Z
    /\ Forall (fun i => - _num_ofdm_symbols rg <= i < _num_ofdm_symbols rg)%Z
              indices
    /\ ((0 < ResourceGrid_num_effective_subcarriers rg)%Z ->
        NoDup (map (fun i => i mod _num_ofdm_symbols rg)%Z indices))
    /\ forall i j s e,
        i < grid_tx rg -> j < grid_streams rg -> s < grid_symbols rg ->
        e < grid_subcarriers rg ->
        get 0%Z (_mask pp) [i; j; s; e]
        = if existsb (fun i => (i mod _num_ofdm_symbols rg =? Z.of_nat s)%Z)
                     indices
          then 1%Z else 0%Z.
Proof.
  intros A D rg indices normalize seed pp Hinit.
  pose proof Hinit as Hok. apply KroneckerPilotPattern_init_Ok in Hok.
  destruct Hok as ((Hne & Htx & Hst & Hn & Hneff & Hdiv)
                   & rows & Hrows & Hpp & Hchk).
  pose proof (mapM_py_index_range _ _ Hrows) as Hrange.
  rewrite Z2Nat.id in Hrange by lia.
  assert (Hn' : (0 < _num_ofdm_symbols rg)%Z).
  { destruct indices as [|i l]; [contradiction|].
    inversion Hrange; subst. lia. }
  rewrite mapM_py_index_Ok in Hrows
    by (eapply Forall_impl; [|exact Hrange]; intros i Hi; cbn beta in *; lia).
  injection Hrows as Hrows. rewrite Z2Nat.id in Hrows by lia.
  assert (Hlen : length rows = length indices)
    by (rewrite <- Hrows; apply length_map).
  assert (Hlt : Forall (fun r => r < Z.to_nat (_num_ofdm_symbols rg)) rows).
  { apply Forall_forall. intros r Hr. rewrite <- Hrows in Hr.
    apply in_map_iff in Hr. destruct Hr as (i & <- & _).
    pose proof (Z.mod_pos_bound i (_num_ofdm_symbols rg) Hn'). lia. }
  split; [|split; [|split; [|split]]].
  - rewrite Hpp. repeat split.
  - rewrite Hpp.
    unfold PilotPattern_num_data_symbols, PilotPattern_num_pilot_symbols,
      dim_last, dim, rank.
    cbn [_mask _pilots tf_cast_int32 tmap kronecker_mask kronecker_pilots
         tabulate shape last length Nat.sub nth].
    rewrite Nat2Z.inj_mul, !Z2Nat.id by lia. split; lia.
  - exact Hrange.
  - intros Hpos. apply rows_of_indices; [exact Hn'|]. rewrite Hrows.
    rewrite (@KroneckerPilotPattern_init_divisible A D rg indices normalize
               seed Hne Htx Hst Hn Hneff Hdiv) in Hinit.
    apply bind_Ok in Hinit. destruct Hinit as (rows' & Hrows' & Hinit).
    rewrite mapM_py_index_Ok in Hrows'
      by (rewrite Z2Nat.id by lia;
          eapply Forall_impl; [|exact Hrange]; intros i Hi; cbn beta in *;
          lia).
    injection Hrows' as Hrows'. rewrite Z2Nat.id in Hrows' by lia.
    subst rows'. rewrite Hrows, <- Hlen in Hinit.
    apply (@PilotPattern_init_kronecker_rows A D _ _ _ _ _ _ _ _ Hinit);
      [lia | exact Hlt].
  - intros i j s e Hi Hj Hs He. rewrite Hpp. cbn [_mask].
    unfold tf_cast_int32.
    rewrite (get_tmap (fun b : bool => if b then 1%Z else 0%Z) false).
    unfold kronecker_mask.
    rewrite get_tabulate by (repeat constructor; assumption).
    cbn [nth]. rewrite get_full by (repeat constructor; assumption).
    rewrite <- Hrows, existsb_map.
    assert (Hsame : existsb (fun x => s =? Z.to_nat (x mod _num_ofdm_symbols rg))
                            indices
                    = existsb (fun i0 => (i0 mod _num_ofdm_symbols rg
                                          =? Z.of_nat s)%Z) indices).
    { clear - Hn'. induction indices as [|a l IH]; [reflexivity|].
      cbn [existsb]. rewrite IH. f_equal.
      pose proof (Z.mod_pos_bound a (_num_ofdm_symbols rg) Hn').
      destruct (s =? Z.to_nat (a mod _num_ofdm_symbols rg)) eqn:E1;
        destruct (a mod _num_ofdm_symbols rg =? Z.of_nat s)%Z eqn:E2;
        try reflexivity;
        try apply Nat.eqb_eq in E1; try apply Nat.eqb_neq in E1;
        try apply Z.eqb_eq in E2; try apply Z.eqb_neq in E2; lia. }
    rewrite Hsame. clear Hsame.
    destruct (existsb _ indices); reflexivity.
Qed.

(** A constructed Kronecker pattern has a mask with the extents of the
    grid, set on the whole of every listed OFDM symbol (an index counting
    from the end if negative) and nowhere else, the same for every
    transmitter and stream; its pilots have one entry per listed symbol and
    effective subcarrier; the listed indices are in range, and no two of
    them denote the same symbol unless the grid has no effective
    subcarrier. *)
Theorem KroneckerPilotPattern_init_pattern : forall (A : Type) (D : Dtype A)
    (rg : ResourceGrid A) (indices : list Z) (normalize : bool) (seed : Z)
    (pp : PilotPattern A),
    KroneckerPilotPattern_init rg indices normalize seed = Ok pp ->
    (shape (_mask pp) = [grid_tx rg; grid_streams rg; grid_symbols rg;
                         grid_subcarriers rg]
     /\ shape (_pilots pp)
        = [grid_tx rg; grid_streams rg;
           length indices * grid_subcarriers rg]
     /\ _normalize pp = normalize)
    /\ Forall (fun i => - _num_ofdm_symbols rg <= i < _num_ofdm_symbols rg)%Z
              indices
    /\ ((0 < ResourceGrid_num_effective_subcarriers rg)%Z ->
        NoDup (map (fun i => i mod _num_ofdm_symbols rg)%Z indices))
    /\ forall i j s e,
        i < grid_tx rg -> j < grid_streams rg -> s < grid_symbols rg ->
        e < grid_subcarriers rg ->
        get 0%Z (_mask pp) [i; j; s; e]
        = if existsb (fun i => (i mod _num_ofdm_symbols rg =? Z.of_nat s)%Z)
                     indices
          then 1%Z else 0%Z.
Proof.
  intros A D rg indices normalize seed pp Hinit.
  apply kronecker_pattern_facts in Hinit.
  destruct Hinit as (Hshape & _ & Hrange & Hnd & Hmask).
  repeat split; try tauto; assumption.
Qed.

Lemma KroneckerPilotPattern_init_pattern_witness :
  shape (_mask (_pilot_pattern comb_grid)) = [2; 1; 2; 4]
  /\ shape (_pilots (_pilot_pattern comb_grid)) = [2; 1; 1 * 4].
Proof.
  destruct (@KroneckerPilotPattern_init_pattern Z int_dtype comb_grid [1%Z]
              true 0%Z (_pilot_pattern comb_grid)) as ((Hm & Hp & _) & _).
  - vm_compute. reflexivity.
  - split; [exact Hm | exact Hp].
Defined.

Lemma residues_length : forall (n : Z) (l : list Z),
    (0 < n)%Z -> NoDup (map (fun i => i mod n)%Z l) ->
    (Z.of_nat (length l) <= n)%Z.
Proof.
  intros n l Hn Hnd.
  assert (Hincl : incl (map (fun i => i mod n)%Z l) (py_range 0 n)).
  { intros x Hx. apply in_map_iff in Hx. destruct Hx as (i & <- & _).
    apply In_py_range. apply Z.mod_pos_bound. exact Hn. }
  apply (NoDup_incl_length Hnd) in Hincl.
  rewrite length_map, py_range_length in Hincl. lia.
Qed.

(** A grid constructed with the "kronecker" pattern has
    [len(pilot_ofdm_symbol_indices) * num_effective_subcarriers] pilot
    symbols per stream and [(num_ofdm_symbols -
    len(pilot_ofdm_symbol_indices)) * num_effective_subcarriers] data
    symbols; its pattern is a normalized one; and unless the grid has no
    effective subcarrier there are at most [num_ofdm_symbols] pilot symbol
    indices, so that the number of data symbols is not negative. *)
Theorem ResourceGrid_init_kronecker_counts : forall (A : Type) (D : Dtype A)
    n f s tx st cp gc dc indices (rg : ResourceGrid A),
    ResourceGrid_init n f s tx st cp gc dc (PatternStr "kronecker")
      (Some indices) = Ok rg ->
    (ResourceGrid_num_pilot_symbols rg
     = Z.of_nat (length indices) * ResourceGrid_num_effective_subcarriers rg)%Z
    /\ (ResourceGrid_num_data_symbols rg
        = (n - Z.of_nat (length indices))
          * ResourceGrid_num_effective_subcarriers rg)%Z
    /\ _normalize (_pilot_pattern rg) = true
    /\ ((0 < ResourceGrid_num_effective_subcarriers rg)%Z ->
        (Z.of_nat (length indices) <= n)%Z)
    /\ (0 <= ResourceGrid_num_data_symbols rg)%Z.
Proof.
  intros A D n f s tx st cp gc dc indices rg Hinit.
  pose proof Hinit as Hfields. apply ResourceGrid_init_Ok in Hfields.
  destruct Hfields as (Hchk & Hn & _).
  unfold ResourceGrid_init in Hinit.
  apply bind_Ok in Hinit. destruct Hinit as (self & Hself & Hinit).
  apply bind_Ok in Hinit. destruct Hinit as (b & _ & Hinit).
  injection Hinit as <-.
  unfold ResourceGrid_set_pilot_pattern in Hself.
  apply bind_Ok in Hself. destruct Hself as (p & Hp & Hself).
  cbn [String.eqb Ascii.eqb Bool.eqb orb assert bind
       _pilot_ofdm_symbol_indices] in Hp.
  apply kronecker_pattern_facts in Hp.
  destruct Hp as ((_ & _ & Hnorm) & (Hnp & Hnds) & _ & Hnd & _).
  injection Hself as <-.
  unfold ResourceGrid_num_pilot_symbols, ResourceGrid_num_data_symbols,
    ResourceGrid_num_effective_subcarriers in *.
  cbn [_pilot_pattern _num_ofdm_symbols _fft_size _dc_null
       _num_guard_carriers] in *.
  pose proof Hchk as Hgp. apply guard_carriers_pair in Hgp.
  destruct Hgp as (g0 & g1 & Hgc' & Hg0 & Hg1 & Hsum).
  cbn [_num_guard_carriers _dc_null _fft_size] in Hgc', Hsum.
  apply ResourceGrid_check_settings_Ok in Hchk.
  destruct Hchk as ((Hn' & _) & _). cbn [_num_ofdm_symbols] in Hn'.
  assert (Hle : (0 < f - Z.b2z dc - np_sum gc)%Z ->
                (Z.of_nat (length indices) <= n)%Z).
  { intros Hpos. apply residues_length; [exact Hn' | apply Hnd; exact Hpos]. }
  rewrite Hnp. repeat split; try assumption; try lia.
  - unfold ResourceGrid_num_pilot_symbols. cbn [_pilot_pattern].
    rewrite Hnp. lia.
  - unfold ResourceGrid_num_pilot_symbols. cbn [_pilot_pattern].
    rewrite Hnp.
    assert (Hne : (0 <= f - Z.b2z dc - np_sum gc)%Z)
      by (rewrite Hgc'; cbn [np_sum fold_right]; lia).
    destruct (Z_lt_le_dec 0 (f - Z.b2z dc - np_sum gc)) as [Hpos|Hzero].
    + specialize (Hle Hpos). nia.
    + replace (f - Z.b2z dc - np_sum gc)%Z with 0%Z by lia. lia.
Qed.

Lemma ResourceGrid_init_kronecker_counts_witness :
  (ResourceGrid_num_pilot_symbols comb_grid
   = Z.of_nat (length [1%Z])
     * ResourceGrid_num_effective_subcarriers comb_grid)%Z.
Proof.
  apply (@ResourceGrid_init_kronecker_counts Z int_dtype 2 8 (15000 # 1)
           2 1 0 [1; 2]%Z true [1%Z] comb_grid comb_grid_constructed).
Defined.

(** ** The demapper with any stream ordering and a data dimension *)

Section DemapperStreams.
Context {A : Type} {D : Dtype A}.
Variables (rg : ResourceGrid A) (sm : StreamManagement) (dind : tensor nat).
Variables (B rx srx tx st sym fft neff nd dd : nat) (eff : list Z).
Hypothesis Heff : ResourceGrid_effective_subcarrier_ind rg = Ok eff.
Hypothesis Hefflen : length eff = neff.
Hypothesis Heffrange : Forall (fun i => 0 <= i < Z.of_nat fft)%Z eff.
Hypothesis Hslen : length (stream_ind sm) = tx * st.
Hypothesis Hsrange :
  Forall (fun q => 0 <= q < Z.of_nat (rx * srx))%Z (stream_ind sm).
Hypothesis Hntx : num_tx sm = Z.of_nat tx.
Hypothesis Hnst : num_streams_per_tx sm = Z.of_nat st.
Hypothesis Hdshape : shape dind = [tx; st; nd].
Hypothesis Hdrange : Forall (fun p => p < sym * neff) (data dind).
Hypothesis Hdwf : tensor_wf dind.

Local Notation "'dm'" :=
  {| _stream_management := sm;
     demapper_resource_grid := rg;
     demapper_data_ind := dind |}.

Lemma ResourceGridDemapper_call_rank6 : forall y : tensor A,
    shape y = [B; rx; srx; sym; fft; dd] ->
    exists r,
      ResourceGridDemapper_call dm y = Ok r
      /\ shape r = (if dd =? 1 then [B; tx; st; nd] else [B; tx; st; nd; dd])
      /\ forall b i j m k, b < B -> i < tx -> j < st -> m < nd -> k < dd ->
           get zero r (if dd =? 1 then [b; i; j; m] else [b; i; j; m; k])
           = get zero y
               [b; Z.to_nat (nth (i * st + j) (stream_ind sm) 0%Z) / srx;
                Z.to_nat (nth (i * st + j) (stream_ind sm) 0%Z) mod srx;
                get 0 dind [i; j; m] / neff;
                Z.to_nat (nth (get 0 dind [i; j; m] mod neff) eff 0%Z); k].
Proof.
  intros y1 Hs1. unfold ResourceGridDemapper_call.
  cbn [_stream_management demapper_resource_grid demapper_data_ind].
  replace (rank y1 =? 5) with false by (unfold rank; rewrite Hs1; reflexivity).
  rewrite Heff. cbn [bind].
  (* gather of the effective subcarriers *)
  destruct (@tf_gather_spec A zero y1 eff (rank y1 - 2))
    as (y2 & Hy2 & Hs2 & _ & Hg2).
  { unfold rank. rewrite Hs1. cbn. lia. }
  { unfold rank, dim. rewrite Hs1. cbn [length Nat.sub nth]. exact Heffrange. }
  rewrite Hy2. cbn [bind]. unfold rank in Hs2, Hg2. rewrite Hs1 in Hs2, Hg2.
  shape_simpl Hs2. cbn [length Nat.sub] in Hg2. rewrite Hefflen in Hs2.
  clear Hy2.
  (* batch axis last *)
  destruct (@tf_transpose_spec A zero [1; 2; 3; 4; 5; 0] y2)
    as (y3 & Hy3 & Hs3 & Hwf3 & Hg3).
  { unfold rank. rewrite Hs2. reflexivity. }
  rewrite Hy3. cbn [bind]. unfold rank, dim in Hs3, Hg3. rewrite Hs2 in Hs3, Hg3.
  shape_simpl Hs3. cbn [length seq map find_pos Nat.eqb] in Hg3. clear Hy3.
  (* merge of the receiver axes *)
  unfold flatten_dims at 1. unfold rank at 1. rewrite Hs3.
  cbn [length Nat.add Nat.leb andb bind firstn skipn app].
  set (y4 := Tensor _ (data y3)).
  assert (Hs4 : shape y4 = [rx * (srx * 1); sym; neff; dd; B]) by reflexivity.
  assert (Hd4 : data y4 = data y3) by reflexivity.
  clearbody y4.
  (* stream ordering *)
  destruct (@tf_gather_spec A zero y4 (stream_ind sm) 0)
    as (y5 & Hy5 & Hs5 & Hwf5 & Hg5).
  { unfold rank. rewrite Hs4. cbn. lia. }
  { unfold dim. rewrite Hs4. cbn [nth].
    eapply Forall_impl; [|exact Hsrange]. intros i Hi. cbn beta in Hi. lia. }
  rewrite Hy5. cbn [bind]. rewrite Hs4 in Hs5. shape_simpl Hs5.
  rewrite Hslen in Hs5. clear Hy5.
  (* split into transmitter and stream axes *)
  unfold split_dim. rewrite Hntx, Hnst. unfold to_shape.
  replace (forallb _ [Z.of_nat tx; Z.of_nat st]) with true
    by (symmetry; cbn [forallb]; rewrite !(proj2 (Z.leb_le _ _)) by lia;
        reflexivity).
  cbn [bind map]. rewrite !Nat2Z.id. unfold rank, dim. rewrite Hs5.
  cbn [length Nat.ltb Nat.leb nth size fold_right andb firstn skipn app].
  replace (tx * (st * 1) =? tx * st) with true
    by (symmetry; apply Nat.eqb_eq; lia).
  set (y6 := Tensor _ (data y5)).
  assert (Hs6 : shape y6 = [tx; st; sym; neff; dd; B]) by reflexivity.
  assert (Hd6 : data y6 = data y5) by reflexivity.
  clearbody y6.
  (* merge of the symbol and subcarrier axes *)
  cbn [bind]. unfold flatten_dims. unfold rank at 1. rewrite Hs6.
  cbn [length Nat.add Nat.leb andb bind firstn skipn app size fold_right].
  set (y7 := Tensor _ (data y6)).
  assert (Hs7 : shape y7 = [tx; st; sym * (neff * 1); dd; B]) by reflexivity.
  assert (Hd7 : data y7 = data y6) by reflexivity.
  clearbody y7.
  (* gather of the data positions *)
  destruct (@tf_gather_batch2_spec A zero y7 dind)
    as (y8 & Hy8 & Hs8 & Hwf8 & Hg8).
  { unfold rank. rewrite Hdshape. reflexivity. }
  { unfold rank. rewrite Hs7. cbn. lia. }
  { rewrite Hdshape, Hs7. reflexivity. }
  { unfold dim. rewrite Hs7. cbn [nth].
    eapply Forall_impl; [|exact Hdrange]. intros p Hp. cbn beta in Hp. lia. }
  rewrite Hy8. cbn [bind]. rewrite Hdshape, Hs7 in Hs8. shape_simpl Hs8.
  clear Hy8.
  (* batch axis first *)
  destruct (@tf_transpose_spec A zero [4; 0; 1; 2; 3] y8)
    as (y9 & Hy9 & Hs9 & Hwf9 & Hg9).
  { unfold rank. rewrite Hs8. reflexivity. }
  rewrite Hy9. cbn [bind]. unfold rank, dim in Hs9, Hg9. rewrite Hs8 in Hs9, Hg9.
  shape_simpl Hs9. cbn [length seq map find_pos Nat.eqb] in Hg9. clear Hy9.
  unfold dim_last. rewrite Hs9. cbn [last].
  eexists. split; [reflexivity|].
  split.
  { destruct (dd =? 1); [|exact Hs9].
    unfold tf_squeeze_last. cbn [shape]. rewrite Hs9. reflexivity. }
  intros b i j m k Hb Hi Hj Hm Hk.
  set (p := get 0 dind [i; j; m]).
  assert (Hp : p < sym * neff).
  { rewrite Forall_forall in Hdrange. apply Hdrange. unfold p.
    apply get_In_data; [exact Hdwf|]. rewrite Hdshape.
    repeat constructor; assumption. }
  assert (Hneff : 0 < neff) by nia.
  assert (Hps : p / neff < sym)
    by (apply Nat.Div0.div_lt_upper_bound; lia).
  assert (Hpe : p mod neff < neff) by (apply Nat.mod_upper_bound; lia).
  pose proof (Nat.div_mod_eq p neff) as Hpdm.
  assert (Hij : i * st + j < tx * st) by nia.
  set (q := Z.to_nat (nth (i * st + j) (stream_ind sm) 0%Z)).
  assert (Hq : q < rx * srx).
  { rewrite Forall_forall in Hsrange.
    assert (Hin : In (nth (i * st + j) (stream_ind sm) 0%Z) (stream_ind sm))
      by (apply nth_In; rewrite Hslen; exact Hij).
    apply Hsrange in Hin. unfold q. lia. }
  assert (Hsrx : 0 < srx) by nia.
  assert (Hqr : q / srx < rx)
    by (apply Nat.Div0.div_lt_upper_bound; lia).
  assert (Hqs : q mod srx < srx) by (apply Nat.mod_upper_bound; lia).
  pose proof (Nat.div_mod_eq q srx) as Hqdm.
  (* the entry, through the nine steps *)
  transitivity (get zero y9 [b; i; j; m; k]).
  { destruct (dd =? 1) eqn:Hdd; [|reflexivity].
    apply Nat.eqb_eq in Hdd. subst dd.
    unfold get, tf_squeeze_last. cbn [shape data]. rewrite Hs9.
    f_equal; cbn [ravel size fold_right removelast]; lia. }
  rewrite Hg9 by (rewrite Hs9; repeat constructor; lia).
  cbn [nth find_pos map seq Nat.eqb].
  rewrite Hg8 by (rewrite Hs8; repeat constructor; lia).
  cbn [firstn skipn app]. fold p.
  transitivity (get zero y6 [i; j; p / neff; p mod neff; k; b]).
  { apply get_reshape; [exact Hd7|]. rewrite Hs7, Hs6.
    cbn [ravel size fold_right]. nia. }
  transitivity (get zero y5 [i * st + j; p / neff; p mod neff; k; b]).
  { symmetry. apply get_reshape; [symmetry; exact Hd6|]. rewrite Hs6, Hs5.
    cbn [ravel size fold_right]. nia. }
  rewrite Hg5 by (rewrite Hs5; repeat constructor; nia).
  cbn [firstn skipn app nth]. fold q.
  transitivity (get zero y3 [q / srx; q mod srx; p / neff; p mod neff; k; b]).
  { apply get_reshape; [exact Hd4|]. rewrite Hs4, Hs3.
    cbn [ravel size fold_right]. nia. }
  rewrite Hg3 by (rewrite Hs3; repeat constructor; lia).
  cbn [nth find_pos map seq Nat.eqb].
  rewrite Hg2 by (rewrite Hs2; repeat constructor; lia).
  cbn [firstn skipn app nth]. reflexivity.
Qed.

End DemapperStreams.

Section DemapperStreamReads.
Context {A : Type} {D : Dtype A}.
Variable rg : ResourceGrid A.
Hypothesis Hchk : ResourceGrid_check_settings rg = Ok true.
Hypothesis Hfits : mask_fits rg.
Hypothesis Hpp : PilotPattern_check_settings (_pilot_pattern rg) = Ok true.
Hypothesis Hdc : dc_inside rg.
Variable sm : StreamManagement.
Variables rx srx : nat.
Hypothesis Hntx : num_tx sm = _num_tx rg.
Hypothesis Hnst : num_streams_per_tx sm = _num_streams_per_tx rg.
Hypothesis Hslen : length (stream_ind sm) = grid_tx rg * grid_streams rg.
Hypothesis Hsrange :
  Forall (fun q => 0 <= q < Z.of_nat (rx * srx))%Z (stream_ind sm).

Local Notation "'mask'" := (_mask (_pilot_pattern rg)).
Local Notation "'pilots'" := (_pilots (_pilot_pattern rg)).
Local Notation "'tx'" := (grid_tx rg).
Local Notation "'st'" := (grid_streams rg).
Local Notation "'sym'" := (grid_symbols rg).
Local Notation "'neff'" := (grid_subcarriers rg).
Local Notation "'fft'" := (grid_fft rg).
Local Notation "'nd'" := (sym * neff - dim_last pilots).

Lemma demapper_stream_reads : forall B dd (y : tensor A),
    shape y = [B; rx; srx; sym; fft; dd] ->
    exists dm r,
      ResourceGridDemapper_init rg sm = Ok dm
      /\ ResourceGridDemapper_call dm y = Ok r
      /\ shape r = (if dd =? 1 then [B; tx; st; nd] else [B; tx; st; nd; dd])
      /\ forall b i j m k, b < B -> i < tx -> j < st -> m < nd -> k < dd ->
           In (nth m (mask_positions mask 0 i j) (0, 0))
              (mask_positions mask 0 i j)
           /\ Z.to_nat (nth (i * st + j) (stream_ind sm) 0%Z) < rx * srx
           /\ get zero r (if dd =? 1 then [b; i; j; m] else [b; i; j; m; k])
              = get zero y
                  [b; Z.to_nat (nth (i * st + j) (stream_ind sm) 0%Z) / srx;
                   Z.to_nat (nth (i * st + j) (stream_ind sm) 0%Z) mod srx;
                   fst (nth m (mask_positions mask 0 i j) (0, 0));
                   effective_subcarrier rg
                     (snd (nth m (mask_positions mask 0 i j) (0, 0)));
                   k].
Proof.
  intros B dd y Hy.
  pose proof Hchk as Hpos. apply ResourceGrid_check_settings_Ok in Hpos.
  destruct Hpos as ((_ & _ & _ & Htx & Hst) & _).
  destruct (effective_subcarrier_ind_Ok Hchk Hdc)
    as (eff & Heff & Hefflen & Heffrange & Heffnth).
  destruct (ResourceGridDemapper_init_entries Hchk Hfits Hpp sm)
    as (dind & Hdinit & Hdshape & Hdwf & Hdrange & Hdent).
  assert (Hntx' : num_tx sm = Z.of_nat tx)
    by (rewrite Hntx; unfold grid_tx; lia).
  assert (Hnst' : num_streams_per_tx sm = Z.of_nat st)
    by (rewrite Hnst; unfold grid_streams; lia).
  destruct (@ResourceGridDemapper_call_rank6 A D rg sm dind B rx srx tx st sym
              fft neff nd dd eff Heff Hefflen Heffrange Hslen Hsrange Hntx'
              Hnst' Hdshape Hdrange Hdwf y Hy) as (r & Hr & Hrs & Hrent).
  eexists. exists r. split; [exact Hdinit|]. split; [exact Hr|].
  split; [exact Hrs|].
  intros b i j m k Hb Hi Hj Hm Hk.
  pose proof (@data_count A D rg Hfits Hpp i j Hi Hj) as Hcnt.
  assert (Hse : In (nth m (mask_positions mask 0 i j) (0, 0))
                   (mask_positions mask 0 i j))
    by (apply nth_In; rewrite Hcnt; exact Hm).
  split; [exact Hse|]. split.
  { assert (Hin : In (nth (i * st + j) (stream_ind sm) 0%Z) (stream_ind sm))
      by (apply nth_In; rewrite Hslen; nia).
    rewrite Forall_forall in Hsrange. apply Hsrange in Hin. lia. }
  rewrite Hrent by assumption. rewrite Hdent by assumption.
  destruct (nth m (mask_positions mask 0 i j) (0, 0)) as [s e].
  apply (@mask_positions_bounds _ _ _ _ _ _ _ _ _ _ (mask_shape4 Hfits)) in Hse.
  destruct Hse as [Hs He]. cbn [fst snd].
  assert (Hdiv : (s * neff + e) / neff = s)
    by (symmetry; apply (Nat.div_unique _ _ _ e); lia).
  assert (Hmod : (s * neff + e) mod neff = e)
    by (symmetry; apply (Nat.mod_unique _ _ s); lia).
  rewrite Hdiv, Hmod, Heffnth by exact He. reflexivity.
Qed.

End DemapperStreamReads.





(** ** The mapper on an empty batch *)

Section MapperEmptyBatch.
Context {A : Type} {D : Dtype A}.
Variables (rg : ResourceGrid A) (tg : tensor Z).
Variables (pilot_ind data_ind : list (list nat)).
Variables (tx st sym fft nd : nat).
Hypothesis Htg : shape tg = [tx; st; sym; fft].
Hypothesis Hprank : rank (PilotPattern_pilots (_pilot_pattern rg)) = 3.
Hypothesis Hpsize :
  size (shape (PilotPattern_pilots (_pilot_pattern rg))) = length pilot_ind.
Hypothesis Hpind : Forall (fun idx => in_bounds idx [tx; st; sym; fft]) pilot_ind.
Hypothesis Hdlen : length data_ind = tx * (st * (nd * 1)).
Hypothesis Hdata : 0 < length data_ind.

(** With no batch entry the grid to be updated is empty, and the scatter
    update refuses the data positions. *)
Lemma ResourceGridMapper_call_no_batch : forall x : tensor A,
    shape x = [0; tx; st; nd] ->
    ResourceGridMapper_call
      {| mapper_resource_grid := rg;
         _rg_type := tg;
         _pilot_ind := pilot_ind;
         mapper_data_ind := data_ind |} x
    = Raise (InvalidArgumentError
               "Indices and updates specified for empty output shape").
Proof.
  intros x Hx. unfold ResourceGridMapper_call.
  cbn [mapper_resource_grid _rg_type _pilot_ind mapper_data_ind].
  unfold flatten_last_dims at 1. rewrite Hprank.
  cbn [Nat.leb andb bind Nat.sub firstn skipn app].
  set (p1 := Tensor _ (data (PilotPattern_pilots (_pilot_pattern rg)))).
  assert (Hp1 : shape p1 = [length pilot_ind])
    by (unfold p1; cbn [shape]; rewrite Hpsize; reflexivity).
  clearbody p1.
  destruct (@tf_scatter_nd_spec A zero add pilot_ind p1 (shape tg))
    as (t1 & Ht1 & Hs1).
  { rewrite Htg. discriminate. }
  { exact Hp1. }
  { rewrite Htg. exact Hpind. }
  rewrite Ht1. cbn [bind]. rewrite Htg in Hs1. clear Ht1.
  set (t2 := tf_expand_dims_last t1).
  assert (Hs2 : shape t2 = [tx; st; sym; fft; 1])
    by (unfold t2, tf_expand_dims_last; cbn [shape]; rewrite Hs1; reflexivity).
  clearbody t2.
  unfold dim at 1. rewrite Hx, Hs2. cbn [nth removelast app].
  destruct (@tf_broadcast_to_spec A zero t2 [tx; st; sym; fft; 0])
    as (t3 & Ht3 & Hs3 & _).
  { unfold rank. rewrite Hs2. reflexivity. }
  { rewrite Hs2. cbn [combine].
    repeat (apply Forall_cons; [cbn [fst snd]; auto|]). apply Forall_nil. }
  rewrite Ht3. cbn [bind]. clear Ht3.
  unfold flatten_last_dims. unfold rank at 1 2 3. rewrite Hx.
  cbn [length Nat.leb andb bind Nat.sub firstn skipn app size fold_right].
  set (flat := Tensor _ (data x)).
  assert (Hsf : shape flat = [0; tx * (st * (nd * 1))]) by reflexivity.
  clearbody flat.
  destruct (@tf_transpose_spec A zero (rev (seq 0 (rank flat))) flat)
    as (xt & Hxt & Hsxt & _ & _).
  { unfold rank. rewrite Hsf. reflexivity. }
  rewrite Hxt. cbn [bind]. unfold rank, dim in Hsxt.
  rewrite Hsf in Hsxt. cbn [length seq rev app map nth] in Hsxt. clear Hxt.
  unfold tf_tensor_scatter_nd_update. rewrite Hs3, Hsxt.
  replace (valid_empty_output _ _ _) with false; [reflexivity|].
  unfold valid_empty_output. cbn [size fold_right].
  replace (tx * (st * (sym * (fft * (0 * 1))))) with 0 by lia.
  destruct (length data_ind) as [|k]; [lia|]. reflexivity.
Qed.

End MapperEmptyBatch.

(** The mapper of a constructed grid that has data symbols (pattern and DC
    carrier as for the mapper) does not accept an empty batch: for data of
    shape [[0; num_tx; num_streams_per_tx; num_data_symbols]] it raises
    [InvalidArgumentError], because the scatter update is given positions
    for an empty grid. *)
Theorem ResourceGridMapper_call_empty_batch : forall (A : Type) (D : Dtype A)
    n f s tx st cp gc dc (pp : pilot_pattern_arg A) idx (rg : ResourceGrid A)
    (x : tensor A),
    ResourceGrid_init n f s tx st cp gc dc pp idx = Ok rg ->
    (forall p, pp = PatternInstance p ->
       mask_fits rg
       /\ PilotPattern_check_settings (_pilot_pattern rg) = Ok true) ->
    dc_inside rg ->
    (0 < ResourceGrid_num_data_symbols rg)%Z ->
    shape x = [0; Z.to_nat tx; Z.to_nat st;
               Z.to_nat (ResourceGrid_num_data_symbols rg)] ->
    exists m,
      ResourceGridMapper_init rg = Ok m
      /\ ResourceGridMapper_call m x
         = Raise (InvalidArgumentError
                    "Indices and updates specified for empty output shape").
Proof.
  intros A D n f s tx st cp gc dc pp idx rg x Hinit Hsup Hdc Hpos Hx.
  destruct (@constructed_pattern_fits A D n f s tx st cp gc dc pp idx rg
              Hinit Hsup) as [Hfits Hpp].
  apply ResourceGrid_init_Ok in Hinit.
  destruct Hinit as (Hchk & Hn & Hf & _ & _ & Htx & Hst & _).
  pose proof (@grid_num_data_symbols A D rg Hchk Hfits Hpp) as Hnd.
  rewrite Hnd in Hx. rewrite <- Htx, <- Hst in Hx.
  fold (grid_tx rg) in Hx. fold (grid_streams rg) in Hx.
  destruct (build_type_grid_rows Hchk Hfits)
    as (tg & Hbuild & Htg & _ & Hrows).
  assert (H02 : (0 <> 2)%Z) by discriminate.
  assert (H03 : (0 <> 3)%Z) by discriminate.
  assert (H12 : (1 <> 2)%Z) by discriminate.
  assert (H13 : (1 <> 3)%Z) by discriminate.
  pose proof (@tf_where_length A D rg Hchk Hfits Hdc tg Htg Hrows 0%Z _
                H02 H03 (@data_count A D rg Hfits Hpp)) as Hdlen.
  pose proof (@tf_where_length A D rg Hchk Hfits Hdc tg Htg Hrows 1%Z _
                H12 H13 (@pilot_count A D rg Hfits Hpp)) as Hplen.
  pose proof (@pilots_read_shape A D rg Hfits Hpp) as Hpshape.
  assert (Hprank : rank (PilotPattern_pilots (_pilot_pattern rg)) = 3)
    by (unfold rank; rewrite Hpshape; reflexivity).
  assert (Hpsize : size (shape (PilotPattern_pilots (_pilot_pattern rg)))
                   = length (tf_where tg 1)).
  { rewrite Hpshape, Hplen. cbn [size fold_right]. lia. }
  assert (Hpind : Forall (fun idx => in_bounds idx
                            [grid_tx rg; grid_streams rg; grid_symbols rg;
                             grid_fft rg]) (tf_where tg 1))
    by (rewrite <- Htg; apply tf_where_bounds).
  pose proof Hchk as Hgt. apply ResourceGrid_check_settings_Ok in Hgt.
  destruct Hgt as ((_ & _ & _ & Htx' & Hst') & _).
  unfold ResourceGridMapper_init. rewrite Hbuild. cbn [bind].
  eexists. split; [reflexivity|].
  eapply (@ResourceGridMapper_call_no_batch A D rg tg (tf_where tg 1)
            (tf_where tg 0) (grid_tx rg) (grid_streams rg) (grid_symbols rg)
            (grid_fft rg)
            (grid_symbols rg * grid_subcarriers rg
             - dim_last (_pilots (_pilot_pattern rg)))
            Htg Hprank Hpsize Hpind).
  - rewrite Hdlen. lia.
  - rewrite Hdlen. unfold grid_tx, grid_streams. nia.
  - exact Hx.
Qed.

Lemma ResourceGridMapper_call_empty_batch_witness :
  exists m,
    ResourceGridMapper_init comb_grid = Ok m
    /\ ResourceGridMapper_call m (Tensor [0; 2; 1; 4] [])
       = Raise (InvalidArgumentError
                  "Indices and updates specified for empty output shape").
Proof.
  apply (@ResourceGridMapper_call_empty_batch Z int_dtype 2 8 (15000 # 1)
           2 1 0 [1; 2]%Z true (PatternStr "kronecker") (Some [1%Z])
           comb_grid (Tensor [0; 2; 1; 4] []) comb_grid_constructed).
  - intros p. discriminate.
  - intros _. vm_compute. split; [discriminate | reflexivity].
  - reflexivity.
  - reflexivity.
Defined.

